(** * annotate: the data-extraction scripts [extract.py] and [measure.py]

    A shallow embedding of the two scripts and the properties of their
    calibration parsers, projector / measurer and CSV exporters.

    Modelling conventions.
    - Python numbers (the [int]s and [float]s that [json.load] and [float]
      produce) are idealised as mathematical reals [R]: rounding, overflow,
      infinities and NaN are outside the model.  The operations that raise
      in Python on ordinary numbers stay partial: [/] raises
      [ZeroDivisionError] on a zero divisor and [math.log] raises
      [ValueError] on a non-positive argument.  Where a worked value
      depends on the rounding, the construction of an axis and the
      projector are embedded a second time over binary64 numbers
      ([Extract64]), with [OverflowError] where Python raises it.
    - Exceptions are values of [pyerr]; every function that can raise
      returns a [result].
    - Strings are [string]s of 8-bit characters, each read as the code point
      of that number (0 to 255, the Latin-1 range); the classes [\w], [\s]
      and [\d] are those of [re] for [str] patterns on that range.  Text
      with a code point above 255 is outside the model.
    - An annotation record has its [type], [name] and [coords] keys; the
      [tags] key may be absent. *)

From Stdlib Require Import Floats.
From Stdlib Require Import Reals Lra Lia ZArith List Ascii String Bool.
From stdpp Require Import base option list strings gmap sorting.

Set Default Proof Using "Type".
Local Open Scope string_scope.

(** ** Exceptions and the error monad *)

Inductive pyerr : Set :=
| KeyError
| IndexError
| TypeError
| ValueError
| ZeroDivisionError
| OverflowError.

Inductive result (A : Type) : Type :=
| Ok (x : A)
| Err (e : pyerr).
Arguments Ok {A} x.
Arguments Err {A} e.

Definition bind {A B : Type} (m : result A) (k : A -> result B) : result B :=
  match m with
  | Ok x => k x
  | Err e => Err e
  end.

Notation "x <- m ;; k" := (bind m (fun x => k))
  (at level 20, m at level 99, k at level 200, only parsing).
Notation "' p <- m ;; k" := (bind m (fun x => let 'p := x in k))
  (at level 20, p pattern, m at level 99, k at level 200, only parsing).

(** [for x in l: st = body(x, st)], stopping at the first exception. *)
Fixpoint for_each {A S : Type} (body : A -> S -> result S) (l : list A) (st : S)
  : result S :=
  match l with
  | [] => Ok st
  | x :: l' => st' <- body x st ;; for_each body l' st'
  end.

(** ** Numbers *)

Local Open Scope R_scope.

Definition vec : Type := R * R.

(** [x / y] *)
Definition py_div (x y : R) : result R :=
  if Req_dec_T y 0 then Err ZeroDivisionError else Ok (x / y).

(** [math.log(x)] *)
Definition math_log (x : R) : result R :=
  if Rlt_dec 0 x then Ok (ln x) else Err ValueError.

(** [math.sqrt(x)] *)
Definition math_sqrt (x : R) : result R :=
  if Rlt_dec x 0 then Err ValueError else Ok (sqrt x).

(** [math.exp(x)] *)
Definition math_exp (x : R) : R := exp x.

(** [x**2] *)
Definition sq (x : R) : R := x * x.

(** ** Strings, the [re] fragment the scripts use, and [float] *)

Local Open Scope char_scope.

Definition char_in_range (lo hi c : ascii) : bool :=
  (N_of_ascii lo <=? N_of_ascii c)%N && (N_of_ascii c <=? N_of_ascii hi)%N.

(** [\d] *)
Definition is_digit (c : ascii) : bool := char_in_range "0" "9" c.

(** [\w]: the alphanumeric characters and the underscore.  Above the ASCII
    range these are the letters 0xc0-0xff without the two signs 0xd7 and
    0xf7, the ordinal indicators 0xaa and 0xba, the micro sign 0xb5, the
    superscript digits 0xb2, 0xb3, 0xb9 and the fractions 0xbc-0xbe. *)
Definition is_word (c : ascii) : bool :=
  char_in_range "a" "z" c || char_in_range "A" "Z" c || is_digit c
  || Ascii.eqb c "_"
  || Ascii.eqb c "170" || char_in_range "178" "179" c || Ascii.eqb c "181"
  || char_in_range "185" "186" c || char_in_range "188" "190" c
  || char_in_range "192" "214" c || char_in_range "216" "246" c
  || char_in_range "248" "255" c.

(** [\s]: tab, line feed, vertical tab, form feed, carriage return, the four
    separators 0x1c-0x1f, the space, the next-line control 0x85 and the
    no-break space 0xa0. *)
Definition is_space (c : ascii) : bool :=
  char_in_range "009" "013" c || char_in_range "028" "031" c
  || Ascii.eqb c " " || Ascii.eqb c "133" || Ascii.eqb c "160".

(** The class [[\d.efg+-]] of both calibration grammars. *)
Definition is_numeric (c : ascii) : bool :=
  is_digit c || Ascii.eqb c "." || Ascii.eqb c "e" || Ascii.eqb c "f"
  || Ascii.eqb c "g" || Ascii.eqb c "+" || Ascii.eqb c "-".

Local Close Scope char_scope.

(** Backtracking matchers in continuation-passing style.  A matcher gets the
    remaining input and a continuation for the rest of the pattern; a greedy
    repetition first tries the longest run and gives characters back while
    the continuation fails, as [re] does. *)
Section Regex.
Context {T : Type}.

(** [[cls]*] with the text consumed so far in [acc]. *)
Fixpoint re_star (cls : ascii -> bool) (acc s : string)
    (k : string -> string -> option T) : option T :=
  match s with
  | String c s' =>
      if cls c then
        match re_star cls (acc ++ String c "") s' k with
        | Some r => Some r
        | None => k acc s
        end
      else k acc s
  | EmptyString => k acc s
  end.

(** [[cls]+] *)
Definition re_plus (cls : ascii -> bool) (s : string)
    (k : string -> string -> option T) : option T :=
  match s with
  | String c s' => if cls c then re_star cls (String c "") s' k else None
  | EmptyString => None
  end.

(** A literal character. *)
Definition re_lit (c : ascii) (s : string) (k : string -> option T) : option T :=
  match s with
  | String c' s' => if Ascii.eqb c c' then k s' else None
  | EmptyString => None
  end.

(** [c?] *)
Definition re_opt (c : ascii) (s : string)
    (k : string -> string -> option T) : option T :=
  match s with
  | String c' s' =>
      if Ascii.eqb c c' then
        match k (String c "") s' with
        | Some r => Some r
        | None => k "" s
        end
      else k "" s
  | EmptyString => k "" s
  end.
End Regex.

(** The longest prefix of decimal digits and what follows it. *)
Fixpoint span_digits (s : string) : string * string :=
  match s with
  | String c s' =>
      if is_digit c then let '(d, r) := span_digits s' in (String c d, r)
      else ("", s)
  | EmptyString => ("", "")
  end.

(** The number a string of decimal digits denotes (most significant first). *)
Fixpoint digits_value (acc : Z) (s : string) : Z :=
  match s with
  | String c s' => digits_value (10 * acc + (Z.of_N (N_of_ascii c) - 48)) s'
  | EmptyString => acc
  end.

Definition take_sign (s : string) : bool * string :=
  match s with
  | String "-" s' => (true, s')
  | String "+" s' => (false, s')
  | _ => (false, s)
  end.

(** The decimal exponent of a float literal: nothing, or [e] / [E], an
    optional sign and at least one digit, up to the end of the string. *)
Definition float_exponent (s : string) : option Z :=
  match s with
  | EmptyString => Some 0%Z
  | String c s' =>
      if Ascii.eqb c "e" || Ascii.eqb c "E" then
        let '(neg, s1) := take_sign s' in
        let '(d, rest) := span_digits s1 in
        match d, rest with
        | String _ _, EmptyString =>
            Some (if neg then (- digits_value 0 d)%Z else digits_value 0 d)
        | _, _ => None
        end
      else None
  end.

(** A float literal split into sign, decimal mantissa and power of ten:
    [[sign] (digits [. [digits]] | . digits) [exponent]]. *)
Definition float_literal (s : string) : option (bool * Z * Z) :=
  let '(neg, s1) := take_sign s in
  let '(ip, s2) := span_digits s1 in
  let '(fp, s3) :=
    match s2 with
    | String "." t => span_digits t
    | _ => ("", s2)
    end in
  match (ip ++ fp)%string with
  | EmptyString => None
  | mant =>
      match float_exponent s3 with
      | Some e => Some (neg, digits_value 0 mant, (e - Z.of_nat (String.length fp))%Z)
      | None => None
      end
  end.

(** [float(s)] for a token [s] of the class [[\d.efg+-]+], the only strings
    the scripts convert: such a token holds no blank, underscore, [inf] or
    [nan], and [float] accepts it exactly when it is a decimal literal. *)
Definition py_float (s : string) : result R :=
  match float_literal s with
  | Some (neg, m, e) =>
      Ok ((if neg then - IZR m else IZR m) * powerRZ 10 e)
  | None => Err ValueError
  end.

(** ** The annotation file *)

(** The [coords] value of a record: one 2D coordinate [[x, y]] for a point,
    two of them [[[x0, y0], [x1, y1]]] for a line. *)
Inductive coords_t : Type :=
| PointCoords (c : vec)
| LineCoords (c0 c1 : vec).

Module Annotation.
Record t : Type := mk {
  type : string;
  name : string;
  coords : coords_t;
  tags : option (list string)
}.
End Annotation.

Record data_t : Type := { annotations : list Annotation.t }.

(** [item["tags"]] *)
Definition get_tags (item : Annotation.t) : result (list string) :=
  match Annotation.tags item with
  | Some ts => Ok ts
  | None => Err KeyError
  end.

(** The two subscripts [coords[0]], [coords[1]] of a line, used as 2D
    coordinates; the coordinate of a point is a pair of numbers, which cannot be
    subscripted again. *)
Definition line_coords (c : coords_t) : result (vec * vec) :=
  match c with
  | LineCoords c0 c1 => Ok (c0, c1)
  | PointCoords _ => Err TypeError
  end.

(** The two numbers [c[0]], [c[1]] of a point used in arithmetic; the
    entries of a line are lists. *)
Definition point_coords (c : coords_t) : result vec :=
  match c with
  | PointCoords p => Ok p
  | LineCoords _ _ => Err TypeError
  end.

(** The truth value of the [tag] argument: [None] and the empty string (the
    default of [--tag]) are false. *)
Definition tag_active (tag : option string) : option string :=
  match tag with
  | Some EmptyString => None
  | _ => tag
  end.

(** [tag and tag not in item["tags"]]: the [tags] key is read only when
    [tag] is true. *)
Definition tag_excludes (tag : option string) (item : Annotation.t) : result bool :=
  match tag_active tag with
  | Some t => ts <- get_tags item ;; Ok (negb (bool_decide (t ∈ ts)))
  | None => Ok false
  end.

(** The separator, the double quote and the line feed. *)
Definition comma : string := ",".
Definition dquote : string := String (ascii_of_nat 34) "".
Definition newline : string := String (ascii_of_nat 10) "".

(** [",".join(l)] *)
Fixpoint join (sep : string) (l : list string) : string :=
  match l with
  | [] => ""
  | [x] => x
  | x :: l' => x ++ sep ++ join sep l'
  end.

(** [sub in s] *)
Definition str_in (sub s : string) : bool :=
  match String.index 0 sub s with
  | Some _ => true
  | None => false
  end.

(** [csv_sanitize], the same in both scripts. *)
Definition csv_sanitize (s : string) : string :=
  if str_in comma s then dquote ++ s ++ dquote else s.

(** [keys = list(col.keys()); keys.sort()] *)
Definition str_le (s1 s2 : string) : Prop := String.leb s1 s2 = true.
#[global] Instance str_le_dec : RelDecision str_le.
Proof. intros s1 s2. unfold str_le. apply _. Defined.

Definition sorted_keys {V : Type} (col : gmap string V) : list string :=
  merge_sort str_le (elements (dom col)).

(** [l[i]] *)
Definition list_get {A : Type} (l : list A) (i : nat) : result A :=
  match l !! i with
  | Some x => Ok x
  | None => Err IndexError
  end.

(** [d[k]] *)
Definition dict_get {V : Type} (d : gmap string V) (k : string) : result V :=
  match d !! k with
  | Some x => Ok x
  | None => Err KeyError
  end.

(** [[f(x) for x in l]], stopping at the first exception. *)
Fixpoint map_result {A B : Type} (f : A -> result B) (l : list A) : result (list B) :=
  match l with
  | [] => Ok []
  | x :: l' => y <- f x ;; ys <- map_result f l' ;; Ok (y :: ys)
  end.

(** The text written to [fout] and the exception that ended the writing, if
    any. *)
Definition written : Type := string * option pyerr.

(** [for i in range(i, i + n): fout.write(row(i) + "\n")] after [out]. *)
Fixpoint write_rows (row : nat -> result string) (n i : nat) (out : string)
  : written :=
  match n with
  | O => (out, None)
  | S n' =>
      match row i with
      | Ok line => write_rows row n' (S i) (out ++ line ++ newline)
      | Err e => (out, Some e)
      end
  end.

(** ** Pipeline A: [extract.py] *)

Module Extract.

(** [class Axis] *)
Record Axis : Type := mkAxis {
  name : string;
  r0 : vec;
  r1 : vec;
  islog : bool;
  delta : vec;
  l2 : R;
  l : R;
  a : R;
  b : R
}.

(** [Axis.__init__] *)
Definition Axis_init (name : string) (r0 r1 : vec) (a b : R) (islog : bool)
  : result Axis :=
  let delta := (fst r1 - fst r0, snd r1 - snd r0) in
  let l2 := sq (fst r1 - fst r0) + sq (snd r1 - snd r0) in
  l <- math_sqrt l2 ;;
  a' <- (if negb islog then Ok a else math_log a) ;;
  b' <- (if negb islog then Ok b else math_log b) ;;
  Ok (mkAxis name r0 r1 islog delta l2 l a' b').

(** The compiled pattern of [getaxes],
    [(?P<name>\w+):\s*(?P<a>[\d.efg+-]+)\s+(?P<b>[\d.efg+-]+)\s*(?P<islog>L?)],
    applied with [match]: anchored at the start of the string, not at its
    end.  The result holds the groups [name], [a], [b] and [islog]. *)
Definition axis_re (s : string) : option (string * string * string * string) :=
  re_plus is_word s (fun g_name s =>
  re_lit ":" s (fun s =>
  re_star is_space "" s (fun _ s =>
  re_plus is_numeric s (fun g_a s =>
  re_plus is_space s (fun _ s =>
  re_plus is_numeric s (fun g_b s =>
  re_star is_space "" s (fun _ s =>
  re_opt "L" s (fun g_islog _ =>
  Some (g_name, g_a, g_b, g_islog))))))))).

(** The body of the loop of [getaxes]: what one annotation appends. *)
Definition getaxes_item (item : Annotation.t) (axes : list Axis)
  : result (list Axis) :=
  if negb (String.eqb (Annotation.type item) "line") then Ok axes
  else
    match axis_re (Annotation.name item) with
    | Some (g_name, g_a, g_b, g_islog) =>
        a <- py_float g_a ;;
        b <- py_float g_b ;;
        let islog := String.eqb g_islog "L" in
        '(r0, r1) <- line_coords (Annotation.coords item) ;;
        ax <- Axis_init g_name r0 r1 a b islog ;;
        Ok (axes ++ [ax])%list
    | None => Ok axes
    end.

Definition getaxes (data : data_t) : result (list Axis) :=
  for_each getaxes_item (annotations data) [].

(** [v] for one axis and one point coordinate [c]. *)
Definition project (ax : Axis) (c : vec) : result R :=
  q <- py_div ((b ax - a ax) * ((fst c - fst (r0 ax)) * fst (delta ax) +
                                (snd c - snd (r0 ax)) * snd (delta ax)))
              (l2 ax) ;;
  let v := a ax + q in
  Ok (if islog ax then math_exp v else v).

(** [col[ax.name].append(v)] *)
Definition col_append (k : string) (v : R) (col : gmap string (list R))
  : result (gmap string (list R)) :=
  vs <- dict_get col k ;;
  Ok (<[k := (vs ++ [v])%list]> col).

(** The body of [for ax in axes]. *)
Definition extract_axis (c : coords_t) (ax : Axis) (col : gmap string (list R))
  : result (gmap string (list R)) :=
  p <- point_coords c ;;
  v <- project ax p ;;
  col_append (name ax) v col.

(** The body of [for item in data["annotations"]]. *)
Definition extract_item (axes : list Axis) (tag : option string)
    (item : Annotation.t) (col : gmap string (list R))
  : result (gmap string (list R)) :=
  if negb (String.eqb (Annotation.type item) "point") then Ok col
  else
    skip <- tag_excludes tag item ;;
    if (skip : bool) then Ok col
    else for_each (extract_axis (Annotation.coords item)) axes col.

(** [{ax.name : [] for ax in axes}] *)
Definition empty_columns (names : list string) : gmap string (list R) :=
  foldl (fun col k => <[k := []]> col) ∅ names.

Definition extract (data : data_t) (axes : list Axis) (tag : option string)
  : result (gmap string (list R)) :=
  for_each (extract_item axes tag) (annotations data)
           (empty_columns (map name axes)).

Section ExportA.
(** [repr] on numbers. *)
Variable repr : R -> string.

(** [",".join(repr(col[k][i]) for k in keys)] *)
Definition export_row (col : gmap string (list R)) (keys : list string)
    (i : nat) : result string :=
  cells <- map_result (fun k => vs <- dict_get col k ;;
                                v <- list_get vs i ;;
                                Ok (repr v)) keys ;;
  Ok (join comma cells).

Definition export (col : gmap string (list R)) : written :=
  let keys := sorted_keys col in
  match keys with
  | [] => ("", None)
  | k0 :: _ =>
      let out := join comma (map csv_sanitize keys) ++ newline in
      match dict_get col k0 with
      | Ok vs => write_rows (export_row col keys) (length vs) 0 out
      | Err e => (out, Some e)
      end
  end.

(** [main] after the annotation file has been read. *)
Definition main (data : data_t) (tag : option string) : written :=
  match (axes <- getaxes data ;; extract data axes tag) with
  | Ok col => export col
  | Err e => ("", Some e)
  end.
End ExportA.

End Extract.

(** ** Pipeline B: [measure.py] *)

Module Measure.

(** [class Axis], here a scale. *)
Record Axis : Type := mkAxis {
  name : string;
  r0 : vec;
  r1 : vec;
  delta : vec;
  l2 : R;
  l : R;
  physlen : R;
  unitperpx : R
}.

(** [Axis.__init__] *)
Definition Axis_init (name : string) (r0 r1 : vec) (physlen : R)
  : result Axis :=
  let delta := (fst r1 - fst r0, snd r1 - snd r0) in
  let l2 := sq (fst r1 - fst r0) + sq (snd r1 - snd r0) in
  l <- math_sqrt l2 ;;
  unitperpx <- py_div physlen l ;;
  Ok (mkAxis name r0 r1 delta l2 l physlen unitperpx).

(** The compiled pattern of [getscales],
    [(?P<name>\w+):\s*(?P<length>[\d.efg+-]+)], applied with [match].  The
    result holds the groups [name] and [length]. *)
Definition scale_re (s : string) : option (string * string) :=
  re_plus is_word s (fun g_name s =>
  re_lit ":" s (fun s =>
  re_star is_space "" s (fun _ s =>
  re_plus is_numeric s (fun g_length _ =>
  Some (g_name, g_length))))).

(** The body of the loop of [getscales]. *)
Definition getscales_item (item : Annotation.t) (axes : list Axis)
  : result (list Axis) :=
  if negb (String.eqb (Annotation.type item) "line") then Ok axes
  else
    match scale_re (Annotation.name item) with
    | Some (g_name, g_length) =>
        physlen <- py_float g_length ;;
        '(r0, r1) <- line_coords (Annotation.coords item) ;;
        ax <- Axis_init g_name r0 r1 physlen ;;
        Ok (axes ++ [ax])%list
    | None => Ok axes
    end.

Definition getscales (data : data_t) : result (list Axis) :=
  for_each getscales_item (annotations data) [].

(** The pixel length [math.sqrt((c[1][0] - c[0][0])**2 + (c[1][1] - c[0][1])**2)]. *)
Definition pixel_length (c0 c1 : vec) : result R :=
  math_sqrt (sq (fst c1 - fst c0) + sq (snd c1 - snd c0)).

(** [v] for one scale and one line. *)
Definition measure (sc : Axis) (c0 c1 : vec) : result R :=
  d <- pixel_length c0 c1 ;;
  Ok (d * unitperpx sc).

(** The state of the loop of [extract]: [names] and [col]. *)
Definition state : Type := list string * gmap string (list R).

(** [col[sc.name].append(v)] *)
Definition col_append (k : string) (v : R) (col : gmap string (list R))
  : result (gmap string (list R)) :=
  vs <- dict_get col k ;;
  Ok (<[k := (vs ++ [v])%list]> col).

(** The body of [for sc in scales]. *)
Definition extract_scale (c : coords_t) (sc : Axis) (col : gmap string (list R))
  : result (gmap string (list R)) :=
  '(c0, c1) <- line_coords c ;;
  v <- measure sc c0 c1 ;;
  col_append (name sc) v col.

(** The body of [for item in data["annotations"]]. *)
Definition extract_item (scales : list Axis) (tag : option string)
    (item : Annotation.t) (st : state) : result state :=
  if negb (String.eqb (Annotation.type item) "line") then Ok st
  else
    skip <- tag_excludes tag item ;;
    if (skip : bool) then Ok st
    else
      let names := (fst st ++ [Annotation.name item])%list in
      col <- for_each (extract_scale (Annotation.coords item)) scales (snd st) ;;
      Ok (names, col).

(** [{sc.name : [] for sc in scales}] *)
Definition empty_columns (names : list string) : gmap string (list R) :=
  foldl (fun col k => <[k := []]> col) ∅ names.

Definition extract (data : data_t) (scales : list Axis) (tag : option string)
  : result state :=
  for_each (extract_item scales tag) (annotations data)
           ([], empty_columns (map name scales)).

Section ExportB.
(** [str] on numbers. *)
Variable str : R -> string.

(** [names[i] + "," + ",".join(str(col[k][i]) for k in keys)] *)
Definition export_row (names : list string) (col : gmap string (list R))
    (keys : list string) (i : nat) : result string :=
  n <- list_get names i ;;
  cells <- map_result (fun k => vs <- dict_get col k ;;
                                v <- list_get vs i ;;
                                Ok (str v)) keys ;;
  Ok (n ++ comma ++ join comma cells).

Definition export (names : list string) (col : gmap string (list R))
  : written :=
  let keys := sorted_keys col in
  match keys with
  | [] => ("", None)
  | k0 :: _ =>
      let out := "name" ++ comma ++ join comma (map csv_sanitize keys)
                 ++ newline in
      match dict_get col k0 with
      | Ok vs => write_rows (export_row names col keys) (length vs) 0 out
      | Err e => (out, Some e)
      end
  end.

(** [main] after the annotation file has been read. *)
Definition main (data : data_t) (tag : option string) : written :=
  match (axes <- getscales data ;; extract data axes tag) with
  | Ok (names, col) => export names col
  | Err e => ("", Some e)
  end.
End ExportB.

End Measure.

(** ** Specification vocabulary *)

Section ColumnsSpec.
Context {C : Type} (key : C -> string).

(** [col[key(c)].append(val(c))] *)
Definition append_step (val : C -> R) (c : C) (col : gmap string (list R))
  : result (gmap string (list R)) :=
  vs <- dict_get col (key c) ;;
  Ok (<[key c := (vs ++ [val c])%list]> col).

(** The values one annotation adds to column [k], in calibration order. *)
Definition picks (val : C -> R) (k : string) (cals : list C) : list R :=
  map val (filter (fun c => key c = k) cals).

Definition has_keys (cals : list C) (col : gmap string (list R)) : Prop :=
  forall c, c ∈ cals -> is_Some (col !! key c).
End ColumnsSpec.

(** Whether [item] gets past the tag filter, when its tags can be read. *)
Definition passes (tag : option string) (item : Annotation.t) : bool :=
  match tag_active tag with
  | None => true
  | Some t =>
      match Annotation.tags item with
      | Some ts => bool_decide (t ∈ ts)
      | None => false
      end
  end.

(** Whether the filter can be applied to [item] without a missing key. *)
Definition tags_readable (tag : option string) (item : Annotation.t) : bool :=
  match tag_active tag, Annotation.tags item with
  | Some _, None => false
  | _, _ => true
  end.

(** An annotation of the right type that gets past the filter. *)
Definition qualifies (kind : string) (tag : option string) (item : Annotation.t) : bool :=
  String.eqb (Annotation.type item) kind && passes tag item.

(** The coordinates of the qualifying points, in input order. *)
Definition qualifying_points (tag : option string) (items : list Annotation.t)
  : list vec :=
  omap (fun item =>
          if qualifies "point" tag item then
            match Annotation.coords item with
            | PointCoords p => Some p
            | LineCoords _ _ => None
            end
          else None) items.

(** The qualifying lines, in input order. *)
Definition qualifying_lines (tag : option string) (items : list Annotation.t)
  : list Annotation.t :=
  filter (fun item => qualifies "line" tag item = true) items.

(** The inner product of [c - r0] and [r1 - r0], and [|r1 - r0|^2]. *)
Definition dot_along (r0 r1 c : vec) : R :=
  (fst c - fst r0) * (fst r1 - fst r0) + (snd c - snd r0) * (snd r1 - snd r0).

Definition dist2 (r0 r1 : vec) : R :=
  sq (fst r1 - fst r0) + sq (snd r1 - snd r0).

(** The projected value of pipeline A on a usable axis: the expression of
    [extract] with the division taken in [R]. *)
Definition proj_val (ax : Extract.Axis) (c : vec) : R :=
  let v := Extract.a ax
           + (Extract.b ax - Extract.a ax)
             * ((fst c - fst (Extract.r0 ax)) * fst (Extract.delta ax) +
                (snd c - snd (Extract.r0 ax)) * snd (Extract.delta ax))
             / Extract.l2 ax in
  if Extract.islog ax then exp v else v.

(** The measured value of pipeline B for a line with endpoints [c0], [c1]. *)
Definition meas_val (sc : Measure.Axis) (c : vec * vec) : R :=
  sqrt (dist2 (fst c) (snd c)) * Measure.unitperpx sc.

(** The endpoints of a line annotation (the origin twice for a point, which
    the measurer cannot process). *)
Definition endpoints (item : Annotation.t) : vec * vec :=
  match Annotation.coords item with
  | LineCoords c0 c1 => (c0, c1)
  | PointCoords _ => ((0, 0), (0, 0))
  end.

Definition is_line_coords (c : coords_t) : bool :=
  match c with LineCoords _ _ => true | PointCoords _ => false end.

Definition is_point_coords (c : coords_t) : bool :=
  match c with PointCoords _ => true | LineCoords _ _ => false end.

(** The hypotheses under which the projector runs to completion: the filter
    can be applied to every point, every qualifying point has a point
    coordinate and every axis has distinct endpoints. *)
Definition projectable (axes : list Extract.Axis) (tag : option string)
    (items : list Annotation.t) : Prop :=
  (forall item, In item items -> Annotation.type item = "point" ->
                tags_readable tag item = true) /\
  (forall item, In item items -> qualifies "point" tag item = true ->
                is_point_coords (Annotation.coords item) = true) /\
  (forall ax, In ax axes -> Extract.l2 ax <> 0).

(** The linear axis of the worked examples: from [(0,0)] to [(10,0)], for
    the values [0] to [100]. *)
Definition example_axis : Extract.Axis :=
  Extract.mkAxis "X" (0, 0) (10, 0) false
                 (10 - 0, 0 - 0) (sq (10 - 0) + sq (0 - 0))
                 (sqrt (sq (10 - 0) + sq (0 - 0))) 0 100.

(** The log-scaled axis of the worked example: from [(0,0)] to [(10,0)],
    for the values [1] to [100]. *)
Definition example_log_axis : Extract.Axis :=
  Extract.mkAxis "X" (0, 0) (10, 0) true
                 (10 - 0, 0 - 0) (sq (10 - 0) + sq (0 - 0))
                 (sqrt (sq (10 - 0) + sq (0 - 0))) (ln 1) (ln 100).

(** The hypotheses under which the measurer runs to completion: the filter
    can be applied to every line and every qualifying line has two
    endpoints. *)
Definition measurable (tag : option string) (items : list Annotation.t) : Prop :=
  (forall item, In item items -> Annotation.type item = "line" ->
                tags_readable tag item = true) /\
  (forall item, In item items -> qualifies "line" tag item = true ->
                is_line_coords (Annotation.coords item) = true).

(** The scale of the worked example: from [(0,0)] to [(5,0)], of physical
    length [10]. *)
Definition example_scale : Measure.Axis :=
  Measure.mkAxis "S" (0, 0) (5, 0) (5 - 0, 0 - 0) (dist2 (0, 0) (5, 0))
                 (sqrt (dist2 (0, 0) (5, 0))) 10
                 (10 / sqrt (dist2 (0, 0) (5, 0))).

(** A line annotation without tags. *)
Definition line (name : string) (c0 c1 : vec) : Annotation.t :=
  Annotation.mk "line" name (LineCoords c0 c1) None.

(** A point annotation without tags. *)
Definition point (name : string) (c : vec) : Annotation.t :=
  Annotation.mk "point" name (PointCoords c) None.

(** How many calibrations carry the name [k]. *)
Definition count_name {C : Type} (key : C -> string) (k : string) (cals : list C) : nat :=
  length (filter (fun c => key c = k) cals).

(** The names of the calibrations [getaxes] reads off the annotations: the
    [name] group of every line the grammar accepts, in input order. *)
Definition axis_names (items : list Annotation.t) : list string :=
  omap (fun item =>
          if String.eqb (Annotation.type item) "line" then
            match Extract.axis_re (Annotation.name item) with
            | Some (g_name, _, _, _) => Some g_name
            | None => None
            end
          else None) items.

(** The same for [getscales]. *)
Definition scale_names (items : list Annotation.t) : list string :=
  omap (fun item =>
          if String.eqb (Annotation.type item) "line" then
            match Measure.scale_re (Annotation.name item) with
            | Some (g_name, _) => Some g_name
            | None => None
            end
          else None) items.

(** Two axes named [X] and one point: the input of the duplicate-name
    example. *)
Definition dup_axis1 : Extract.Axis :=
  Extract.mkAxis "X" (0, 0) (10, 0) false (10 - 0, 0 - 0)
                 (dist2 (0, 0) (10, 0)) (sqrt (dist2 (0, 0) (10, 0))) 0 100.

Definition dup_axis2 : Extract.Axis :=
  Extract.mkAxis "X" (0, 0) (0, 10) false (0 - 0, 10 - 0)
                 (dist2 (0, 0) (0, 10)) (sqrt (dist2 (0, 0) (0, 10))) 0 10.

Definition dup_data : data_t :=
  {| annotations := [line "X: 0 100" (0, 0) (10, 0);
                     line "X: 0 10" (0, 0) (0, 10);
                     point "p" (5, 5)] |}.

(** One axis line and no point: the input of the header-only example. *)
Definition header_only_data : data_t :=
  {| annotations := [line "X: 0 100" (0, 0) (10, 0)] |}.

(** A number formatter for inputs on which no number is printed. *)
Definition no_number : R -> string := fun _ => "".

(** [item] under another name. *)
Definition rename (nm : string) (item : Annotation.t) : Annotation.t :=
  Annotation.mk (Annotation.type item) nm (Annotation.coords item)
                (Annotation.tags item).

Definition result_map {A B : Type} (f : A -> B) (m : result A) : result B :=
  match m with
  | Ok x => Ok (f x)
  | Err e => Err e
  end.

(** A scale line alone: the input of the self-measurement example. *)
Definition self_measure_data : data_t :=
  {| annotations := [line "S: 10" (0, 0) (5, 0)] |}.

(** A scale line and a line whose name holds a comma: the input of the
    unquoted-name example. *)
Definition comma_data : data_t :=
  {| annotations := [line "S: 10" (0, 0) (5, 0); line "a,b" (0, 0) (3, 4)] |}.

(** [item] without its [tags] key, and a file without any. *)
Definition strip_tags (item : Annotation.t) : Annotation.t :=
  Annotation.mk (Annotation.type item) (Annotation.name item)
                (Annotation.coords item) None.

Definition strip_all_tags (data : data_t) : data_t :=
  {| annotations := map strip_tags (annotations data) |}.

(** A tagged axis file with one untagged point: the input of the missing-key
    example. *)
Definition untagged_data : data_t :=
  {| annotations := [line "X: 0 100" (0, 0) (10, 0);
                     Annotation.mk "point" "p" (PointCoords (5, 0)) (Some ["A"]);
                     point "q" (7, 0)] |}.

(** Every character of [s] is in the class [cls]. *)
Fixpoint all_chars (cls : ascii -> bool) (s : string) : bool :=
  match s with
  | String c s' => cls c && all_chars cls s'
  | EmptyString => true
  end.

(** The same with a third axis [Y]. *)
Definition dup_axis_y : Extract.Axis :=
  Extract.mkAxis "Y" (0, 0) (0, 10) false (0 - 0, 10 - 0)
                 (dist2 (0, 0) (0, 10)) (sqrt (dist2 (0, 0) (0, 10))) 0 1.

Definition dup_data_y : data_t :=
  {| annotations := [line "X: 0 100" (0, 0) (10, 0);
                     line "X: 0 10" (0, 0) (0, 10);
                     line "Y: 0 1" (0, 0) (0, 10);
                     point "p" (5, 5)] |}.

(** The annotations of the given type that get past the filter, as a file of
    their own. *)
Definition keep_qualifying (kind : string) (tag : option string) (data : data_t)
  : data_t :=
  {| annotations := filter (fun item => qualifies kind tag item = true)
                           (annotations data) |}.

(** An axis line and two tagged points, and a scale line with two tagged
    lines: the inputs of the filter examples. *)
Definition tagged_points : data_t :=
  {| annotations := [line "X: 0 100" (0, 0) (10, 0);
                     Annotation.mk "point" "p" (PointCoords (5, 0)) (Some ["A"]);
                     Annotation.mk "point" "q" (PointCoords (7, 0)) (Some ["B"])] |}.

Definition tagged_lines : data_t :=
  {| annotations := [Annotation.mk "line" "S: 10" (LineCoords (0, 0) (5, 0)) (Some []);
                     Annotation.mk "line" "u" (LineCoords (0, 0) (3, 4)) (Some ["A"]);
                     Annotation.mk "line" "v" (LineCoords (0, 0) (6, 8)) (Some ["B"])] |}.

(** The text of [n] rows, from row [i] on, each ended by a line feed. *)
Fixpoint rows_text (row : nat -> string) (n i : nat) : string :=
  match n with
  | O => ""
  | S n' => (row i ++ newline) ++ rows_text row n' (S i)
  end.

(** Entry [i] of column [k] (zero where there is none). *)
Definition cell (col : gmap string (list R)) (k : string) (i : nat) : R :=
  nth i (default [] (col !! k)) 0.

(** The length of the column the exporters take the row count from: the
    first one in key order. *)
Definition first_length (col : gmap string (list R)) : nat :=
  match sorted_keys col with
  | k0 :: _ => length (default [] (col !! k0))
  | [] => O
  end.

(** The order of [keys.sort()] is a total order on strings. *)
#[global] Instance str_le_total : Total str_le.
Proof. intros s1 s2. apply String.leb_total. Defined.

#[global] Instance str_le_trans : Transitive str_le.
Proof.
  intros s1 s2 s3 H12 H23. unfold str_le in *.
  apply Is_true_true. apply Is_true_true in H12, H23.
  exact (transitivity (R := String.le) H12 H23).
Defined.

#[global] Instance str_le_antisym : AntiSymm (=) str_le.
Proof. intros s1 s2 H12 H21. apply String.leb_antisym; assumption. Defined.

(** Calibrations in the order of their names. *)
Definition key_le {C : Type} (key : C -> string) (c1 c2 : C) : Prop :=
  str_le (key c1) (key c2).
#[global] Instance key_le_dec {C : Type} (key : C -> string) : RelDecision (key_le key).
Proof. intros c1 c2. unfold key_le. apply _. Defined.

Definition sorted_by_key {C : Type} (key : C -> string) (cals : list C) : list C :=
  merge_sort (key_le key) cals.

(** Lines of text, each ended by a line feed. *)
Fixpoint concat_lines (l : list string) : string :=
  match l with
  | [] => ""
  | x :: l' => (x ++ newline) ++ concat_lines l'
  end.

(** The table pipeline A prints for the axes [axes] and the points [pts]:
    the axis names in order, then one row of projected values per point. *)
Definition point_table (repr : R -> string) (axes : list Extract.Axis)
    (pts : list vec) : string :=
  join comma (map csv_sanitize (map Extract.name (sorted_by_key Extract.name axes)))
  ++ newline
  ++ concat_lines
       (map (fun p => join comma (map (fun ax => repr (proj_val ax p))
                                      (sorted_by_key Extract.name axes)))
            pts).

(** The table pipeline B prints for the scales [scales] and the lines
    [items]: [name] and the scale names in order, then one row per line
    with its name and its measured lengths. *)
Definition line_table (str : R -> string) (scales : list Measure.Axis)
    (items : list Annotation.t) : string :=
  "name" ++ comma
  ++ join comma (map csv_sanitize (map Measure.name (sorted_by_key Measure.name scales)))
  ++ newline
  ++ concat_lines
       (map (fun item =>
               Annotation.name item ++ comma
               ++ join comma (map (fun sc => str (meas_val sc (endpoints item)))
                                  (sorted_by_key Measure.name scales)))
            items).

(** The lines the axis grammar accepts, and the axis built from one. *)
Definition accepted_axis_line (item : Annotation.t) : bool :=
  String.eqb (Annotation.type item) "line"
  && match Extract.axis_re (Annotation.name item) with
     | Some _ => true
     | None => false
     end.

Definition axis_of_line (item : Annotation.t) (ax : Extract.Axis) : Prop :=
  exists g_name g_a g_b g_islog a b r0 r1,
    Extract.axis_re (Annotation.name item) = Some (g_name, g_a, g_b, g_islog) /\
    py_float g_a = Ok a /\ py_float g_b = Ok b /\
    Annotation.coords item = LineCoords r0 r1 /\
    Extract.Axis_init g_name r0 r1 a b (String.eqb g_islog "L") = Ok ax.

(** The lines the scale grammar accepts, and the scale built from one. *)
Definition accepted_scale_line (item : Annotation.t) : bool :=
  String.eqb (Annotation.type item) "line"
  && match Measure.scale_re (Annotation.name item) with
     | Some _ => true
     | None => false
     end.

Definition scale_of_line (item : Annotation.t) (sc : Measure.Axis) : Prop :=
  exists g_name g_length physlen r0 r1,
    Measure.scale_re (Annotation.name item) = Some (g_name, g_length) /\
    py_float g_length = Ok physlen /\
    Annotation.coords item = LineCoords r0 r1 /\
    Measure.Axis_init g_name r0 r1 physlen = Ok sc.

(** An annotation without tags: the input of the missing-key example. *)
Definition untagged_point : data_t := {| annotations := [point "q" (7, 0)] |}.

Definition untagged_line : data_t := {| annotations := [line "u" (0, 0) (3, 4)] |}.

(** [s] is empty or starts with a character outside the class [cls]. *)
Definition starts_outside (cls : ascii -> bool) (s : string) : Prop :=
  match s with
  | EmptyString => True
  | String c _ => cls c = false
  end.

(** The characters a float literal is made of, and whether [c] occurs in
    [s]. *)
Definition is_float_char (c : ascii) : bool :=
  is_digit c || Ascii.eqb c "." || Ascii.eqb c "e" || Ascii.eqb c "E"
  || Ascii.eqb c "+" || Ascii.eqb c "-".

Fixpoint has_char (c : ascii) (s : string) : bool :=
  match s with
  | String c' s' => Ascii.eqb c c' || has_char c s'
  | EmptyString => false
  end.


(** An axis line with coinciding endpoints, a point with the tag [A] and a
    point without tags, in this order. *)
Definition degenerate_axis : Extract.Axis :=
  Extract.mkAxis "X" (3, 4) (3, 4) false
                 (3 - 3, 4 - 4) (dist2 (3, 4) (3, 4)) (sqrt (dist2 (3, 4) (3, 4)))
                 0 100.

Definition tagged_before_untagged : data_t :=
  {| annotations := [line "X: 0 100" (3, 4) (3, 4);
                     Annotation.mk "point" "p" (PointCoords (5, 0)) (Some ["A"]);
                     point "q" (7, 0)] |}.

(** ** The projector in binary64 arithmetic

    The worked values of the specification are values of Python's [float],
    the binary64 format, and the last digits of a value that goes through
    [math.log] and [math.exp] depend on the rounding.  For these values
    [Axis.__init__] and the projector of [extract.py] are embedded a second
    time, over the primitive binary64 numbers: [+], [-], [*], [/] and
    [math.sqrt] are the correctly rounded operations of the format, and
    [math.log] and [math.exp] are modelled by the correctly rounded
    logarithm and exponential (the value the C library returns wherever its
    result is correctly rounded, and within one unit in the last place of
    it otherwise).  Their series are summed in fixed point with 320
    fractional bits and the sum is rounded once, to the nearest binary64
    number. *)

Module F64.
Local Open Scope Z_scope.

(** Fixed-point numbers for the series: the integer [x] stands for
    [x / 2^wp]. *)
Definition wp : Z := 320.

Definition fx_mul (x y : Z) : Z := Z.shiftr (x * y) wp.

Definition fx_div (x y : Z) : Z := Z.shiftl x wp / y.

(** [z + z^3/3 + z^5/5 + ...] for [0 <= z <= 1/3]: [n] terms, the next one
    being [pw / k]. *)
Fixpoint atanh_series (n : nat) (z2 pw k acc : Z) : Z :=
  match n with
  | O => acc
  | S n' => atanh_series n' z2 (fx_mul pw z2) (k + 2) (acc + pw / k)
  end.

Definition fx_atanh (z : Z) : Z := atanh_series 110 (fx_mul z z) z 1 0.

(** [ln 2 = 2 atanh (1/3)] *)
Definition fx_ln2 : Z := Eval vm_compute in 2 * fx_atanh (fx_div 1 3).

(** [ln (m * 2^e)] for a positive integer [m]: with [m = y * 2^nb] and
    [1 <= y < 2] it is [(e + nb) ln 2 + 2 atanh ((y - 1) / (y + 1))]. *)
Definition fx_ln (m : positive) (e : Z) : Z :=
  let nb := Z.log2 (Z.pos m) in
  let one := Z.shiftl 1 nb in
  (e + nb) * fx_ln2 + 2 * fx_atanh (fx_div (Z.pos m - one) (Z.pos m + one)).

(** [1 + r + r^2/2! + ...] for [0 <= r < ln 2]: [n] terms, the next one
    being [term]. *)
Fixpoint exp_series (n : nat) (r term k acc : Z) : Z :=
  match n with
  | O => acc
  | S n' => exp_series n' r (fx_mul term r / k) (k + 1) (acc + term)
  end.

Definition fx_exp (r : Z) : Z := exp_series 90 r (Z.shiftl 1 wp) 1 0.

(** The binary64 number nearest to [m * 2^e], ties to even. *)
Definition round (m e : Z) : float :=
  SF2Prim (binary_normalize 53 1024 m e false).

(** [x / y] *)
Definition div (x y : float) : result float :=
  if PrimFloat.eqb y 0 then Err ZeroDivisionError else Ok (PrimFloat.div x y).

(** [x**2] on a [float]: [OverflowError] when the square of a finite number
    is out of range. *)
Definition sq (x : float) : result float :=
  let y := PrimFloat.mul x x in
  if PrimFloat.is_infinity y && PrimFloat.is_finite x then Err OverflowError
  else Ok y.

(** [math.sqrt(x)] *)
Definition math_sqrt (x : float) : result float :=
  if PrimFloat.ltb x 0 then Err ValueError else Ok (PrimFloat.sqrt x).

(** [math.log(x)]: [ValueError] on zero and on negative numbers. *)
Definition math_log (x : float) : result float :=
  if PrimFloat.leb x 0 then Err ValueError
  else
    match Prim2SF x with
    | S754_finite false m e => Ok (round (fx_ln m e) (- wp))
    | _ => Ok x
    end.

(** [math.exp(x)]: [OverflowError] when the exponential of a finite number
    is out of range.  With [x = k ln 2 + r] it is [2^k * exp r]; from
    [2^12] on in absolute value the result is out of range at once. *)
Definition math_exp (x : float) : result float :=
  match Prim2SF x with
  | S754_finite s m e =>
      if 11 <? Z.log2 (Z.pos m) + e then
        if s then Ok PrimFloat.zero else Err OverflowError
      else
        let ax := Z.shiftl (Z.pos m) (wp + e) in
        let fx := if s then - ax else ax in
        let k := fx / fx_ln2 in
        let y := round (fx_exp (fx - k * fx_ln2)) (k - wp) in
        if PrimFloat.is_infinity y then Err OverflowError else Ok y
  | S754_zero _ => Ok PrimFloat.one
  | S754_infinity true => Ok PrimFloat.zero
  | _ => Ok x
  end.

End F64.

Definition vec64 : Type := float * float.

Inductive coords64_t : Type :=
| PointCoords64 (c : vec64)
| LineCoords64 (c0 c1 : vec64).

(** An annotation record with binary64 coordinates. *)
Module Annotation64.
Record t : Type := mk {
  type : string;
  name : string;
  coords : coords64_t;
  tags : option (list string)
}.
End Annotation64.

Record data64_t : Type := { annotations64 : list Annotation64.t }.

Module Extract64.

Definition point_coords (c : coords64_t) : result vec64 :=
  match c with
  | PointCoords64 p => Ok p
  | LineCoords64 _ _ => Err TypeError
  end.

(** [tag and tag not in item["tags"]] *)
Definition tag_excludes (tag : option string) (item : Annotation64.t) : result bool :=
  match tag_active tag with
  | Some t =>
      match Annotation64.tags item with
      | Some ts => Ok (negb (bool_decide (t ∈ ts)))
      | None => Err KeyError
      end
  | None => Ok false
  end.

(** [class Axis] *)
Record Axis : Type := mkAxis {
  name : string;
  r0 : vec64;
  r1 : vec64;
  islog : bool;
  delta : vec64;
  l2 : float;
  l : float;
  a : float;
  b : float
}.

(** [Axis.__init__] *)
Definition Axis_init (name : string) (r0 r1 : vec64) (a b : float) (islog : bool)
  : result Axis :=
  let delta := (fst r1 - fst r0, snd r1 - snd r0)%float in
  sx <- F64.sq (fst r1 - fst r0)%float ;;
  sy <- F64.sq (snd r1 - snd r0)%float ;;
  let l2 := (sx + sy)%float in
  l <- F64.math_sqrt l2 ;;
  a' <- (if negb islog then Ok a else F64.math_log a) ;;
  b' <- (if negb islog then Ok b else F64.math_log b) ;;
  Ok (mkAxis name r0 r1 islog delta l2 l a' b').

(** [v] for one axis and one point coordinate [c]. *)
Definition project (ax : Axis) (c : vec64) : result float :=
  q <- F64.div ((b ax - a ax) * ((fst c - fst (r0 ax)) * fst (delta ax) +
                                 (snd c - snd (r0 ax)) * snd (delta ax)))%float
               (l2 ax) ;;
  let v := (a ax + q)%float in
  if islog ax then F64.math_exp v else Ok v.

(** [col[ax.name].append(v)] *)
Definition col_append (k : string) (v : float) (col : gmap string (list float))
  : result (gmap string (list float)) :=
  vs <- dict_get col k ;;
  Ok (<[k := (vs ++ [v])%list]> col).

(** The body of [for ax in axes]. *)
Definition extract_axis (c : coords64_t) (ax : Axis) (col : gmap string (list float))
  : result (gmap string (list float)) :=
  p <- point_coords c ;;
  v <- project ax p ;;
  col_append (name ax) v col.

(** The body of [for item in data["annotations"]]. *)
Definition extract_item (axes : list Axis) (tag : option string)
    (item : Annotation64.t) (col : gmap string (list float))
  : result (gmap string (list float)) :=
  if negb (String.eqb (Annotation64.type item) "point") then Ok col
  else
    skip <- tag_excludes tag item ;;
    if (skip : bool) then Ok col
    else for_each (extract_axis (Annotation64.coords item)) axes col.

(** [{ax.name : [] for ax in axes}] *)
Definition empty_columns (names : list string) : gmap string (list float) :=
  foldl (fun col k => <[k := []]> col) ∅ names.

Definition extract (data : data64_t) (axes : list Axis)
    (tag : option string) : result (gmap string (list float)) :=
  for_each (extract_item axes tag) (annotations64 data)
           (empty_columns (map name axes)).

(** The log-scaled axis of the worked example: from [(0,0)] to [(10,0)],
    for the values [1] to [100]; the stored bounds are [math.log(1.0)] and
    [math.log(100.0)]. *)
Definition example_log_axis : Axis :=
  mkAxis "X" (0, 0)%float (10, 0)%float true (10, 0)%float 100%float 10%float
         0%float 0x1.26bb1bbb55516p+2%float.


End Extract64.
(** * Properties *)

(** ** The partial operations on numbers *)

Lemma py_div_ok (x y : R) : y <> 0 -> py_div x y = Ok (x / y).
Proof. intros Hy. unfold py_div. destruct (Req_dec_T y 0); [contradiction | reflexivity]. Qed.

Lemma py_div_zero (x : R) : py_div x 0 = Err ZeroDivisionError.
Proof. unfold py_div. destruct (Req_dec_T 0 0); [reflexivity | contradiction]. Qed.

Lemma math_log_ok (x : R) : 0 < x -> math_log x = Ok (ln x).
Proof. intros Hx. unfold math_log. destruct (Rlt_dec 0 x); [reflexivity | contradiction]. Qed.

Lemma math_log_err (x : R) : x <= 0 -> math_log x = Err ValueError.
Proof. intros Hx. unfold math_log. destruct (Rlt_dec 0 x); [lra | reflexivity]. Qed.

Lemma math_sqrt_ok (x : R) : 0 <= x -> math_sqrt x = Ok (sqrt x).
Proof. intros Hx. unfold math_sqrt. destruct (Rlt_dec x 0); [lra | reflexivity]. Qed.

Lemma sq_nonneg (x : R) : 0 <= sq x.
Proof. unfold sq. nra. Qed.

Lemma sum_sq_nonneg (x y : R) : 0 <= sq x + sq y.
Proof. pose proof (sq_nonneg x). pose proof (sq_nonneg y). lra. Qed.

Lemma sum_sq_zero (x y : R) : sq x + sq y = 0 <-> x = 0 /\ y = 0.
Proof. unfold sq. split; [intros H; split; nra | intros [-> ->]; lra]. Qed.

Lemma sqrt_sum_sq_zero (x y : R) : sqrt (sq x + sq y) = 0 <-> x = 0 /\ y = 0.
Proof.
  rewrite <- sum_sq_zero. split.
  - intros H. apply sqrt_eq_0; [apply sum_sq_nonneg | exact H].
  - intros ->. apply sqrt_0.
Qed.

(** The length of a segment: [math.sqrt] never raises on a sum of squares. *)
Lemma math_sqrt_sum_sq (x y : R) : math_sqrt (sq x + sq y) = Ok (sqrt (sq x + sq y)).
Proof. apply math_sqrt_ok, sum_sq_nonneg. Qed.

Lemma sqrt_sq_of_nonneg (x : R) : 0 <= x -> sqrt (sq x + sq 0) = x.
Proof.
  intros Hx. unfold sq. replace (x * x + 0 * 0) with (x * x) by lra.
  apply sqrt_square, Hx.
Qed.

(** ** Loops *)

Lemma bind_ok_inv {A B : Type} (m : result A) (k : A -> result B) (y : B) :
  bind m k = Ok y -> exists x, m = Ok x /\ k x = Ok y.
Proof. destruct m as [x | e]; simpl; [eauto | discriminate]. Qed.

Lemma for_each_app {A S : Type} (body : A -> S -> result S) (l1 l2 : list A) (st : S) :
  for_each body (l1 ++ l2)%list st = bind (for_each body l1 st) (for_each body l2).
Proof.
  revert st. induction l1 as [| x l1 IH]; intros st; simpl; [reflexivity |].
  destruct (body x st) as [st' | e]; simpl; [apply IH | reflexivity].
Qed.

(** A loop whose body leaves the state alone on every element. *)
Lemma for_each_skip {A S : Type} (body : A -> S -> result S) (l : list A) (st : S) :
  (forall x st', In x l -> body x st' = Ok st') -> for_each body l st = Ok st.
Proof.
  induction l as [| x l IH]; intros H; simpl; [reflexivity |].
  rewrite H by (left; reflexivity). simpl. apply IH.
  intros y st' Hy. apply H. right. exact Hy.
Qed.

(** An element on which the body raises in every state stops the loop. *)
Lemma for_each_raises {A S : Type} (body : A -> S -> result S) (l : list A) (x : A) :
  In x l -> (forall st, exists e, body x st = Err e) ->
  forall st, exists e, for_each body l st = Err e.
Proof.
  intros Hin Hx. induction l as [| y l IH]; [destruct Hin |].
  intros st. simpl. destruct Hin as [-> | Hin].
  - destruct (Hx st) as [e ->]. exists e. reflexivity.
  - destruct (body y st) as [st' | e]; simpl; [apply IH, Hin | eauto].
Qed.

(** Every exception of a loop is an exception of its body. *)
Lemma for_each_err {A S : Type} (body : A -> S -> result S) (P : pyerr -> Prop)
    (l : list A) :
  (forall x st e, In x l -> body x st = Err e -> P e) ->
  forall st e, for_each body l st = Err e -> P e.
Proof.
  induction l as [| y l IH]; intros H st e; simpl; [discriminate |].
  destruct (body y st) as [st' | e'] eqn:Hb; simpl.
  - apply IH. intros x st0 e0 Hx. apply H. right. exact Hx.
  - intros [= <-]. eapply H; [left; reflexivity | exact Hb].
Qed.

(** ** Columns

    Both scripts fill a dictionary of columns the same way: one key per
    calibration name, and for every qualifying annotation one appended value
    per calibration, under the name of that calibration. *)

Section Columns.
Context {C : Type} (key : C -> string).

Lemma picks_cons_eq val c cals : picks key val (key c) (c :: cals) = val c :: picks key val (key c) cals.
Proof. unfold picks. rewrite filter_cons_True by reflexivity. reflexivity. Qed.

Lemma picks_cons_ne val k c cals : key c <> k -> picks key val k (c :: cals) = picks key val k cals.
Proof. intros Hne. unfold picks. rewrite filter_cons_False by exact Hne. reflexivity. Qed.

Lemma picks_length val k cals :
  length (picks key val k cals) = length (filter (fun c => key c = k) cals).
Proof. unfold picks. apply length_map. Qed.

Lemma for_each_append val cals : forall col,
  has_keys key cals col ->
  exists col',
    for_each (append_step key val) cals col = Ok col' /\
    forall k, col' !! k = (fun vs => (vs ++ picks key val k cals)%list) <$> col !! k.
Proof.
  induction cals as [| c cals IH]; intros col Hk.
  - exists col. split; [reflexivity |]. intros k. unfold picks. simpl.
    destruct (col !! k) as [vs |]; simpl; [rewrite app_nil_r |]; reflexivity.
  - destruct (Hk c) as [vs Hvs]; [left |].
    simpl. unfold append_step at 1, dict_get. rewrite Hvs. simpl.
    destruct (IH (<[key c := (vs ++ [val c])%list]> col)) as (col' & Hrun & Hcol').
    { intros c' Hc'. apply lookup_insert_is_Some'. right. apply Hk. right. exact Hc'. }
    exists col'. split; [exact Hrun |]. intros k. rewrite Hcol'.
    destruct (decide (key c = k)) as [<- | Hne].
    + rewrite lookup_insert_eq, Hvs, picks_cons_eq. simpl.
      rewrite <- app_assoc. reflexivity.
    + rewrite lookup_insert_ne by exact Hne. rewrite picks_cons_ne by exact Hne.
      reflexivity.
Qed.

(** The dictionary comprehension [{key(c) : [] for c in cals}]. *)
Lemma foldl_empty_lookup (names : list string) : forall (m : gmap string (list R)) k,
  foldl (fun col k => <[k := []]> col) m names !! k
  = if decide (k ∈ names) then Some [] else m !! k.
Proof.
  induction names as [| n names IH]; intros m k; simpl.
  - destruct (decide (k ∈ [])) as [H | H]; [inversion H | reflexivity].
  - rewrite IH. destruct (decide (k ∈ names)) as [Hin | Hnin].
    + rewrite decide_True by (right; exact Hin). reflexivity.
    + destruct (decide (n = k)) as [-> | Hne].
      * rewrite lookup_insert_eq. rewrite decide_True by left. reflexivity.
      * rewrite lookup_insert_ne by exact Hne.
        rewrite decide_False; [reflexivity |].
        intros H. apply elem_of_cons in H as [-> | H]; [apply Hne; reflexivity | exact (Hnin H)].
Qed.
End Columns.

Lemma for_each_ext {A S : Type} (f g : A -> S -> result S) (l : list A) (st : S) :
  (forall x st', In x l -> f x st' = g x st') -> for_each f l st = for_each g l st.
Proof.
  revert st. induction l as [| x l IH]; intros st H; simpl; [reflexivity |].
  rewrite H by (left; reflexivity).
  destruct (g x st) as [st' | e]; simpl; [| reflexivity].
  apply IH. intros y st0 Hy. apply H. right. exact Hy.
Qed.

(** ** The tag filter *)

Lemma tag_excludes_readable tag item :
  tags_readable tag item = true ->
  tag_excludes tag item = Ok (negb (passes tag item)).
Proof.
  unfold tags_readable, tag_excludes, passes, get_tags.
  destruct (tag_active tag) as [t |]; [| reflexivity].
  destruct (Annotation.tags item) as [ts |]; [reflexivity | discriminate].
Qed.

Lemma tag_excludes_missing tag item :
  tags_readable tag item = false -> tag_excludes tag item = Err KeyError.
Proof.
  unfold tags_readable, tag_excludes, get_tags.
  destruct (tag_active tag) as [t |]; [| discriminate].
  destruct (Annotation.tags item) as [ts |]; [discriminate | reflexivity].
Qed.

Lemma tag_excludes_inactive tag item :
  tag_active tag = None -> tag_excludes tag item = Ok false.
Proof. unfold tag_excludes. intros ->. reflexivity. Qed.

Lemma tag_excludes_err tag item e : tag_excludes tag item = Err e -> e = KeyError.
Proof.
  destruct (tags_readable tag item) eqn:Hr.
  - rewrite tag_excludes_readable by exact Hr. discriminate.
  - rewrite tag_excludes_missing by exact Hr. congruence.
Qed.

(** ** Pipeline A: the projector *)

Lemma project_ok (ax : Extract.Axis) (c : vec) :
  Extract.l2 ax <> 0 -> Extract.project ax c = Ok (proj_val ax c).
Proof.
  intros Hl. unfold Extract.project, proj_val.
  rewrite py_div_ok by exact Hl. reflexivity.
Qed.

Lemma project_degenerate (ax : Extract.Axis) (c : vec) :
  Extract.l2 ax = 0 -> Extract.project ax c = Err ZeroDivisionError.
Proof.
  intros Hl. unfold Extract.project. rewrite Hl, py_div_zero. reflexivity.
Qed.

Lemma extract_axis_append (p : vec) (ax : Extract.Axis) col :
  Extract.l2 ax <> 0 ->
  Extract.extract_axis (PointCoords p) ax col
  = append_step Extract.name (fun ax => proj_val ax p) ax col.
Proof.
  intros Hl. unfold Extract.extract_axis. simpl.
  rewrite project_ok by exact Hl. reflexivity.
Qed.

Lemma extract_item_other axes tag item col :
  Annotation.type item <> "point" ->
  Extract.extract_item axes tag item col = Ok col.
Proof.
  intros Ht. unfold Extract.extract_item.
  destruct (String.eqb_spec (Annotation.type item) "point"); [contradiction | reflexivity].
Qed.

Lemma extract_item_unqualified axes tag item col :
  tags_readable tag item = true -> qualifies "point" tag item = false ->
  Extract.extract_item axes tag item col = Ok col.
Proof.
  intros Hr Hq. unfold Extract.extract_item, qualifies in *.
  destruct (String.eqb (Annotation.type item) "point"); simpl in *; [| reflexivity].
  rewrite tag_excludes_readable by exact Hr. rewrite Hq. reflexivity.
Qed.

Lemma extract_item_qualified axes tag item col :
  qualifies "point" tag item = true -> tags_readable tag item = true ->
  Extract.extract_item axes tag item col
  = for_each (Extract.extract_axis (Annotation.coords item)) axes col.
Proof.
  intros Hq Hr. unfold Extract.extract_item, qualifies in *.
  apply andb_true_iff in Hq as [-> Hp]. simpl.
  rewrite tag_excludes_readable by exact Hr. rewrite Hp. reflexivity.
Qed.

Lemma extract_item_missing_tags axes tag item col :
  Annotation.type item = "point" -> tags_readable tag item = false ->
  Extract.extract_item axes tag item col = Err KeyError.
Proof.
  intros Ht Hr. unfold Extract.extract_item. rewrite Ht. simpl.
  rewrite tag_excludes_missing by exact Hr. reflexivity.
Qed.

Lemma projectable_cons axes tag item items :
  projectable axes tag (item :: items) -> projectable axes tag items.
Proof.
  intros (H1 & H2 & H3). repeat split; intros; auto with datatypes.
Qed.

Lemma extract_items_spec axes tag items : forall col,
  projectable axes tag items ->
  has_keys Extract.name axes col ->
  exists col',
    for_each (Extract.extract_item axes tag) items col = Ok col' /\
    forall k, col' !! k
      = (fun vs => (vs ++ flat_map (fun p => picks Extract.name (fun ax => proj_val ax p) k axes)
                                   (qualifying_points tag items))%list) <$> col !! k.
Proof.
  induction items as [| item items IH]; intros col Hp Hk.
  - exists col. split; [reflexivity |]. intros k. simpl.
    destruct (col !! k); simpl; [rewrite app_nil_r |]; reflexivity.
  - pose proof (projectable_cons _ _ _ _ Hp) as Hp'.
    destruct Hp as (Hread & Hcoords & Hl2).
    simpl. unfold qualifying_points. simpl.
    fold (qualifying_points tag items).
    destruct (qualifies "point" tag item) eqn:Hq.
    + assert (Hr : tags_readable tag item = true).
      { apply Hread; [left; reflexivity |].
        apply andb_true_iff in Hq as [Hq _]. apply String.eqb_eq, Hq. }
      rewrite extract_item_qualified by assumption.
      specialize (Hcoords item (or_introl eq_refl) Hq).
      destruct (Annotation.coords item) as [p | c0 c1]; [| discriminate].
      rewrite (for_each_ext _ (append_step Extract.name (fun ax => proj_val ax p))).
      2:{ intros ax st Hax. apply extract_axis_append, Hl2, Hax. }
      destruct (for_each_append Extract.name (fun ax => proj_val ax p) axes col Hk)
        as (col1 & -> & Hcol1).
      simpl. destruct (IH col1 Hp') as (col' & Hrun & Hcol').
      { intros ax Hax. rewrite Hcol1. apply fmap_is_Some, Hk, Hax. }
      exists col'. split; [exact Hrun |]. intros k. rewrite Hcol', Hcol1.
      destruct (col !! k); simpl; [rewrite app_assoc |]; reflexivity.
    + assert (Hstep : Extract.extract_item axes tag item col = Ok col).
      { destruct (String.eqb_spec (Annotation.type item) "point") as [Ht | Ht].
        - apply extract_item_unqualified; [| exact Hq].
          apply Hread; [left; reflexivity | exact Ht].
        - apply extract_item_other, Ht. }
      rewrite Hstep. simpl. apply IH; assumption.
Qed.

Lemma empty_columns_has_keys (axes : list Extract.Axis) :
  has_keys Extract.name axes (Extract.empty_columns (map Extract.name axes)).
Proof.
  intros ax Hax. unfold Extract.empty_columns. rewrite foldl_empty_lookup.
  rewrite decide_True; [eexists; reflexivity |].
  apply list_elem_of_fmap. exists ax. split; [reflexivity | exact Hax].
Qed.

(** The column dictionary the projector returns. *)
Lemma extract_spec data axes tag :
  projectable axes tag (annotations data) ->
  exists col,
    Extract.extract data axes tag = Ok col /\
    forall k, col !! k
      = if decide (k ∈ map Extract.name axes) then
          Some (flat_map (fun p => picks Extract.name (fun ax => proj_val ax p) k axes)
                         (qualifying_points tag (annotations data)))
        else None.
Proof.
  intros Hp. unfold Extract.extract.
  destruct (extract_items_spec axes tag (annotations data) _ Hp (empty_columns_has_keys axes))
    as (col & Hrun & Hcol).
  exists col. split; [exact Hrun |]. intros k. rewrite Hcol.
  unfold Extract.empty_columns. rewrite foldl_empty_lookup.
  destruct (decide (k ∈ map Extract.name axes)); reflexivity.
Qed.

Lemma Axis_init_linear nm r0 r1 a b :
  Extract.Axis_init nm r0 r1 a b false
  = Ok (Extract.mkAxis nm r0 r1 false
          (fst r1 - fst r0, snd r1 - snd r0) (dist2 r0 r1) (sqrt (dist2 r0 r1)) a b).
Proof.
  unfold Extract.Axis_init, dist2. rewrite math_sqrt_sum_sq. reflexivity.
Qed.

Lemma picks_single {C : Type} (key : C -> string) (val : C -> R) (c : C) :
  picks key val (key c) [c] = [val c].
Proof. rewrite picks_cons_eq. reflexivity. Qed.

Lemma flat_map_single {A B : Type} (f : A -> B) (l : list A) :
  flat_map (fun x => [f x]) l = map f l.
Proof. induction l as [| x l IH]; simpl; [| rewrite IH]; reflexivity. Qed.

Lemma proj_val_linear nm r0 r1 a b c :
  dist2 r0 r1 <> 0 ->
  proj_val (Extract.mkAxis nm r0 r1 false
              (fst r1 - fst r0, snd r1 - snd r0) (dist2 r0 r1) (sqrt (dist2 r0 r1)) a b) c
  = a + (b - a) * (dot_along r0 r1 c / dist2 r0 r1).
Proof.
  intros Hl. unfold proj_val, dot_along. simpl. field. exact Hl.
Qed.

(** C1.  On a linear axis with distinct endpoints the projector maps a point
    [c] to [a + (b - a) * (((c - r0) . (r1 - r0)) / l2)]: this is the value
    computed for one point, every real parameter [t] is reached by some
    point (so nothing is clamped to [[0,1]]), and the column of the axis
    holds that value for every qualifying point, in input order.  On the
    axis from [(0,0)] to [(10,0)] for [0] to [100], the points [(5,0)],
    [(0,0)], [(10,0)] and [(20,0)] give [50], [0], [100] and [200]. *)
Theorem project_linear nm r0 r1 a b ax :
  Extract.Axis_init nm r0 r1 a b false = Ok ax ->
  0 < Extract.l2 ax ->
  let v c := a + (b - a) * (dot_along r0 r1 c / Extract.l2 ax) in
  Extract.l2 ax = dist2 r0 r1 /\
  (forall c, Extract.project ax c = Ok (v c)) /\
  (forall t, exists c, dot_along r0 r1 c / Extract.l2 ax = t /\
                       Extract.project ax c = Ok (a + (b - a) * t)) /\
  (forall data tag,
      projectable [ax] tag (annotations data) ->
      exists col, Extract.extract data [ax] tag = Ok col /\
                  col !! nm = Some (map v (qualifying_points tag (annotations data)))) /\
  (Extract.Axis_init "X" (0, 0) (10, 0) 0 100 false = Ok example_axis /\
   Extract.project example_axis (5, 0) = Ok 50 /\
   Extract.project example_axis (0, 0) = Ok 0 /\
   Extract.project example_axis (10, 0) = Ok 100 /\
   Extract.project example_axis (20, 0) = Ok 200).
Proof.
  rewrite Axis_init_linear. intros [= <-]. simpl. intros Hpos.
  assert (Hl : dist2 r0 r1 <> 0) by lra.
  assert (Hv : forall c,
             Extract.project
               (Extract.mkAxis nm r0 r1 false (fst r1 - fst r0, snd r1 - snd r0)
                               (dist2 r0 r1) (sqrt (dist2 r0 r1)) a b) c
             = Ok (a + (b - a) * (dot_along r0 r1 c / dist2 r0 r1))).
  { intros c. rewrite project_ok by exact Hl. rewrite proj_val_linear by exact Hl.
    reflexivity. }
  split; [reflexivity |]. split; [exact Hv |]. split; [| split].
  - intros t.
    exists (fst r0 + t * (fst r1 - fst r0), snd r0 + t * (snd r1 - snd r0)).
    assert (Ht : dot_along r0 r1
                   (fst r0 + t * (fst r1 - fst r0), snd r0 + t * (snd r1 - snd r0))
                 / dist2 r0 r1 = t).
    { unfold dot_along, dist2, sq in *. simpl. field. exact Hl. }
    split; [exact Ht |]. rewrite Hv, Ht. reflexivity.
  - intros data tag Hp.
    destruct (extract_spec data _ tag Hp) as (col & Hrun & Hcol).
    exists col. split; [exact Hrun |]. rewrite Hcol. simpl.
    rewrite decide_True by left.
    f_equal. rewrite <- flat_map_single. apply flat_map_ext. intros p.
    rewrite <- (proj_val_linear nm r0 r1 a b p Hl).
    exact (picks_single Extract.name (fun ax => proj_val ax p) _).
  - split; [rewrite Axis_init_linear; reflexivity |].
    assert (Hex : Extract.l2 example_axis <> 0) by (simpl; unfold sq; lra).
    repeat split; rewrite project_ok by exact Hex;
      unfold proj_val, example_axis, sq; simpl; f_equal; field.
Qed.

Lemma project_linear_witness :
  Extract.project example_axis (20, 0) = Ok (0 + (100 - 0) * (dot_along (0, 0) (10, 0) (20, 0) / Extract.l2 example_axis)).
Proof.
  assert (Hinit : Extract.Axis_init "X" (0, 0) (10, 0) 0 100 false = Ok example_axis).
  { unfold Extract.Axis_init, example_axis, math_sqrt. simpl.
    destruct (Rlt_dec (sq (10 - 0) + sq (0 - 0)) 0) as [H | H]; [| reflexivity].
    exfalso. unfold sq in H. lra. }
  assert (Hpos : 0 < Extract.l2 example_axis) by (simpl; unfold sq; lra).
  exact (proj1 (proj2 (project_linear "X" (0, 0) (10, 0) 0 100 example_axis Hinit Hpos)) (20, 0)).
Defined.

Lemma Axis_init_log nm r0 r1 a b :
  0 < a -> 0 < b ->
  Extract.Axis_init nm r0 r1 a b true
  = Ok (Extract.mkAxis nm r0 r1 true
          (fst r1 - fst r0, snd r1 - snd r0) (dist2 r0 r1) (sqrt (dist2 r0 r1))
          (ln a) (ln b)).
Proof.
  intros Ha Hb. unfold Extract.Axis_init, dist2. rewrite math_sqrt_sum_sq. simpl.
  rewrite (math_log_ok a Ha), (math_log_ok b Hb). reflexivity.
Qed.

Lemma Axis_init_log_inv nm r0 r1 a b ax :
  Extract.Axis_init nm r0 r1 a b true = Ok ax -> 0 < a /\ 0 < b.
Proof.
  unfold Extract.Axis_init. rewrite math_sqrt_sum_sq. simpl. unfold math_log.
  destruct (Rlt_dec 0 a); [| discriminate]. simpl.
  destruct (Rlt_dec 0 b); [| discriminate]. auto.
Qed.






(** ** Pipeline B: the measurer *)

Lemma measure_ok (sc : Measure.Axis) (c0 c1 : vec) :
  Measure.measure sc c0 c1 = Ok (meas_val sc (c0, c1)).
Proof.
  unfold Measure.measure, Measure.pixel_length, meas_val, dist2.
  rewrite math_sqrt_sum_sq. reflexivity.
Qed.

Lemma extract_scale_append (c0 c1 : vec) (sc : Measure.Axis) col :
  Measure.extract_scale (LineCoords c0 c1) sc col
  = append_step Measure.name (fun sc => meas_val sc (c0, c1)) sc col.
Proof. unfold Measure.extract_scale. simpl. rewrite measure_ok. reflexivity. Qed.

Lemma measure_item_other scales tag item st :
  Annotation.type item <> "line" ->
  Measure.extract_item scales tag item st = Ok st.
Proof.
  intros Ht. unfold Measure.extract_item.
  destruct (String.eqb_spec (Annotation.type item) "line"); [contradiction | reflexivity].
Qed.

Lemma measure_item_unqualified scales tag item st :
  tags_readable tag item = true -> qualifies "line" tag item = false ->
  Measure.extract_item scales tag item st = Ok st.
Proof.
  intros Hr Hq. unfold Measure.extract_item, qualifies in *.
  destruct (String.eqb (Annotation.type item) "line"); simpl in *; [| reflexivity].
  rewrite tag_excludes_readable by exact Hr. rewrite Hq. reflexivity.
Qed.

Lemma measure_item_qualified scales tag item st :
  qualifies "line" tag item = true -> tags_readable tag item = true ->
  Measure.extract_item scales tag item st
  = bind (for_each (Measure.extract_scale (Annotation.coords item)) scales (snd st))
         (fun col => Ok ((fst st ++ [Annotation.name item])%list, col)).
Proof.
  intros Hq Hr. unfold Measure.extract_item, qualifies in *.
  apply andb_true_iff in Hq as [-> Hp]. simpl.
  rewrite tag_excludes_readable by exact Hr. rewrite Hp. reflexivity.
Qed.

Lemma measure_item_missing_tags scales tag item st :
  Annotation.type item = "line" -> tags_readable tag item = false ->
  Measure.extract_item scales tag item st = Err KeyError.
Proof.
  intros Ht Hr. unfold Measure.extract_item. rewrite Ht. simpl.
  rewrite tag_excludes_missing by exact Hr. reflexivity.
Qed.

Lemma measurable_cons tag item items :
  measurable tag (item :: items) -> measurable tag items.
Proof. intros (H1 & H2). split; intros; auto with datatypes. Qed.

Lemma measure_items_spec scales tag items : forall names col,
  measurable tag items ->
  has_keys Measure.name scales col ->
  exists col',
    for_each (Measure.extract_item scales tag) items (names, col)
    = Ok ((names ++ map Annotation.name (qualifying_lines tag items))%list, col') /\
    forall k, col' !! k
      = (fun vs => (vs ++ flat_map
                      (fun item => picks Measure.name
                                     (fun sc => meas_val sc (endpoints item)) k scales)
                      (qualifying_lines tag items))%list) <$> col !! k.
Proof.
  induction items as [| item items IH]; intros names col Hm Hk.
  - exists col. simpl. rewrite app_nil_r. split; [reflexivity |]. intros k.
    destruct (col !! k); simpl; [rewrite app_nil_r |]; reflexivity.
  - pose proof (measurable_cons _ _ _ Hm) as Hm'.
    destruct Hm as (Hread & Hcoords).
    simpl. unfold qualifying_lines.
    destruct (qualifies "line" tag item) eqn:Hq.
    + rewrite filter_cons_True by exact Hq. fold (qualifying_lines tag items).
      assert (Hr : tags_readable tag item = true).
      { apply Hread; [left; reflexivity |].
        apply andb_true_iff in Hq as [Hq _]. apply String.eqb_eq, Hq. }
      rewrite measure_item_qualified by assumption. simpl.
      specialize (Hcoords item (or_introl eq_refl) Hq).
      unfold endpoints at 1.
      destruct (Annotation.coords item) as [p | c0 c1]; [discriminate |].
      rewrite (for_each_ext _ (append_step Measure.name (fun sc => meas_val sc (c0, c1)))).
      2:{ intros sc st _. apply extract_scale_append. }
      destruct (for_each_append Measure.name (fun sc => meas_val sc (c0, c1)) scales col Hk)
        as (col1 & -> & Hcol1).
      simpl. destruct (IH (names ++ [Annotation.name item])%list col1 Hm')
        as (col' & Hrun & Hcol').
      { intros sc Hsc. rewrite Hcol1. apply fmap_is_Some, Hk, Hsc. }
      exists col'. split.
      * rewrite Hrun. rewrite <- app_assoc. reflexivity.
      * intros k. rewrite Hcol', Hcol1.
        destruct (col !! k); simpl; [rewrite <- app_assoc |]; reflexivity.
    + rewrite filter_cons_False by (rewrite Hq; discriminate).
      fold (qualifying_lines tag items).
      assert (Hstep : Measure.extract_item scales tag item (names, col) = Ok (names, col)).
      { destruct (String.eqb_spec (Annotation.type item) "line") as [Ht | Ht].
        - apply measure_item_unqualified; [| exact Hq].
          apply Hread; [left; reflexivity | exact Ht].
        - apply measure_item_other, Ht. }
      rewrite Hstep. simpl. apply IH; assumption.
Qed.

Lemma scale_columns_has_keys (scales : list Measure.Axis) :
  has_keys Measure.name scales (Measure.empty_columns (map Measure.name scales)).
Proof.
  intros sc Hsc. unfold Measure.empty_columns. rewrite foldl_empty_lookup.
  rewrite decide_True; [eexists; reflexivity |].
  apply list_elem_of_fmap. exists sc. split; [reflexivity | exact Hsc].
Qed.

(** The names and the column dictionary the measurer returns. *)
Lemma measure_spec data scales tag :
  measurable tag (annotations data) ->
  exists col,
    Measure.extract data scales tag
    = Ok (map Annotation.name (qualifying_lines tag (annotations data)), col) /\
    forall k, col !! k
      = if decide (k ∈ map Measure.name scales) then
          Some (flat_map (fun item => picks Measure.name
                                        (fun sc => meas_val sc (endpoints item)) k scales)
                         (qualifying_lines tag (annotations data)))
        else None.
Proof.
  intros Hm. unfold Measure.extract.
  destruct (measure_items_spec scales tag (annotations data) [] _ Hm
              (scale_columns_has_keys scales)) as (col & Hrun & Hcol).
  exists col. split; [exact Hrun |]. intros k. rewrite Hcol.
  unfold Measure.empty_columns. rewrite foldl_empty_lookup.
  destruct (decide (k ∈ map Measure.name scales)); reflexivity.
Qed.

Lemma scale_init_ok nm r0 r1 physlen :
  dist2 r0 r1 <> 0 ->
  Measure.Axis_init nm r0 r1 physlen
  = Ok (Measure.mkAxis nm r0 r1 (fst r1 - fst r0, snd r1 - snd r0)
          (dist2 r0 r1) (sqrt (dist2 r0 r1)) physlen
          (physlen / sqrt (dist2 r0 r1))).
Proof.
  intros Hl. unfold Measure.Axis_init. fold (dist2 r0 r1).
  unfold dist2 at 1. rewrite math_sqrt_sum_sq. fold (dist2 r0 r1). simpl.
  rewrite py_div_ok; [reflexivity |].
  intros H0. apply Hl. unfold dist2 in *. apply sqrt_sum_sq_zero in H0.
  apply sum_sq_zero. exact H0.
Qed.

Lemma scale_init_degenerate nm r0 r1 physlen :
  dist2 r0 r1 = 0 ->
  Measure.Axis_init nm r0 r1 physlen = Err ZeroDivisionError.
Proof.
  intros Hl. unfold Measure.Axis_init. fold (dist2 r0 r1).
  unfold dist2 at 1. rewrite math_sqrt_sum_sq. fold (dist2 r0 r1). simpl.
  rewrite Hl, sqrt_0, py_div_zero. reflexivity.
Qed.

Lemma dist2_example : sqrt (dist2 (0, 0) (5, 0)) = 5.
Proof.
  unfold dist2. simpl. replace (5 - 0) with 5 by lra. replace (0 - 0) with 0 by lra.
  apply sqrt_sq_of_nonneg. lra.
Qed.

(** C3.  A scale built from a line [r0]-[r1] of physical length [physlen] has
    [unitperpx = physlen / |r1 - r0|]; the measurer's value for a line
    [c0]-[c1] is [|c1 - c0| * unitperpx], and the column of the scale holds
    it for every qualifying line, in input order.  The scale from [(0,0)] to
    [(5,0)] of physical length [10] has [unitperpx = 2], and a line of pixel
    length [5] measures [10]. *)
Theorem scale_measure nm r0 r1 physlen sc :
  Measure.Axis_init nm r0 r1 physlen = Ok sc ->
  Measure.unitperpx sc = physlen / sqrt (dist2 r0 r1) /\
  (forall c0 c1,
      Measure.measure sc c0 c1 = Ok (sqrt (dist2 c0 c1) * Measure.unitperpx sc)) /\
  (forall data tag,
      measurable tag (annotations data) ->
      exists names col,
        Measure.extract data [sc] tag = Ok (names, col) /\
        col !! nm
        = Some (map (fun item => sqrt (dist2 (fst (endpoints item)) (snd (endpoints item)))
                                 * Measure.unitperpx sc)
                    (qualifying_lines tag (annotations data)))) /\
  (Measure.Axis_init "S" (0, 0) (5, 0) 10 = Ok example_scale /\
   Measure.unitperpx example_scale = 2 /\
   forall c0 c1, sqrt (dist2 c0 c1) = 5 ->
                 Measure.measure example_scale c0 c1 = Ok 10).
Proof.
  intros Hinit.
  destruct (Req_dec_T (dist2 r0 r1) 0) as [H0 | Hl].
  { rewrite scale_init_degenerate in Hinit by exact H0. discriminate. }
  rewrite scale_init_ok in Hinit by exact Hl. injection Hinit as <-. simpl.
  split; [reflexivity |]. split; [intros c0 c1; apply measure_ok |]. split.
  - intros data tag Hm.
    destruct (measure_spec data
                [Measure.mkAxis nm r0 r1 (fst r1 - fst r0, snd r1 - snd r0)
                   (dist2 r0 r1) (sqrt (dist2 r0 r1)) physlen
                   (physlen / sqrt (dist2 r0 r1))] tag Hm) as (col & Hrun & Hcol).
    eexists _, col. split; [exact Hrun |]. rewrite Hcol. simpl.
    rewrite decide_True by left. f_equal.
    rewrite <- flat_map_single. apply flat_map_ext. intros item.
    exact (picks_single Measure.name (fun sc => meas_val sc (endpoints item)) _).
  - assert (Hex : dist2 (0, 0) (5, 0) <> 0).
    { intros H0. pose proof dist2_example as H5. rewrite H0, sqrt_0 in H5. lra. }
    split; [rewrite scale_init_ok by exact Hex; reflexivity |].
    assert (Hu : Measure.unitperpx example_scale = 2).
    { simpl. rewrite dist2_example. lra. }
    split; [exact Hu |].
    intros c0 c1 H5. rewrite measure_ok. unfold meas_val. rewrite Hu. simpl.
    rewrite H5. f_equal. lra.
Qed.

Lemma scale_measure_witness :
  Measure.measure example_scale (0, 0) (5, 0)
  = Ok (sqrt (dist2 (0, 0) (5, 0)) * Measure.unitperpx example_scale).
Proof.
  assert (Hinit : Measure.Axis_init "S" (0, 0) (5, 0) 10 = Ok example_scale).
  { apply scale_init_ok. intros H0. pose proof dist2_example as H5.
    rewrite H0, sqrt_0 in H5. lra. }
  exact (proj1 (proj2 (scale_measure "S" (0, 0) (5, 0) 10 example_scale Hinit)) (0, 0) (5, 0)).
Defined.

(** ** What the grammars capture *)

Lemma append_cons (c : ascii) (s1 s2 : string) :
  (String c s1 ++ s2)%string = String c (s1 ++ s2).
Proof. reflexivity. Qed.

Lemma append_nil_r (s : string) : (s ++ "")%string = s.
Proof. induction s as [| c s IH]; [reflexivity |]. rewrite append_cons, IH. reflexivity. Qed.

Lemma append_assoc (s1 s2 s3 : string) :
  ((s1 ++ s2) ++ s3)%string = (s1 ++ s2 ++ s3)%string.
Proof.
  induction s1 as [| c s1 IH]; [reflexivity |].
  rewrite !append_cons, IH. reflexivity.
Qed.

Section RegexInversion.
Context {T : Type}.

(** A successful [[cls]*] hands its continuation the accumulator extended
    by a run of characters of the class, and the input after that run. *)
Lemma re_star_inv cls (k : string -> string -> option T) x : forall s acc,
  re_star cls acc s k = Some x ->
  exists m r, s = (m ++ r)%string /\ all_chars cls m = true /\
              k (acc ++ m)%string r = Some x.
Proof.
  induction s as [| c s IH]; intros acc; simpl.
  - intros Hk. exists "", "". split; [reflexivity |]. split; [reflexivity |].
    rewrite append_nil_r. exact Hk.
  - assert (Hstop : k acc (String c s) = Some x ->
                    exists m r, String c s = (m ++ r)%string /\ all_chars cls m = true /\
                                k (acc ++ m)%string r = Some x).
    { intros Hk. exists "", (String c s). split; [reflexivity |].
      split; [reflexivity |]. rewrite append_nil_r. exact Hk. }
    destruct (cls c) eqn:Hc; [| exact Hstop].
    destruct (re_star cls (acc ++ String c "") s k) as [y |] eqn:Hrun; [| exact Hstop].
    intros [= ->]. destruct (IH _ Hrun) as (m & r & -> & Hm & Hk).
    exists (String c m), r. rewrite append_cons. split; [reflexivity |].
    split; [simpl; rewrite Hc, Hm; reflexivity |].
    rewrite append_assoc in Hk. exact Hk.
Qed.

Lemma re_plus_inv cls (k : string -> string -> option T) x s :
  re_plus cls s k = Some x ->
  exists m r, s = (m ++ r)%string /\ m <> "" /\ all_chars cls m = true /\
              k m r = Some x.
Proof.
  unfold re_plus. destruct s as [| c s]; [discriminate |].
  destruct (cls c) eqn:Hc; [| discriminate].
  intros Hrun. destruct (re_star_inv _ _ _ _ _ Hrun) as (m & r & -> & Hm & Hk).
  exists (String c m), r. rewrite append_cons. split; [reflexivity |].
  split; [discriminate |]. split; [simpl; rewrite Hc, Hm; reflexivity | exact Hk].
Qed.

Lemma re_lit_inv c (k : string -> option T) x s :
  re_lit c s k = Some x -> exists r, s = String c r /\ k r = Some x.
Proof.
  unfold re_lit. destruct s as [| c' s]; [discriminate |].
  destruct (Ascii.eqb_spec c c') as [<- | Hne]; [| discriminate].
  intros Hk. exists s. auto.
Qed.

Lemma re_opt_inv c (k : string -> string -> option T) x s :
  re_opt c s k = Some x ->
  (exists r, s = String c r /\ k (String c "") r = Some x) \/ k "" s = Some x.
Proof.
  unfold re_opt. destruct s as [| c' s]; [auto |].
  destruct (Ascii.eqb_spec c c') as [<- | Hne]; [| auto].
  destruct (k (String c "") s) as [y |] eqn:Hk; [| auto].
  intros [= ->]. left. exists s. auto.
Qed.
End RegexInversion.

(** The groups of an accepted axis name: a non-empty word, two non-empty
    tokens of the numeric class, and [L] or nothing. *)
Lemma axis_re_groups s g_name g_a g_b g_islog :
  Extract.axis_re s = Some (g_name, g_a, g_b, g_islog) ->
  (g_name <> "" /\ all_chars is_word g_name = true) /\
  (g_a <> "" /\ all_chars is_numeric g_a = true) /\
  (g_b <> "" /\ all_chars is_numeric g_b = true) /\
  (g_islog = "L" \/ g_islog = "").
Proof.
  unfold Extract.axis_re. intros H.
  apply re_plus_inv in H as (m1 & r1 & _ & Hn1 & Hw1 & H).
  apply re_lit_inv in H as (r2 & _ & H).
  apply re_star_inv in H as (m3 & r3 & _ & _ & H).
  apply re_plus_inv in H as (m4 & r4 & _ & Hn4 & Hw4 & H).
  apply re_plus_inv in H as (m5 & r5 & _ & _ & _ & H).
  apply re_plus_inv in H as (m6 & r6 & _ & Hn6 & Hw6 & H).
  apply re_star_inv in H as (m7 & r7 & _ & _ & H).
  apply re_opt_inv in H as [(r8 & _ & H) | H]; injection H as <- <- <- <-; auto 10.
Qed.

Lemma scale_re_groups s g_name g_length :
  Measure.scale_re s = Some (g_name, g_length) ->
  (g_name <> "" /\ all_chars is_word g_name = true) /\
  (g_length <> "" /\ all_chars is_numeric g_length = true).
Proof.
  unfold Measure.scale_re. intros H.
  apply re_plus_inv in H as (m1 & r1 & _ & Hn1 & Hw1 & H).
  apply re_lit_inv in H as (r2 & _ & H).
  apply re_star_inv in H as (m3 & r3 & _ & _ & H).
  apply re_plus_inv in H as (m4 & r4 & _ & Hn4 & Hw4 & H).
  injection H as <- <-. auto.
Qed.

(** ** The calibration parsers *)

Lemma py_float_literal s neg m e :
  float_literal s = Some (neg, m, e) ->
  py_float s = Ok ((if neg then - IZR m else IZR m) * powerRZ 10 e).
Proof. unfold py_float. intros ->. reflexivity. Qed.

Lemma py_float_not_literal s : float_literal s = None -> py_float s = Err ValueError.
Proof. unfold py_float. intros ->. reflexivity. Qed.

Lemma py_float_err s e : py_float s = Err e -> e = ValueError.
Proof. unfold py_float. destruct (float_literal s) as [[[? ?] ?] |]; congruence. Qed.

Lemma py_float_nat s (m : Z) :
  float_literal s = Some (false, m, 0%Z) -> py_float s = Ok (IZR m).
Proof.
  intros H. rewrite (py_float_literal _ _ _ _ H). simpl. f_equal. lra.
Qed.

Lemma getaxes_item_not_line item axes :
  Annotation.type item <> "line" -> Extract.getaxes_item item axes = Ok axes.
Proof.
  intros Ht. unfold Extract.getaxes_item.
  destruct (String.eqb_spec (Annotation.type item) "line"); [contradiction | reflexivity].
Qed.

Lemma getaxes_item_no_match item axes :
  Extract.axis_re (Annotation.name item) = None ->
  Extract.getaxes_item item axes = Ok axes.
Proof.
  intros Hm. unfold Extract.getaxes_item. rewrite Hm.
  destruct (negb _); reflexivity.
Qed.

Lemma getaxes_item_match item axes g_name g_a g_b g_islog :
  Annotation.type item = "line" ->
  Extract.axis_re (Annotation.name item) = Some (g_name, g_a, g_b, g_islog) ->
  Extract.getaxes_item item axes
  = (a <- py_float g_a ;;
     b <- py_float g_b ;;
     '(r0, r1) <- line_coords (Annotation.coords item) ;;
     ax <- Extract.Axis_init g_name r0 r1 a b (String.eqb g_islog "L") ;;
     Ok (axes ++ [ax])%list).
Proof.
  intros Ht Hm. unfold Extract.getaxes_item. rewrite Ht, Hm. reflexivity.
Qed.


Lemma getscales_item_no_match item axes :
  Measure.scale_re (Annotation.name item) = None ->
  Measure.getscales_item item axes = Ok axes.
Proof.
  intros Hm. unfold Measure.getscales_item. rewrite Hm.
  destruct (negb _); reflexivity.
Qed.

Lemma getscales_item_match item axes g_name g_length :
  Annotation.type item = "line" ->
  Measure.scale_re (Annotation.name item) = Some (g_name, g_length) ->
  Measure.getscales_item item axes
  = (physlen <- py_float g_length ;;
     '(r0, r1) <- line_coords (Annotation.coords item) ;;
     ax <- Measure.Axis_init g_name r0 r1 physlen ;;
     Ok (axes ++ [ax])%list).
Proof.
  intros Ht Hm. unfold Measure.getscales_item. rewrite Ht, Hm. reflexivity.
Qed.

(** The parsers, case by case.  A line whose name the grammar rejects is
    skipped without an exception and adds no calibration, so a file without
    a matching name yields no calibration at all.  A line whose name the
    grammar accepts has non-empty numeric tokens made of digits and the
    characters [. e f g + -], which [float] converts: decimal literals,
    with optional sign and exponent, are parsed and handed to the
    constructor of the calibration, and a token that is no literal raises
    [ValueError]. *)
Lemma parser_skips_or_converts :
  (forall item axes,
      Extract.axis_re (Annotation.name item) = None ->
      Extract.getaxes_item item axes = Ok axes) /\
  (forall item scales,
      Measure.scale_re (Annotation.name item) = None ->
      Measure.getscales_item item scales = Ok scales) /\
  (forall data,
      (forall item, In item (annotations data) ->
                    Extract.axis_re (Annotation.name item) = None) ->
      Extract.getaxes data = Ok []) /\
  (forall data,
      (forall item, In item (annotations data) ->
                    Measure.scale_re (Annotation.name item) = None) ->
      Measure.getscales data = Ok []) /\
  (forall item axes g_name g_a g_b g_islog a b r0 r1,
      Annotation.type item = "line" ->
      Extract.axis_re (Annotation.name item) = Some (g_name, g_a, g_b, g_islog) ->
      py_float g_a = Ok a -> py_float g_b = Ok b ->
      Annotation.coords item = LineCoords r0 r1 ->
      Extract.getaxes_item item axes
      = (ax <- Extract.Axis_init g_name r0 r1 a b (String.eqb g_islog "L") ;;
         Ok (axes ++ [ax])%list)) /\
  (forall item scales g_name g_length physlen r0 r1,
      Annotation.type item = "line" ->
      Measure.scale_re (Annotation.name item) = Some (g_name, g_length) ->
      py_float g_length = Ok physlen ->
      Annotation.coords item = LineCoords r0 r1 ->
      Measure.getscales_item item scales
      = (sc <- Measure.Axis_init g_name r0 r1 physlen ;;
         Ok (scales ++ [sc])%list)) /\
  (forall item axes g_name g_a g_b g_islog,
      Annotation.type item = "line" ->
      Extract.axis_re (Annotation.name item) = Some (g_name, g_a, g_b, g_islog) ->
      float_literal g_a = None \/ float_literal g_b = None ->
      Extract.getaxes_item item axes = Err ValueError) /\
  (forall item scales g_name g_length,
      Annotation.type item = "line" ->
      Measure.scale_re (Annotation.name item) = Some (g_name, g_length) ->
      float_literal g_length = None ->
      Measure.getscales_item item scales = Err ValueError) /\
  (py_float "-1.5e+3" = Ok (-1500) /\ py_float "+.25" = Ok (1 / 4) /\
   py_float "1e-2" = Ok (1 / 100)) /\
  (forall s g_name g_a g_b g_islog,
      Extract.axis_re s = Some (g_name, g_a, g_b, g_islog) ->
      (g_a <> "" /\ all_chars is_numeric g_a = true) /\
      (g_b <> "" /\ all_chars is_numeric g_b = true)) /\
  (forall s g_name g_length,
      Measure.scale_re s = Some (g_name, g_length) ->
      g_length <> "" /\ all_chars is_numeric g_length = true).
Proof.
  repeat apply conj;
    try (intros s g_name g_a g_b g_islog Hm; apply axis_re_groups in Hm; tauto);
    try (intros s g_name g_length Hm; apply scale_re_groups in Hm; tauto).
  - exact getaxes_item_no_match.
  - exact getscales_item_no_match.
  - intros data H. unfold Extract.getaxes. apply for_each_skip.
    intros item st Hin. apply getaxes_item_no_match, H, Hin.
  - intros data H. unfold Measure.getscales. apply for_each_skip.
    intros item st Hin. apply getscales_item_no_match, H, Hin.
  - intros item axes g_name g_a g_b g_islog a b r0 r1 Ht Hm Ha Hb Hc.
    rewrite (getaxes_item_match _ _ _ _ _ _ Ht Hm), Ha, Hb, Hc. reflexivity.
  - intros item scales g_name g_length physlen r0 r1 Ht Hm Hp Hc.
    rewrite (getscales_item_match _ _ _ _ Ht Hm), Hp, Hc. reflexivity.
  - intros item axes g_name g_a g_b g_islog Ht Hm Hbad.
    rewrite (getaxes_item_match _ _ _ _ _ _ Ht Hm).
    destruct (py_float g_a) as [a |] eqn:Ha; simpl.
    + destruct Hbad as [Hbad | Hbad].
      * rewrite (py_float_not_literal _ Hbad) in Ha. discriminate.
      * rewrite (py_float_not_literal _ Hbad). reflexivity.
    + f_equal. eapply py_float_err, Ha.
  - intros item scales g_name g_length Ht Hm Hbad.
    rewrite (getscales_item_match _ _ _ _ Ht Hm).
    rewrite (py_float_not_literal _ Hbad). reflexivity.
  - erewrite py_float_literal by (vm_compute; reflexivity).
    f_equal. unfold powerRZ. simpl. lra.
  - erewrite py_float_literal by (vm_compute; reflexivity).
    f_equal. unfold powerRZ. simpl. lra.
  - erewrite py_float_literal by (vm_compute; reflexivity).
    f_equal. unfold powerRZ. simpl. lra.
Qed.

(** C4 on the code.  A line whose name the grammar rejects is skipped, as
    the claim says: [baseline] adds no calibration and raises nothing.  But
    the class [[\d.efg+-]+] lets through tokens that are no numbers, and
    [float] then raises [ValueError], which nothing catches.  The axis
    grammar accepts [X: e 1] with the first bound [e]; the scale grammar
    accepts the name [gap: 5-6 mm] of an ordinary line with the length
    [5-6], and [S: -] with the length [-].  In each case the parser raises
    [ValueError] and the run ends with that exception before anything is
    written, also when well-formed calibrations and data follow. *)
Theorem parser_aborts_on_malformed_number (repr str : R -> string) :
  (Extract.getaxes {| annotations := [line "baseline" (0, 0) (10, 0)] |} = Ok [] /\
   Measure.getscales {| annotations := [line "baseline" (0, 0) (10, 0)] |} = Ok []) /\
  (Extract.axis_re "X: e 1" = Some ("X", "e", "1", "") /\
   py_float "e" = Err ValueError /\
   Extract.getaxes {| annotations := [line "X: e 1" (0, 0) (10, 0)] |}
   = Err ValueError /\
   Extract.main repr
     {| annotations := [line "X: e 1" (0, 0) (10, 0); line "Y: 0 1" (0, 0) (0, 10);
                        point "p" (5, 5)] |} None
   = ("", Some ValueError)) /\
  (Measure.scale_re "gap: 5-6 mm" = Some ("gap", "5-6") /\
   py_float "5-6" = Err ValueError /\
   Measure.getscales {| annotations := [line "gap: 5-6 mm" (0, 0) (3, 4)] |}
   = Err ValueError /\
   Measure.main str
     {| annotations := [line "gap: 5-6 mm" (0, 0) (3, 4); line "S: 10" (0, 0) (5, 0)] |}
     None
   = ("", Some ValueError)) /\
  (Measure.scale_re "S: -" = Some ("S", "-") /\
   py_float "-" = Err ValueError /\
   Measure.getscales {| annotations := [line "S: -" (0, 0) (10, 0)] |}
   = Err ValueError).
Proof. repeat split; reflexivity. Qed.

(** ** The shape of the column dictionary *)

Section Shape.
Context {C X : Type} (key : C -> string) (val : C -> X -> R).

Lemma flat_map_picks_length (k : string) (cals : list C) (xs : list X) :
  length (flat_map (fun x => picks key (fun c => val c x) k cals) xs)
  = (count_name key k cals * length xs)%nat.
Proof.
  induction xs as [| x xs IH]; simpl; [lia |].
  rewrite length_app, IH, picks_length. unfold count_name. lia.
Qed.

Lemma columns_dom (cals : list C) (xs : list X) (col : gmap string (list R)) :
  (forall k, col !! k
     = if decide (k ∈ map key cals) then
         Some (flat_map (fun x => picks key (fun c => val c x) k cals) xs)
       else None) ->
  dom col = list_to_set (map key cals).
Proof.
  intros Hcol. apply set_eq. intros k.
  rewrite elem_of_dom, elem_of_list_to_set, Hcol.
  destruct (decide (k ∈ map key cals)) as [Hin | Hnin].
  - split; [intros _; exact Hin | intros _; eexists; reflexivity].
  - split; [intros [? ?]; discriminate | intros Hin; contradiction].
Qed.
End Shape.

Lemma Axis_init_name nm r0 r1 a b islog ax :
  Extract.Axis_init nm r0 r1 a b islog = Ok ax -> Extract.name ax = nm.
Proof.
  unfold Extract.Axis_init. intros H.
  apply bind_ok_inv in H as (l & _ & H).
  apply bind_ok_inv in H as (a' & _ & H).
  apply bind_ok_inv in H as (b' & _ & H).
  injection H as <-. reflexivity.
Qed.

Lemma scale_init_name nm r0 r1 physlen sc :
  Measure.Axis_init nm r0 r1 physlen = Ok sc -> Measure.name sc = nm.
Proof.
  unfold Measure.Axis_init. intros H.
  apply bind_ok_inv in H as (l & _ & H).
  apply bind_ok_inv in H as (u & _ & H).
  injection H as <-. reflexivity.
Qed.

Lemma getaxes_item_names item axes axes' :
  Extract.getaxes_item item axes = Ok axes' ->
  map Extract.name axes' = (map Extract.name axes ++ axis_names [item])%list.
Proof.
  unfold Extract.getaxes_item, axis_names. simpl.
  destruct (String.eqb (Annotation.type item) "line"); simpl.
  2:{ intros [= <-]. rewrite app_nil_r. reflexivity. }
  destruct (Extract.axis_re (Annotation.name item)) as [[[[g_name g_a] g_b] g_islog] |]; simpl.
  2:{ intros [= <-]. rewrite app_nil_r. reflexivity. }
  intros H.
  apply bind_ok_inv in H as (a & _ & H).
  apply bind_ok_inv in H as (b & _ & H).
  apply bind_ok_inv in H as ([r0 r1] & _ & H).
  apply bind_ok_inv in H as (ax & Hax & H).
  injection H as <-. rewrite map_app. simpl.
  rewrite (Axis_init_name _ _ _ _ _ _ _ Hax). reflexivity.
Qed.

Lemma getscales_item_names item scales scales' :
  Measure.getscales_item item scales = Ok scales' ->
  map Measure.name scales' = (map Measure.name scales ++ scale_names [item])%list.
Proof.
  unfold Measure.getscales_item, scale_names. simpl.
  destruct (String.eqb (Annotation.type item) "line"); simpl.
  2:{ intros [= <-]. rewrite app_nil_r. reflexivity. }
  destruct (Measure.scale_re (Annotation.name item)) as [[g_name g_length] |]; simpl.
  2:{ intros [= <-]. rewrite app_nil_r. reflexivity. }
  intros H.
  apply bind_ok_inv in H as (a & _ & H).
  apply bind_ok_inv in H as ([r0 r1] & _ & H).
  apply bind_ok_inv in H as (ax & Hax & H).
  injection H as <-. rewrite map_app. simpl.
  rewrite (scale_init_name _ _ _ _ _ Hax). reflexivity.
Qed.

Lemma axis_names_cons item items :
  axis_names (item :: items) = (axis_names [item] ++ axis_names items)%list.
Proof.
  unfold axis_names. simpl.
  destruct (String.eqb (Annotation.type item) "line"); [| reflexivity].
  destruct (Extract.axis_re (Annotation.name item)) as [[[[? ?] ?] ?] |]; reflexivity.
Qed.

Lemma scale_names_cons item items :
  scale_names (item :: items) = (scale_names [item] ++ scale_names items)%list.
Proof.
  unfold scale_names. simpl.
  destruct (String.eqb (Annotation.type item) "line"); [| reflexivity].
  destruct (Measure.scale_re (Annotation.name item)) as [[? ?] |]; reflexivity.
Qed.

(** The parser appends one calibration per accepted line and never looks at
    the names it already has. *)
Lemma getaxes_names data axes :
  Extract.getaxes data = Ok axes ->
  map Extract.name axes = axis_names (annotations data).
Proof.
  unfold Extract.getaxes.
  enough (H : forall items acc axes,
             for_each Extract.getaxes_item items acc = Ok axes ->
             map Extract.name axes = (map Extract.name acc ++ axis_names items)%list).
  { intros Hrun. apply (H _ [] _ Hrun). }
  induction items as [| item items IH]; intros acc axes0 Hrun; simpl in Hrun.
  - injection Hrun as <-. unfold axis_names. simpl. rewrite app_nil_r. reflexivity.
  - apply bind_ok_inv in Hrun as (acc' & Hitem & Hrun).
    rewrite (IH _ _ Hrun), (getaxes_item_names _ _ _ Hitem).
    rewrite (axis_names_cons item items), app_assoc. reflexivity.
Qed.

Lemma getscales_names data scales :
  Measure.getscales data = Ok scales ->
  map Measure.name scales = scale_names (annotations data).
Proof.
  unfold Measure.getscales.
  enough (H : forall items acc scales,
             for_each Measure.getscales_item items acc = Ok scales ->
             map Measure.name scales = (map Measure.name acc ++ scale_names items)%list).
  { intros Hrun. apply (H _ [] _ Hrun). }
  induction items as [| item items IH]; intros acc scales0 Hrun; simpl in Hrun.
  - injection Hrun as <-. unfold scale_names. simpl. rewrite app_nil_r. reflexivity.
  - apply bind_ok_inv in Hrun as (acc' & Hitem & Hrun).
    rewrite (IH _ _ Hrun), (getscales_item_names _ _ _ Hitem).
    rewrite (scale_names_cons item items), app_assoc. reflexivity.
Qed.

(** Evaluation of the parsers on a concrete line. *)
Lemma getaxes_item_linear item axes g_name g_a g_b (a b : Z) r0 r1 :
  Annotation.type item = "line" ->
  Extract.axis_re (Annotation.name item) = Some (g_name, g_a, g_b, "") ->
  float_literal g_a = Some (false, a, 0%Z) ->
  float_literal g_b = Some (false, b, 0%Z) ->
  Annotation.coords item = LineCoords r0 r1 ->
  Extract.getaxes_item item axes
  = Ok (axes ++ [Extract.mkAxis g_name r0 r1 false
                   (fst r1 - fst r0, snd r1 - snd r0) (dist2 r0 r1)
                   (sqrt (dist2 r0 r1)) (IZR a) (IZR b)])%list.
Proof.
  intros Ht Hm Ha Hb Hc.
  rewrite (getaxes_item_match _ _ _ _ _ _ Ht Hm).
  rewrite (py_float_nat _ _ Ha), (py_float_nat _ _ Hb), Hc. simpl.
  rewrite Axis_init_linear. reflexivity.
Qed.

Lemma getscales_item_nat item scales g_name g_length (n : Z) r0 r1 :
  Annotation.type item = "line" ->
  Measure.scale_re (Annotation.name item) = Some (g_name, g_length) ->
  float_literal g_length = Some (false, n, 0%Z) ->
  Annotation.coords item = LineCoords r0 r1 ->
  dist2 r0 r1 <> 0 ->
  Measure.getscales_item item scales
  = Ok (scales ++ [Measure.mkAxis g_name r0 r1 (fst r1 - fst r0, snd r1 - snd r0)
                     (dist2 r0 r1) (sqrt (dist2 r0 r1)) (IZR n)
                     (IZR n / sqrt (dist2 r0 r1))])%list.
Proof.
  intros Ht Hm Hn Hc Hl.
  rewrite (getscales_item_match _ _ _ _ Ht Hm).
  rewrite (py_float_nat _ _ Hn), Hc. simpl.
  rewrite scale_init_ok by exact Hl. reflexivity.
Qed.

Lemma projectable_no_filter axes items :
  (forall item, In item items -> Annotation.type item = "point" ->
                is_point_coords (Annotation.coords item) = true) ->
  (forall ax, In ax axes -> Extract.l2 ax <> 0) ->
  projectable axes None items.
Proof.
  intros Hc Hl. split; [| split]; [| | exact Hl].
  - intros item _ _. reflexivity.
  - intros item Hin Hq. apply Hc; [exact Hin |].
    apply andb_true_iff in Hq as [Hq _]. apply String.eqb_eq, Hq.
Qed.

Lemma dup_getaxes : Extract.getaxes dup_data = Ok [dup_axis1; dup_axis2].
Proof.
  unfold Extract.getaxes, dup_data. cbn [annotations for_each].
  rewrite (getaxes_item_linear _ _ "X" "0" "100" 0 100 (0, 0) (10, 0)) by reflexivity.
  cbn [bind app].
  rewrite (getaxes_item_linear _ _ "X" "0" "10" 0 10 (0, 0) (0, 10)) by reflexivity.
  cbn [bind app]. rewrite getaxes_item_not_line by discriminate. reflexivity.
Qed.

Lemma dup_projectable : projectable [dup_axis1; dup_axis2] None (annotations dup_data).
Proof.
  apply projectable_no_filter.
  - intros item [<- | [<- | [<- | []]]]; simpl; intros; try discriminate; reflexivity.
  - intros ax [<- | [<- | []]]; simpl; unfold dist2, sq; simpl; lra.
Qed.

Lemma dup_extract :
  Extract.extract dup_data [dup_axis1; dup_axis2] None = Ok {["X" := [50; 5]]}.
Proof.
  destruct (extract_spec dup_data _ None dup_projectable) as (col & Hrun & Hcol).
  rewrite Hrun. f_equal. apply map_eq. intros k. rewrite Hcol.
  destruct (decide (k = "X")) as [-> | Hne].
  - rewrite lookup_singleton_eq. rewrite decide_True by left.
    f_equal. simpl.
    assert (H1 : proj_val dup_axis1 (5, 5) = 50)
      by (unfold proj_val; simpl; unfold dist2, sq; simpl; field).
    assert (H2 : proj_val dup_axis2 (5, 5) = 5)
      by (unfold proj_val; simpl; unfold dist2, sq; simpl; field).
    rewrite H1, H2. reflexivity.
  - rewrite lookup_singleton_ne by congruence.
    rewrite decide_False; [reflexivity |].
    simpl. intros H. apply elem_of_cons in H as [-> | H]; [congruence |].
    apply elem_of_cons in H as [-> | H]; [congruence | inversion H].
Qed.

(** Neither parser removes duplicates: the names of the calibrations are the
    names of all accepted lines, in input order.  The columns are a
    dictionary keyed by calibration name, so calibrations sharing a name
    share one column; that column receives, for every qualifying annotation,
    one value per calibration of that name, in calibration order. *)
Lemma columns_keyed_by_name :
  (forall data axes,
      Extract.getaxes data = Ok axes ->
      map Extract.name axes = axis_names (annotations data)) /\
  (forall data scales,
      Measure.getscales data = Ok scales ->
      map Measure.name scales = scale_names (annotations data)) /\
  (forall data axes tag,
      projectable axes tag (annotations data) ->
      exists col,
        Extract.extract data axes tag = Ok col /\
        dom col = list_to_set (map Extract.name axes) /\
        forall ax, In ax axes ->
          exists vs, col !! Extract.name ax = Some vs /\
                     vs = flat_map
                            (fun p => picks Extract.name (fun ax' => proj_val ax' p)
                                            (Extract.name ax) axes)
                            (qualifying_points tag (annotations data)) /\
                     length vs
                     = (count_name Extract.name (Extract.name ax) axes
                        * length (qualifying_points tag (annotations data)))%nat) /\
  (forall data scales tag,
      measurable tag (annotations data) ->
      exists names col,
        Measure.extract data scales tag = Ok (names, col) /\
        length names = length (qualifying_lines tag (annotations data)) /\
        dom col = list_to_set (map Measure.name scales) /\
        forall sc, In sc scales ->
          exists vs, col !! Measure.name sc = Some vs /\
                     vs = flat_map
                            (fun item => picks Measure.name
                                           (fun sc' => meas_val sc' (endpoints item))
                                           (Measure.name sc) scales)
                            (qualifying_lines tag (annotations data)) /\
                     length vs
                     = (count_name Measure.name (Measure.name sc) scales
                        * length (qualifying_lines tag (annotations data)))%nat) /\
  (forall ax1 ax2 : Extract.Axis,
      Extract.name ax1 = Extract.name ax2 ->
      list_to_set (map Extract.name [ax1; ax2]) = ({[Extract.name ax1]} : gset string) /\
      count_name Extract.name (Extract.name ax1) [ax1; ax2] = 2%nat) /\
  (forall sc1 sc2 : Measure.Axis,
      Measure.name sc1 = Measure.name sc2 ->
      list_to_set (map Measure.name [sc1; sc2]) = ({[Measure.name sc1]} : gset string) /\
      count_name Measure.name (Measure.name sc1) [sc1; sc2] = 2%nat).
Proof.
  split; [exact getaxes_names |]. split; [exact getscales_names |].
  split; [| split; [| split]].
  - intros data axes tag Hp.
    destruct (extract_spec data axes tag Hp) as (col & Hrun & Hcol).
    exists col. split; [exact Hrun |].
    split; [exact (columns_dom Extract.name (fun ax p => proj_val ax p) _ _ _ Hcol) |].
    intros ax Hax. rewrite Hcol.
    rewrite decide_True.
    2:{ apply list_elem_of_fmap. exists ax. split; [reflexivity |].
        apply list_elem_of_In, Hax. }
    eexists. split; [reflexivity |]. split; [reflexivity |].
    apply (flat_map_picks_length Extract.name (fun ax p => proj_val ax p)).
  - intros data scales tag Hm.
    destruct (measure_spec data scales tag Hm) as (col & Hrun & Hcol).
    eexists _, col. split; [exact Hrun |].
    split; [apply length_map |].
    split; [exact (columns_dom Measure.name (fun sc item => meas_val sc (endpoints item))
                     _ _ _ Hcol) |].
    intros sc Hsc. rewrite Hcol.
    rewrite decide_True.
    2:{ apply list_elem_of_fmap. exists sc. split; [reflexivity |].
        apply list_elem_of_In, Hsc. }
    eexists. split; [reflexivity |]. split; [reflexivity |].
    apply (flat_map_picks_length Measure.name (fun sc item => meas_val sc (endpoints item))).
  - intros ax1 ax2 Hn. split.
    + simpl. rewrite Hn, (right_id_L ∅ (∪)), (idemp_L (∪)). reflexivity.
    + unfold count_name. rewrite filter_cons_True by reflexivity.
      rewrite filter_cons_True by (symmetry; exact Hn). reflexivity.
  - intros sc1 sc2 Hn. split.
    + simpl. rewrite Hn, (right_id_L ∅ (∪)), (idemp_L (∪)). reflexivity.
    + unfold count_name. rewrite filter_cons_True by reflexivity.
      rewrite filter_cons_True by (symmetry; exact Hn). reflexivity.
Qed.

Lemma dup_y_getaxes :
  Extract.getaxes dup_data_y = Ok [dup_axis1; dup_axis2; dup_axis_y].
Proof.
  unfold Extract.getaxes, dup_data_y. cbn [annotations for_each].
  rewrite (getaxes_item_linear _ _ "X" "0" "100" 0 100 (0, 0) (10, 0)) by reflexivity.
  cbn [bind app].
  rewrite (getaxes_item_linear _ _ "X" "0" "10" 0 10 (0, 0) (0, 10)) by reflexivity.
  cbn [bind app].
  rewrite (getaxes_item_linear _ _ "Y" "0" "1" 0 1 (0, 0) (0, 10)) by reflexivity.
  cbn [bind app]. rewrite getaxes_item_not_line by discriminate. reflexivity.
Qed.

Lemma dup_y_extract :
  Extract.extract dup_data_y [dup_axis1; dup_axis2; dup_axis_y] None
  = Ok (<["X" := [50; 5]]> {["Y" := [1 / 2]]}).
Proof.
  destruct (extract_spec dup_data_y [dup_axis1; dup_axis2; dup_axis_y] None)
    as (col & Hrun & Hcol).
  { apply projectable_no_filter.
    - intros item [<- | [<- | [<- | [<- | []]]]]; simpl; intros;
        try discriminate; reflexivity.
    - intros ax [<- | [<- | [<- | []]]]; simpl; unfold dist2, sq; simpl; lra. }
  rewrite Hrun. f_equal. apply map_eq. intros k. rewrite Hcol.
  assert (H1 : proj_val dup_axis1 (5, 5) = 50)
    by (unfold proj_val; simpl; unfold dist2, sq; simpl; field).
  assert (H2 : proj_val dup_axis2 (5, 5) = 5)
    by (unfold proj_val; simpl; unfold dist2, sq; simpl; field).
  assert (H3 : proj_val dup_axis_y (5, 5) = 1 / 2)
    by (unfold proj_val; simpl; unfold dist2, sq; simpl; field).
  destruct (decide (k = "X")) as [-> | HneX].
  - rewrite lookup_insert_eq. rewrite decide_True by left.
    simpl. rewrite H1, H2. reflexivity.
  - rewrite lookup_insert_ne by congruence.
    destruct (decide (k = "Y")) as [-> | HneY].
    + rewrite lookup_singleton_eq. rewrite decide_True by (right; right; left).
      simpl. rewrite H3. reflexivity.
    + rewrite lookup_singleton_ne by congruence.
      rewrite decide_False; [reflexivity |].
      simpl. intros H. repeat (apply elem_of_cons in H as [-> | H]; [congruence |]).
      inversion H.
Qed.

(** C5 on the code.  Two accepted lines named [X] are both kept by the
    parser, but the projector returns a single column [X], to which the one
    qualifying point contributes two values; the exporter then writes two
    data rows for that point.  With a third axis [Y] the columns differ in
    length, and the exporter raises [IndexError] after the first row. *)
Theorem duplicate_names_one_column (repr : R -> string) :
  Extract.getaxes dup_data = Ok [dup_axis1; dup_axis2] /\
  Extract.name dup_axis1 = Extract.name dup_axis2 /\
  qualifying_points None (annotations dup_data) = [(5, 5)] /\
  Extract.extract dup_data [dup_axis1; dup_axis2] None = Ok {["X" := [50; 5]]} /\
  size ({["X" := [50; 5]]} : gmap string (list R)) = 1%nat /\
  Extract.main repr dup_data None
  = ("X" ++ newline ++ (repr 50 ++ newline) ++ (repr 5 ++ newline), None) /\
  Extract.main repr dup_data_y None
  = ("X,Y" ++ newline ++ ((repr 50 ++ "," ++ repr (1 / 2)) ++ newline),
     Some IndexError).
Proof.
  split; [exact dup_getaxes |]. split; [reflexivity |]. split; [reflexivity |].
  split; [exact dup_extract |]. split; [apply map_size_singleton |]. split.
  - unfold Extract.main. rewrite dup_getaxes. cbn [bind].
    rewrite dup_extract. reflexivity.
  - unfold Extract.main. rewrite dup_y_getaxes. cbn [bind].
    rewrite dup_y_extract. reflexivity.
Qed.

(** ** Degenerate calibration lines *)

Lemma dist2_same (r : vec) : dist2 r r = 0.
Proof. unfold dist2, sq. lra. Qed.

Lemma Axis_init_degenerate nm r a b islog :
  (islog = true -> 0 < a /\ 0 < b) ->
  exists ax, Extract.Axis_init nm r r a b islog = Ok ax /\ Extract.l2 ax = 0.
Proof.
  intros Hpos. destruct islog.
  - destruct Hpos as [Ha Hb]; [reflexivity |].
    rewrite Axis_init_log by assumption. eexists. split; [reflexivity |].
    simpl. apply dist2_same.
  - rewrite Axis_init_linear. eexists. split; [reflexivity |].
    simpl. apply dist2_same.
Qed.

(** The projector stops with a division by zero at the first qualifying
    point when the first axis is degenerate. *)
Lemma extract_degenerate ax axes tag pre item post p col :
  Extract.l2 ax = 0 ->
  (forall x, In x pre -> tags_readable tag x = true /\ qualifies "point" tag x = false) ->
  qualifies "point" tag item = true -> tags_readable tag item = true ->
  Annotation.coords item = PointCoords p ->
  for_each (Extract.extract_item (ax :: axes) tag) (pre ++ item :: post) col
  = Err ZeroDivisionError.
Proof.
  intros Hl Hpre Hq Hr Hc. rewrite for_each_app.
  rewrite (for_each_skip _ pre).
  2:{ intros x st Hx. destruct (Hpre x Hx) as [Hrx Hqx].
      apply extract_item_unqualified; assumption. }
  simpl. rewrite extract_item_qualified by assumption. rewrite Hc. simpl.
  unfold Extract.extract_axis at 1. simpl.
  rewrite project_degenerate by exact Hl. reflexivity.
Qed.

(** C6, as the code has it.  In pipeline A a matched line with coinciding
    endpoints still yields a calibration object (a log-scaled one provided
    both bounds are positive, as [math.log] raises otherwise); the division
    by zero arises when the projector applies it to a qualifying point.  In
    pipeline B the constructor itself divides by the length of the line and
    raises. *)
Theorem degenerate_line :
  (forall nm r a b islog,
      (islog = true -> 0 < a /\ 0 < b) ->
      exists ax,
        Extract.Axis_init nm r r a b islog = Ok ax /\
        Extract.l2 ax = 0 /\
        (forall c, Extract.project ax c = Err ZeroDivisionError) /\
        (forall axes tag pre item post p,
            (forall x, In x pre ->
                       tags_readable tag x = true /\ qualifies "point" tag x = false) ->
            qualifies "point" tag item = true -> tags_readable tag item = true ->
            Annotation.coords item = PointCoords p ->
            Extract.extract {| annotations := pre ++ item :: post |} (ax :: axes) tag
            = Err ZeroDivisionError)) /\
  (forall nm r0 r1 a b,
      a <= 0 -> Extract.Axis_init nm r0 r1 a b true = Err ValueError) /\
  (forall nm r physlen,
      Measure.Axis_init nm r r physlen = Err ZeroDivisionError) /\
  (forall item scales g_name g_length physlen r,
      Annotation.type item = "line" ->
      Measure.scale_re (Annotation.name item) = Some (g_name, g_length) ->
      py_float g_length = Ok physlen ->
      Annotation.coords item = LineCoords r r ->
      Measure.getscales_item item scales = Err ZeroDivisionError).
Proof.
  split; [| split; [| split]].
  - intros nm r a b islog Hpos.
    destruct (Axis_init_degenerate nm r a b islog Hpos) as (ax & Hinit & Hl).
    exists ax. split; [exact Hinit |]. split; [exact Hl |].
    split; [intros c; apply project_degenerate, Hl |].
    intros axes tag pre item post p Hpre Hq Hr Hc.
    unfold Extract.extract. simpl.
    eapply extract_degenerate; eassumption.
  - intros nm r0 r1 a b Ha. unfold Extract.Axis_init.
    rewrite math_sqrt_sum_sq. simpl. rewrite (math_log_err a Ha). reflexivity.
  - intros nm r physlen. apply scale_init_degenerate, dist2_same.
  - intros item scales g_name g_length physlen r Ht Hm Hp Hc.
    rewrite (getscales_item_match _ _ _ _ Ht Hm), Hp, Hc. simpl.
    rewrite scale_init_degenerate by apply dist2_same. reflexivity.
Qed.

Lemma degenerate_line_witness :
  exists ax,
    Extract.Axis_init "X" (3, 4) (3, 4) 0 100 false = Ok ax /\
    Extract.l2 ax = 0 /\
    Extract.project ax (5, 0) = Err ZeroDivisionError.
Proof.
  destruct (proj1 degenerate_line "X" (3, 4) 0 100 false) as (ax & Hinit & Hl & Hproj & _).
  - discriminate.
  - exists ax. split; [exact Hinit |]. split; [exact Hl |]. apply Hproj.
Defined.

(** C6 as stated fails in pipeline B: the scale line [S: 10] with coinciding
    endpoints is accepted by the grammar, and the construction of its
    calibration raises [ZeroDivisionError]. *)
Lemma degenerate_scale_raises :
  Measure.scale_re "S: 10" = Some ("S", "10") /\
  Measure.Axis_init "S" (3, 4) (3, 4) 10 = Err ZeroDivisionError /\
  Measure.getscales {| annotations := [line "S: 10" (3, 4) (3, 4)] |}
  = Err ZeroDivisionError.
Proof.
  split; [reflexivity |].
  split; [apply scale_init_degenerate, dist2_same |].
  unfold Measure.getscales. cbn [annotations for_each].
  rewrite (getscales_item_match _ _ "S" "10") by reflexivity.
  rewrite (py_float_nat "10" 10) by reflexivity. simpl.
  rewrite scale_init_degenerate by apply dist2_same. reflexivity.
Qed.

(** ** The exporters *)

Lemma sorted_keys_perm {V : Type} (col : gmap string V) :
  sorted_keys col ≡ₚ elements (dom col).
Proof. unfold sorted_keys. apply merge_sort_Permutation. Qed.

Lemma sorted_keys_elem {V : Type} (col : gmap string V) (k : string) :
  k ∈ sorted_keys col <-> is_Some (col !! k).
Proof. rewrite sorted_keys_perm, elem_of_elements, elem_of_dom. reflexivity. Qed.

Lemma sorted_keys_nil {V : Type} (col : gmap string V) :
  sorted_keys col = [] <-> col = ∅.
Proof.
  split.
  - intros Hnil. apply map_empty. intros k.
    destruct (col !! k) as [v |] eqn:Hk; [| reflexivity].
    assert (Hin : k ∈ sorted_keys col) by (apply sorted_keys_elem; eauto).
    rewrite Hnil in Hin. inversion Hin.
  - intros ->. destruct (sorted_keys (∅ : gmap string V)) as [| k ks] eqn:Hs; [reflexivity |].
    assert (Hin : k ∈ sorted_keys (∅ : gmap string V)) by (rewrite Hs; left).
    apply sorted_keys_elem in Hin as [v Hv]. rewrite lookup_empty in Hv. discriminate.
Qed.

Lemma export_empty (repr : R -> string) : Extract.export repr ∅ = ("", None).
Proof.
  unfold Extract.export. rewrite (proj2 (sorted_keys_nil _) eq_refl). reflexivity.
Qed.

Lemma measure_export_empty (str : R -> string) names :
  Measure.export str names ∅ = ("", None).
Proof.
  unfold Measure.export. rewrite (proj2 (sorted_keys_nil _) eq_refl). reflexivity.
Qed.

(** With columns that are all empty the exporters write the header line and
    nothing else. *)
Lemma export_header_only (repr : R -> string) (col : gmap string (list R)) :
  col <> ∅ -> (forall k vs, col !! k = Some vs -> vs = []) ->
  Extract.export repr col
  = (join comma (map csv_sanitize (sorted_keys col)) ++ newline, None).
Proof.
  intros Hne Hvs. unfold Extract.export.
  destruct (sorted_keys col) as [| k0 ks] eqn:Hs.
  { apply sorted_keys_nil in Hs. contradiction. }
  assert (Hin : k0 ∈ sorted_keys col) by (rewrite Hs; left).
  apply sorted_keys_elem in Hin as [vs Hk0].
  unfold dict_get. rewrite Hk0. rewrite (Hvs _ _ Hk0). reflexivity.
Qed.

Lemma measure_export_header_only (str : R -> string) names (col : gmap string (list R)) :
  col <> ∅ -> (forall k vs, col !! k = Some vs -> vs = []) ->
  Measure.export str names col
  = ("name" ++ comma ++ join comma (map csv_sanitize (sorted_keys col)) ++ newline, None).
Proof.
  intros Hne Hvs. unfold Measure.export.
  destruct (sorted_keys col) as [| k0 ks] eqn:Hs.
  { apply sorted_keys_nil in Hs. contradiction. }
  assert (Hin : k0 ∈ sorted_keys col) by (rewrite Hs; left).
  apply sorted_keys_elem in Hin as [vs Hk0].
  unfold dict_get. rewrite Hk0. rewrite (Hvs _ _ Hk0). reflexivity.
Qed.

Lemma empty_columns_values (names : list string) k vs :
  Extract.empty_columns names !! k = Some vs -> vs = [].
Proof.
  unfold Extract.empty_columns. rewrite foldl_empty_lookup.
  destruct (decide (k ∈ names)); [congruence | rewrite lookup_empty; discriminate].
Qed.

Lemma empty_columns_nonempty (names : list string) :
  names <> [] -> Extract.empty_columns names <> ∅.
Proof.
  destruct names as [| n names]; [congruence |]. intros _ Hcol.
  assert (H : Extract.empty_columns (n :: names) !! n = Some []).
  { unfold Extract.empty_columns. rewrite foldl_empty_lookup.
    rewrite decide_True by left. reflexivity. }
  rewrite Hcol, lookup_empty in H. discriminate.
Qed.

(** Without axes the projector leaves the dictionary as it is. *)
Lemma extract_items_no_axes tag items : forall col0 col,
  for_each (Extract.extract_item [] tag) items col0 = Ok col -> col = col0.
Proof.
  induction items as [| item items IH]; intros col0 col; simpl.
  - congruence.
  - intros H. apply bind_ok_inv in H as (col1 & Hitem & H).
    assert (col1 = col0) as ->; [| apply IH, H].
    unfold Extract.extract_item in Hitem.
    destruct (negb _); [congruence |].
    apply bind_ok_inv in Hitem as ([|] & _ & Hitem); simpl in Hitem; congruence.
Qed.

Lemma extract_no_axes data tag col :
  Extract.extract data [] tag = Ok col -> col = ∅.
Proof. unfold Extract.extract. apply extract_items_no_axes. Qed.

Lemma measure_items_no_scales tag items : forall st0 st,
  for_each (Measure.extract_item [] tag) items st0 = Ok st -> snd st = snd st0.
Proof.
  induction items as [| item items IH]; intros st0 st; simpl.
  - congruence.
  - intros H. apply bind_ok_inv in H as (st1 & Hitem & H).
    rewrite (IH _ _ H).
    unfold Measure.extract_item in Hitem.
    destruct (negb _); [congruence |].
    apply bind_ok_inv in Hitem as ([|] & _ & Hitem); simpl in Hitem;
      injection Hitem as <-; reflexivity.
Qed.

Lemma measure_no_scales data tag names col :
  Measure.extract data [] tag = Ok (names, col) -> col = ∅.
Proof.
  unfold Measure.extract. intros H.
  apply measure_items_no_scales in H. exact H.
Qed.

Lemma extract_no_points data axes tag :
  (forall item, In item (annotations data) -> Annotation.type item = "point" ->
                tags_readable tag item = true /\ passes tag item = false) ->
  Extract.extract data axes tag = Ok (Extract.empty_columns (map Extract.name axes)).
Proof.
  intros H. unfold Extract.extract. apply for_each_skip.
  intros item col Hin.
  destruct (String.eqb_spec (Annotation.type item) "point") as [Ht | Ht].
  - destruct (H item Hin Ht) as [Hr Hp].
    apply extract_item_unqualified; [exact Hr |].
    unfold qualifies. rewrite Hp. apply andb_false_r.
  - apply extract_item_other, Ht.
Qed.

Lemma measure_no_lines data scales tag :
  (forall item, In item (annotations data) -> Annotation.type item = "line" ->
                tags_readable tag item = true /\ passes tag item = false) ->
  Measure.extract data scales tag
  = Ok ([], Measure.empty_columns (map Measure.name scales)).
Proof.
  intros H. unfold Measure.extract. apply for_each_skip.
  intros item st Hin.
  destruct (String.eqb_spec (Annotation.type item) "line") as [Ht | Ht].
  - destruct (H item Hin Ht) as [Hr Hp].
    apply measure_item_unqualified; [exact Hr |].
    unfold qualifies. rewrite Hp. apply andb_false_r.
  - apply measure_item_other, Ht.
Qed.

(** C7, as the code has it.  When the parser finds no calibration, nothing
    is written.  When it finds calibrations but no point (line) qualifies,
    the exporter still writes the header row, the sorted and sanitized
    calibration names, and no data row. *)
Theorem empty_input_output :
  (forall repr data tag,
      Extract.getaxes data = Ok [] -> fst (Extract.main repr data tag) = "") /\
  (forall str data tag,
      Measure.getscales data = Ok [] -> fst (Measure.main str data tag) = "") /\
  (forall repr data tag axes,
      Extract.getaxes data = Ok axes -> axes <> [] ->
      (forall item, In item (annotations data) -> Annotation.type item = "point" ->
                    tags_readable tag item = true /\ passes tag item = false) ->
      Extract.main repr data tag
      = (join comma (map csv_sanitize
                       (sorted_keys (Extract.empty_columns (map Extract.name axes))))
         ++ newline, None)) /\
  (forall str data tag scales,
      Measure.getscales data = Ok scales -> scales <> [] ->
      (forall item, In item (annotations data) -> Annotation.type item = "line" ->
                    tags_readable tag item = true /\ passes tag item = false) ->
      Measure.main str data tag
      = ("name" ++ comma
         ++ join comma (map csv_sanitize
                          (sorted_keys (Measure.empty_columns (map Measure.name scales))))
         ++ newline, None)).
Proof.
  split; [| split; [| split]].
  - intros repr data tag Hax. unfold Extract.main. rewrite Hax. simpl.
    destruct (Extract.extract data [] tag) as [col | e] eqn:Hrun; [| reflexivity].
    apply extract_no_axes in Hrun. subst col. rewrite export_empty. reflexivity.
  - intros str data tag Hsc. unfold Measure.main. rewrite Hsc. simpl.
    destruct (Measure.extract data [] tag) as [[names col] | e] eqn:Hrun; [| reflexivity].
    apply measure_no_scales in Hrun. subst col. rewrite measure_export_empty. reflexivity.
  - intros repr data tag axes Hax Hne Hnone. unfold Extract.main. rewrite Hax. simpl.
    rewrite (extract_no_points data axes tag Hnone).
    apply export_header_only.
    + apply empty_columns_nonempty. destruct axes; [congruence | discriminate].
    + apply empty_columns_values.
  - intros str data tag scales Hsc Hne Hnone. unfold Measure.main. rewrite Hsc. simpl.
    rewrite (measure_no_lines data scales tag Hnone).
    apply measure_export_header_only.
    + apply (empty_columns_nonempty (map Measure.name scales)).
      destruct scales; [congruence | discriminate].
    + apply (empty_columns_values (map Measure.name scales)).
Qed.

Lemma header_only_getaxes :
  Extract.getaxes header_only_data = Ok [dup_axis1].
Proof.
  unfold Extract.getaxes, header_only_data. cbn [annotations for_each].
  rewrite (getaxes_item_linear _ _ "X" "0" "100" 0 100 (0, 0) (10, 0)) by reflexivity.
  reflexivity.
Qed.

Lemma empty_input_output_witness :
  Extract.main no_number header_only_data None
  = (join comma (map csv_sanitize
                   (sorted_keys (Extract.empty_columns (map Extract.name [dup_axis1]))))
     ++ newline, None).
Proof.
  apply (proj1 (proj2 (proj2 empty_input_output))).
  - exact header_only_getaxes.
  - discriminate.
  - intros item [<- | []]. discriminate.
Defined.

(** C7 as stated fails: an input with the axis line [X: 0 100] and no point
    yields a calibration and no qualifying point, and the output is the
    header row [X], not the empty text. *)
Lemma header_written_without_points :
  Extract.getaxes header_only_data = Ok [dup_axis1] /\
  qualifying_points None (annotations header_only_data) = [] /\
  Extract.main no_number header_only_data None = ("X" ++ newline, None).
Proof.
  split; [exact header_only_getaxes |]. split; [reflexivity |].
  unfold Extract.main. rewrite header_only_getaxes. cbn [bind].
  rewrite (extract_no_points header_only_data [dup_axis1] None).
  - reflexivity.
  - intros item [<- | []]. discriminate.
Qed.

(** ** Calibration lines in the measurement pass *)

Lemma measure_item_rename scales tag item nm st :
  result_map snd (Measure.extract_item scales tag (rename nm item) st)
  = result_map snd (Measure.extract_item scales tag item st).
Proof.
  unfold Measure.extract_item, rename, tag_excludes, get_tags. simpl.
  destruct (negb _); [reflexivity |].
  destruct (tag_active tag) as [t |]; simpl.
  - destruct (Annotation.tags item) as [ts |]; simpl; [| reflexivity].
    destruct (negb _); [reflexivity |].
    destruct (for_each _ scales (snd st)); reflexivity.
  - destruct (for_each _ scales (snd st)); reflexivity.
Qed.

Lemma self_measure_getscales :
  Measure.getscales self_measure_data = Ok [example_scale].
Proof.
  unfold Measure.getscales, self_measure_data. cbn [annotations for_each].
  rewrite (getscales_item_nat _ _ "S" "10" 10 (0, 0) (5, 0)); try reflexivity.
  intros H0. pose proof dist2_example as H5. rewrite H0, sqrt_0 in H5. lra.
Qed.

Lemma self_measure_value : meas_val example_scale ((0, 0), (5, 0)) = 10.
Proof. unfold meas_val. simpl. rewrite dist2_example. lra. Qed.

Lemma measurable_no_filter items :
  (forall item, In item items -> Annotation.type item = "line" ->
                is_line_coords (Annotation.coords item) = true) ->
  measurable None items.
Proof.
  intros Hc. split.
  - intros item _ _. reflexivity.
  - intros item Hin Hq. apply Hc; [exact Hin |].
    apply andb_true_iff in Hq as [Hq _]. apply String.eqb_eq, Hq.
Qed.

Lemma self_measure_extract :
  Measure.extract self_measure_data [example_scale] None
  = Ok (["S: 10"], {["S" := [10]]}).
Proof.
  destruct (measure_spec self_measure_data [example_scale] None) as (col & Hrun & Hcol).
  { apply measurable_no_filter. intros item [<- | []] _. reflexivity. }
  rewrite Hrun. simpl. do 2 f_equal. apply map_eq. intros k. rewrite Hcol.
  destruct (decide (k = "S")) as [-> | Hne].
  - rewrite lookup_singleton_eq. rewrite decide_True by left.
    simpl. rewrite <- self_measure_value. reflexivity.
  - rewrite lookup_singleton_ne by congruence.
    rewrite decide_False; [reflexivity |].
    simpl. intros H. apply elem_of_cons in H as [-> | H]; [congruence | inversion H].
Qed.

(** C8.  The measurer takes every line that passes the filter, whatever its
    name: a line whose name the scale grammar accepts is among the
    qualifying lines, its name is recorded, and every scale's column receives
    its length times that scale's [unitperpx]; renaming a line changes
    nothing but the recorded name.  The scale line [S: 10] alone is measured
    against itself and yields its own physical length. *)
Theorem calibration_line_is_measured :
  (forall data scales tag item g,
      measurable tag (annotations data) ->
      In item (annotations data) ->
      Annotation.type item = "line" ->
      Measure.scale_re (Annotation.name item) = Some g ->
      passes tag item = true ->
      exists names col,
        Measure.extract data scales tag = Ok (names, col) /\
        names = map Annotation.name (qualifying_lines tag (annotations data)) /\
        In item (qualifying_lines tag (annotations data)) /\
        In (Annotation.name item) names /\
        forall sc, In sc scales ->
          exists vs, col !! Measure.name sc = Some vs /\
                     In (meas_val sc (endpoints item)) vs) /\
  (forall scales tag item nm st,
      result_map snd (Measure.extract_item scales tag (rename nm item) st)
      = result_map snd (Measure.extract_item scales tag item st)) /\
  (Measure.getscales self_measure_data = Ok [example_scale] /\
   Measure.extract self_measure_data [example_scale] None
   = Ok (["S: 10"], {["S" := [10]]})).
Proof.
  split; [| split; [exact measure_item_rename |
                    split; [exact self_measure_getscales | exact self_measure_extract]]].
  intros data scales tag item g Hm Hin Ht _ Hp.
  destruct (measure_spec data scales tag Hm) as (col & Hrun & Hcol).
  assert (Hq : In item (qualifying_lines tag (annotations data))).
  { apply list_elem_of_In. unfold qualifying_lines. apply list_elem_of_filter.
    split; [| apply list_elem_of_In, Hin].
    unfold qualifies. rewrite Ht, Hp. reflexivity. }
  eexists _, col. split; [exact Hrun |]. split; [reflexivity |].
  split; [exact Hq |]. split; [apply in_map, Hq |].
  intros sc Hsc. rewrite Hcol. rewrite decide_True.
  2:{ apply list_elem_of_fmap. exists sc. split; [reflexivity |].
      apply list_elem_of_In, Hsc. }
  eexists. split; [reflexivity |].
  apply in_flat_map. exists item. split; [exact Hq |].
  unfold picks.
  apply (in_map (fun sc0 => meas_val sc0 (endpoints item))).
  apply list_elem_of_In, list_elem_of_filter. split; [reflexivity |].
  apply list_elem_of_In, Hsc.
Qed.

Lemma calibration_line_is_measured_witness :
  exists names col,
    Measure.extract self_measure_data [example_scale] None = Ok (names, col) /\
    names = map Annotation.name (qualifying_lines None (annotations self_measure_data)) /\
    In (line "S: 10" (0, 0) (5, 0)) (qualifying_lines None (annotations self_measure_data)) /\
    In "S: 10" names /\
    forall sc, In sc [example_scale] ->
      exists vs, col !! Measure.name sc = Some vs /\
                 In (meas_val sc (endpoints (line "S: 10" (0, 0) (5, 0)))) vs.
Proof.
  apply (proj1 calibration_line_is_measured self_measure_data [example_scale] None
           (line "S: 10" (0, 0) (5, 0)) ("S", "10")).
  - apply measurable_no_filter. intros item [<- | []] _. reflexivity.
  - left. reflexivity.
  - reflexivity.
  - reflexivity.
  - reflexivity.
Defined.

(** ** Quoting in the exported text *)

(** A string without a comma is left alone by [csv_sanitize]; words are such
    strings. *)
Lemma index_comma_cons (c : ascii) (s : string) :
  index 0 "," (String c s)
  = if ascii_dec ","%char c then Some 0%nat
    else match index 0 "," s with Some n => Some (S n) | None => None end.
Proof.
  cbn [index String.prefix].
  destruct (ascii_dec ","%char c); [destruct s |]; reflexivity.
Qed.

Lemma str_in_comma_class cls (s : string) :
  cls ","%char = false -> all_chars cls s = true -> str_in comma s = false.
Proof.
  intros Hcls. unfold str_in, comma.
  induction s as [| c s IH]; [reflexivity |].
  intros Hall. cbn [all_chars] in Hall. apply andb_true_iff in Hall as [Hc Hs].
  rewrite index_comma_cons.
  destruct (ascii_dec ","%char c) as [<- | Hne]; [congruence |].
  specialize (IH Hs). destruct (index 0 "," s); [discriminate | reflexivity].
Qed.

Lemma csv_sanitize_word (s : string) :
  all_chars is_word s = true -> csv_sanitize s = s.
Proof.
  intros Hw. unfold csv_sanitize.
  rewrite (str_in_comma_class is_word s); [reflexivity | reflexivity | exact Hw].
Qed.

Lemma axis_names_words items :
  Forall (fun n => all_chars is_word n = true) (axis_names items).
Proof.
  induction items as [| item items IH]; [constructor |].
  rewrite axis_names_cons. apply Forall_app. split; [| exact IH].
  unfold axis_names. simpl.
  destruct (String.eqb (Annotation.type item) "line"); [| constructor].
  destruct (Extract.axis_re (Annotation.name item)) as [[[[g_name g_a] g_b] g_l] |] eqn:Hm;
    [| constructor].
  constructor; [| constructor]. apply axis_re_groups in Hm. tauto.
Qed.

Lemma scale_names_words items :
  Forall (fun n => all_chars is_word n = true) (scale_names items).
Proof.
  induction items as [| item items IH]; [constructor |].
  rewrite scale_names_cons. apply Forall_app. split; [| exact IH].
  unfold scale_names. simpl.
  destruct (String.eqb (Annotation.type item) "line"); [| constructor].
  destruct (Measure.scale_re (Annotation.name item)) as [[g_name g_length] |] eqn:Hm;
    [| constructor].
  constructor; [| constructor]. apply scale_re_groups in Hm. tauto.
Qed.

(** The header names are calibration names, which are words: on them
    [csv_sanitize] is the identity. *)
Lemma getaxes_names_sanitized data axes :
  Extract.getaxes data = Ok axes ->
  map csv_sanitize (map Extract.name axes) = map Extract.name axes.
Proof.
  intros Hrun. rewrite (getaxes_names _ _ Hrun).
  pose proof (axis_names_words (annotations data)) as Hw.
  induction Hw as [| n ns Hn _ IH]; [reflexivity |].
  simpl. rewrite (csv_sanitize_word _ Hn), IH. reflexivity.
Qed.

Lemma getscales_names_sanitized data scales :
  Measure.getscales data = Ok scales ->
  map csv_sanitize (map Measure.name scales) = map Measure.name scales.
Proof.
  intros Hrun. rewrite (getscales_names _ _ Hrun).
  pose proof (scale_names_words (annotations data)) as Hw.
  induction Hw as [| n ns Hn _ IH]; [reflexivity |].
  simpl. rewrite (csv_sanitize_word _ Hn), IH. reflexivity.
Qed.


Lemma comma_getscales : Measure.getscales comma_data = Ok [example_scale].
Proof.
  unfold Measure.getscales, comma_data. cbn [annotations for_each].
  rewrite (getscales_item_nat _ _ "S" "10" 10 (0, 0) (5, 0)); try reflexivity.
  intros H0. pose proof dist2_example as H5. rewrite H0, sqrt_0 in H5. lra.
Qed.

Lemma comma_value : meas_val example_scale ((0, 0), (3, 4)) = 10.
Proof.
  unfold meas_val. simpl. rewrite dist2_example.
  replace (dist2 (0, 0) (3, 4)) with (5 * 5) by (unfold dist2, sq; simpl; lra).
  rewrite sqrt_square by lra. lra.
Qed.

Lemma comma_extract :
  Measure.extract comma_data [example_scale] None
  = Ok (["S: 10"; "a,b"], {["S" := [10; 10]]}).
Proof.
  destruct (measure_spec comma_data [example_scale] None) as (col & Hrun & Hcol).
  { apply measurable_no_filter. intros item [<- | [<- | []]] _; reflexivity. }
  rewrite Hrun. simpl. do 2 f_equal. apply map_eq. intros k. rewrite Hcol.
  destruct (decide (k = "S")) as [-> | Hne].
  - rewrite lookup_singleton_eq. rewrite decide_True by left.
    simpl. rewrite <- self_measure_value at 1. rewrite <- comma_value. reflexivity.
  - rewrite lookup_singleton_ne by congruence.
    rewrite decide_False; [reflexivity |].
    simpl. intros H. apply elem_of_cons in H as [-> | H]; [congruence | inversion H].
Qed.

(** C9 on the code.  [csv_sanitize] wraps a string holding a comma in double
    quotes and leaves every other string alone.  The exporter applies it to
    the header names, which are calibration names and never hold a comma;
    the line names of pipeline B start their data row as they are.  On the
    example, the row of the line named [a,b] starts with [a,b,], not with the
    quoted name. *)
Theorem row_name_written_unquoted (str : R -> string) :
  (forall s, csv_sanitize s = if str_in comma s then dquote ++ s ++ dquote else s) /\
  (forall data axes,
      Extract.getaxes data = Ok axes ->
      map csv_sanitize (map Extract.name axes) = map Extract.name axes) /\
  (forall data scales,
      Measure.getscales data = Ok scales ->
      map csv_sanitize (map Measure.name scales) = map Measure.name scales) /\
  (forall names col keys i row,
      Measure.export_row str names col keys i = Ok row ->
      exists n cells, names !! i = Some n /\ row = n ++ comma ++ cells) /\
  csv_sanitize "a,b" = dquote ++ "a,b" ++ dquote /\
  Measure.main str comma_data None
  = ("name,S" ++ newline
     ++ ("S: 10," ++ str 10 ++ newline)
     ++ ("a,b," ++ str 10 ++ newline), None).
Proof.
  split; [reflexivity |]. split; [exact getaxes_names_sanitized |].
  split; [exact getscales_names_sanitized |].
  split; [| split; [reflexivity |]].
  - intros names col keys i row. unfold Measure.export_row, list_get.
    destruct (names !! i) as [n |]; simpl; [| discriminate].
    destruct (map_result _ keys) as [cells |]; simpl; [| discriminate].
    intros [= <-]. eauto.
  - unfold Measure.main. rewrite comma_getscales. cbn [bind].
    rewrite comma_extract. reflexivity.
Qed.

(** ** The [tags] key *)

Lemma for_each_map {A B S : Type} (f : A -> B) (body : B -> S -> result S)
    (l : list A) (st : S) :
  for_each body (map f l) st = for_each (fun x => body (f x)) l st.
Proof.
  revert st. induction l as [| x l IH]; intros st; simpl; [reflexivity |].
  destruct (body (f x) st); simpl; [apply IH | reflexivity].
Qed.

Lemma col_append_err k v col e : Extract.col_append k v col = Err e -> e = KeyError.
Proof.
  unfold Extract.col_append, dict_get. destruct (col !! k); simpl; congruence.
Qed.

Lemma extract_item_err axes tag item col e :
  (Annotation.type item = "point" -> is_point_coords (Annotation.coords item) = true) ->
  (forall ax, In ax axes -> Extract.l2 ax <> 0) ->
  Extract.extract_item axes tag item col = Err e -> e = KeyError.
Proof.
  intros Hc Hl. unfold Extract.extract_item.
  destruct (String.eqb_spec (Annotation.type item) "point") as [Ht | Ht]; simpl;
    [| discriminate].
  destruct (tag_excludes tag item) as [[|] | e'] eqn:Hx; simpl.
  - discriminate.
  - specialize (Hc Ht). destruct (Annotation.coords item) as [p | c0 c1]; [| discriminate].
    apply (for_each_err _ (fun e => e = KeyError)). intros ax st e0 Hax.
    unfold Extract.extract_axis. simpl. rewrite project_ok by (apply Hl, Hax). simpl.
    apply col_append_err.
  - intros [= <-]. eapply tag_excludes_err, Hx.
Qed.

Lemma measure_col_append_err k v col e : Measure.col_append k v col = Err e -> e = KeyError.
Proof.
  unfold Measure.col_append, dict_get. destruct (col !! k); simpl; congruence.
Qed.

Lemma measure_item_err scales tag item st e :
  (Annotation.type item = "line" -> is_line_coords (Annotation.coords item) = true) ->
  Measure.extract_item scales tag item st = Err e -> e = KeyError.
Proof.
  intros Hc. unfold Measure.extract_item.
  destruct (String.eqb_spec (Annotation.type item) "line") as [Ht | Ht]; simpl;
    [| discriminate].
  destruct (tag_excludes tag item) as [[|] | e'] eqn:Hx; simpl.
  - discriminate.
  - specialize (Hc Ht). destruct (Annotation.coords item) as [p | c0 c1]; [discriminate |].
    destruct (for_each _ scales (snd st)) as [col | e0] eqn:Hrun; simpl; [discriminate |].
    intros [= <-]. revert Hrun.
    apply (for_each_err _ (fun e => e = KeyError)). intros sc col0 e1 _.
    unfold Measure.extract_scale. simpl. rewrite measure_ok. simpl.
    apply measure_col_append_err.
  - intros [= <-]. eapply tag_excludes_err, Hx.
Qed.

Lemma tags_unreadable tag t item :
  tag_active tag = Some t -> Annotation.tags item = None ->
  tags_readable tag item = false.
Proof. unfold tags_readable. intros -> ->. reflexivity. Qed.

Lemma extract_item_strip axes tag item col :
  tag_active tag = None ->
  Extract.extract_item axes tag (strip_tags item) col
  = Extract.extract_item axes tag item col.
Proof.
  intros Htag. unfold Extract.extract_item. simpl.
  rewrite !tag_excludes_inactive by exact Htag. reflexivity.
Qed.

Lemma measure_item_strip scales tag item st :
  tag_active tag = None ->
  Measure.extract_item scales tag (strip_tags item) st
  = Measure.extract_item scales tag item st.
Proof.
  intros Htag. unfold Measure.extract_item. simpl.
  rewrite !tag_excludes_inactive by exact Htag. reflexivity.
Qed.

(** C10 as stated fails: the exception need not be [KeyError].  With the
    filter [A], a point tagged [A] and after it a point without tags, on a
    plot whose axis line has coinciding endpoints, the tagged point is
    projected first and the division by [l2 = 0] ends the run with
    [ZeroDivisionError]; the point without tags is never reached. *)
Lemma untagged_point_not_reached :
  Extract.getaxes tagged_before_untagged = Ok [degenerate_axis] /\
  In (point "q" (7, 0)) (annotations tagged_before_untagged) /\
  Annotation.tags (point "q" (7, 0)) = None /\
  tag_active (Some "A") = Some "A" /\
  Extract.extract tagged_before_untagged [degenerate_axis] (Some "A")
  = Err ZeroDivisionError.
Proof.
  split; [| split; [| split; [| split]]].
  - unfold Extract.getaxes. cbn [tagged_before_untagged annotations for_each].
    rewrite (getaxes_item_match _ _ "X" "0" "100" "") by reflexivity.
    rewrite (py_float_nat "0" 0), (py_float_nat "100" 100) by reflexivity.
    cbn [bind line Annotation.coords line_coords String.eqb].
    rewrite Axis_init_linear. cbn [bind app].
    rewrite getaxes_item_not_line by discriminate. cbn [bind for_each].
    rewrite getaxes_item_not_line by discriminate. reflexivity.
  - right. right. left. reflexivity.
  - reflexivity.
  - reflexivity.
  - unfold Extract.extract. cbn [tagged_before_untagged annotations for_each].
    rewrite extract_item_other by discriminate. cbn [bind].
    apply (extract_degenerate degenerate_axis [] (Some "A") []
             (Annotation.mk "point" "p" (PointCoords (5, 0)) (Some ["A"]))
             [point "q" (7, 0)] (5, 0)).
    + simpl. unfold dist2, sq. simpl. lra.
    + intros x [].
    + reflexivity.
    + reflexivity.
    + reflexivity.
Qed.

(** C10, as the code has it.  With an active filter (a non-empty tag) the
    projector and the measurer read [item["tags"]] of every point,
    respectively line, they reach, so the extraction does not complete when
    one of them lacks the key.  The annotations are processed in input
    order: the annotation without the key raises [KeyError] when the
    annotations before it are processed without an exception, and an
    exception raised on the way to it ends the run first.  Without a filter
    ([None] or the empty string) the key is never read: removing every
    [tags] key changes nothing. *)
Theorem tags_read_only_under_filter :
  (forall data axes tag t item,
      tag_active tag = Some t ->
      In item (annotations data) ->
      Annotation.type item = "point" -> Annotation.tags item = None ->
      exists e, Extract.extract data axes tag = Err e) /\
  (forall pre item post axes tag t col,
      tag_active tag = Some t ->
      Annotation.type item = "point" -> Annotation.tags item = None ->
      Extract.extract {| annotations := pre |} axes tag = Ok col ->
      Extract.extract {| annotations := pre ++ item :: post |} axes tag
      = Err KeyError) /\
  (forall pre post axes tag e,
      Extract.extract {| annotations := pre |} axes tag = Err e ->
      Extract.extract {| annotations := pre ++ post |} axes tag = Err e) /\
  (forall data scales tag t item,
      tag_active tag = Some t ->
      In item (annotations data) ->
      Annotation.type item = "line" -> Annotation.tags item = None ->
      exists e, Measure.extract data scales tag = Err e) /\
  (forall pre item post scales tag t st,
      tag_active tag = Some t ->
      Annotation.type item = "line" -> Annotation.tags item = None ->
      Measure.extract {| annotations := pre |} scales tag = Ok st ->
      Measure.extract {| annotations := pre ++ item :: post |} scales tag
      = Err KeyError) /\
  (forall pre post scales tag e,
      Measure.extract {| annotations := pre |} scales tag = Err e ->
      Measure.extract {| annotations := pre ++ post |} scales tag = Err e) /\
  (forall data axes tag,
      tag_active tag = None ->
      Extract.extract (strip_all_tags data) axes tag = Extract.extract data axes tag) /\
  (forall data scales tag,
      tag_active tag = None ->
      Measure.extract (strip_all_tags data) scales tag = Measure.extract data scales tag) /\
  (tag_active None = None /\ tag_active (Some "") = None /\
   tag_active (Some "A") = Some "A").
Proof.
  repeat apply conj; try reflexivity.
  - intros data axes tag t item Htag Hin Ht Hnone.
    unfold Extract.extract. apply (for_each_raises _ _ item Hin).
    intros col. exists KeyError. apply extract_item_missing_tags; [exact Ht |].
    eapply tags_unreadable; eassumption.
  - intros pre item post axes tag t col Htag Ht Hnone Hpre.
    unfold Extract.extract in *. cbn [annotations] in *.
    rewrite for_each_app, Hpre. cbn [bind for_each].
    rewrite extract_item_missing_tags; [reflexivity | exact Ht |].
    eapply tags_unreadable; eassumption.
  - intros pre post axes tag e Hpre.
    unfold Extract.extract in *. cbn [annotations] in *.
    rewrite for_each_app, Hpre. reflexivity.
  - intros data scales tag t item Htag Hin Ht Hnone.
    unfold Measure.extract. apply (for_each_raises _ _ item Hin).
    intros st. exists KeyError. apply measure_item_missing_tags; [exact Ht |].
    eapply tags_unreadable; eassumption.
  - intros pre item post scales tag t st Htag Ht Hnone Hpre.
    unfold Measure.extract in *. cbn [annotations] in *.
    rewrite for_each_app, Hpre. cbn [bind for_each].
    rewrite measure_item_missing_tags; [reflexivity | exact Ht |].
    eapply tags_unreadable; eassumption.
  - intros pre post scales tag e Hpre.
    unfold Measure.extract in *. cbn [annotations] in *.
    rewrite for_each_app, Hpre. reflexivity.
  - intros data axes tag Htag. unfold Extract.extract, strip_all_tags. simpl.
    rewrite for_each_map. apply for_each_ext.
    intros item col _. apply extract_item_strip, Htag.
  - intros data scales tag Htag. unfold Measure.extract, strip_all_tags. simpl.
    rewrite for_each_map. apply for_each_ext.
    intros item st _. apply measure_item_strip, Htag.
Qed.

Lemma tags_read_only_under_filter_witness :
  Extract.extract untagged_data [dup_axis1] (Some "A") = Err KeyError.
Proof.
  assert (Hp : projectable [dup_axis1] (Some "A")
                 [line "X: 0 100" (0, 0) (10, 0);
                  Annotation.mk "point" "p" (PointCoords (5, 0)) (Some ["A"])]).
  { split; [| split].
    - intros x [<- | [<- | []]]; simpl; intros; try discriminate; reflexivity.
    - intros x [<- | [<- | []]]; simpl; intros; try discriminate; reflexivity.
    - intros ax [<- | []]. simpl. unfold dist2, sq. simpl. lra. }
  destruct (extract_spec {| annotations := _ |} _ _ Hp) as (col & Hrun & _).
  exact (proj1 (proj2 tags_read_only_under_filter)
           [line "X: 0 100" (0, 0) (10, 0);
            Annotation.mk "point" "p" (PointCoords (5, 0)) (Some ["A"])]
           (point "q" (7, 0)) [] [dup_axis1] (Some "A") "A" col
           eq_refl eq_refl eq_refl Hrun).
Defined.

(** * Further properties of the two scripts *)

(** ** The fields of a calibration *)

Lemma dist2_zero_iff (r0 r1 : vec) : dist2 r0 r1 = 0 <-> r0 = r1.
Proof.
  unfold dist2. rewrite sum_sq_zero. destruct r0 as [x0 y0], r1 as [x1 y1]. simpl.
  split.
  - intros [Hx Hy]. f_equal; lra.
  - intros [= -> ->]. lra.
Qed.

Lemma Axis_init_fields nm r0 r1 a b islog ax :
  Extract.Axis_init nm r0 r1 a b islog = Ok ax ->
  Extract.r0 ax = r0 /\ Extract.r1 ax = r1 /\ Extract.islog ax = islog /\
  Extract.delta ax = (fst r1 - fst r0, snd r1 - snd r0) /\
  Extract.l2 ax = dist2 r0 r1 /\
  (islog = false -> Extract.a ax = a /\ Extract.b ax = b) /\
  (islog = true -> 0 < a /\ 0 < b /\ Extract.a ax = ln a /\ Extract.b ax = ln b).
Proof.
  destruct islog.
  - intros Hinit. destruct (Axis_init_log_inv _ _ _ _ _ _ Hinit) as [Ha Hb].
    rewrite Axis_init_log in Hinit by assumption. injection Hinit as <-. simpl.
    repeat split; auto; discriminate.
  - rewrite Axis_init_linear. intros [= <-]. simpl.
    repeat split; auto; discriminate.
Qed.

Lemma scale_init_fields nm r0 r1 physlen sc :
  Measure.Axis_init nm r0 r1 physlen = Ok sc ->
  dist2 r0 r1 <> 0 /\ Measure.unitperpx sc = physlen / sqrt (dist2 r0 r1).
Proof.
  intros Hinit. destruct (Req_dec_T (dist2 r0 r1) 0) as [H0 | Hl].
  - rewrite scale_init_degenerate in Hinit by exact H0. discriminate.
  - rewrite scale_init_ok in Hinit by exact Hl. injection Hinit as <-. auto.
Qed.

(** ** The tag filter as a restriction of the input *)

Lemma qualifies_no_filter kind tag item :
  qualifies kind tag item = true -> qualifies kind None item = true.
Proof.
  unfold qualifies. intros H. apply andb_true_iff in H as [-> _]. reflexivity.
Qed.

Lemma extract_items_filter axes tag items : forall col,
  (forall item, In item items -> Annotation.type item = "point" ->
                tags_readable tag item = true) ->
  for_each (Extract.extract_item axes tag) items col
  = for_each (Extract.extract_item axes None)
             (filter (fun item => qualifies "point" tag item = true) items) col.
Proof.
  induction items as [| item items IH]; intros col Hread; [reflexivity |].
  assert (Hread' : forall x, In x items -> Annotation.type x = "point" ->
                             tags_readable tag x = true).
  { intros x Hx. apply Hread. right. exact Hx. }
  destruct (qualifies "point" tag item) eqn:Hq.
  - rewrite filter_cons_True by exact Hq. cbn [for_each].
    assert (Hr : tags_readable tag item = true).
    { apply Hread; [left; reflexivity |].
      apply andb_true_iff in Hq as [Hq _]. apply String.eqb_eq, Hq. }
    rewrite (extract_item_qualified axes tag) by assumption.
    rewrite (extract_item_qualified axes None)
      by (eauto using qualifies_no_filter).
    destruct (for_each _ axes col) as [col' | e]; cbn [bind]; [| reflexivity].
    apply IH, Hread'.
  - rewrite filter_cons_False by (rewrite Hq; discriminate). cbn [for_each].
    assert (Hstep : Extract.extract_item axes tag item col = Ok col).
    { destruct (String.eqb_spec (Annotation.type item) "point") as [Ht | Ht].
      - apply extract_item_unqualified; [| exact Hq].
        apply Hread; [left; reflexivity | exact Ht].
      - apply extract_item_other, Ht. }
    rewrite Hstep. cbn [bind]. apply IH, Hread'.
Qed.

Lemma measure_items_filter scales tag items : forall st,
  (forall item, In item items -> Annotation.type item = "line" ->
                tags_readable tag item = true) ->
  for_each (Measure.extract_item scales tag) items st
  = for_each (Measure.extract_item scales None)
             (filter (fun item => qualifies "line" tag item = true) items) st.
Proof.
  induction items as [| item items IH]; intros st Hread; [reflexivity |].
  assert (Hread' : forall x, In x items -> Annotation.type x = "line" ->
                             tags_readable tag x = true).
  { intros x Hx. apply Hread. right. exact Hx. }
  destruct (qualifies "line" tag item) eqn:Hq.
  - rewrite filter_cons_True by exact Hq. cbn [for_each].
    assert (Hr : tags_readable tag item = true).
    { apply Hread; [left; reflexivity |].
      apply andb_true_iff in Hq as [Hq _]. apply String.eqb_eq, Hq. }
    rewrite (measure_item_qualified scales tag) by assumption.
    rewrite (measure_item_qualified scales None)
      by (eauto using qualifies_no_filter).
    destruct (for_each _ scales (snd st)) as [col' | e]; cbn [bind]; [| reflexivity].
    apply IH, Hread'.
  - rewrite filter_cons_False by (rewrite Hq; discriminate). cbn [for_each].
    assert (Hstep : Measure.extract_item scales tag item st = Ok st).
    { destruct (String.eqb_spec (Annotation.type item) "line") as [Ht | Ht].
      - apply measure_item_unqualified; [| exact Hq].
        apply Hread; [left; reflexivity | exact Ht].
      - apply measure_item_other, Ht. }
    rewrite Hstep. cbn [bind]. apply IH, Hread'.
Qed.

(** When the tags of every point can be read, projecting with a tag filter
    is projecting, without a filter, the file that holds just the points
    carrying the tag: the same columns, or the same exception. *)
Theorem projector_filter_restricts data axes tag :
  (forall item, In item (annotations data) -> Annotation.type item = "point" ->
                tags_readable tag item = true) ->
  Extract.extract data axes tag
  = Extract.extract (keep_qualifying "point" tag data) axes None.
Proof.
  intros Hread. unfold Extract.extract, keep_qualifying. cbn [annotations].
  apply extract_items_filter, Hread.
Qed.

Lemma projector_filter_restricts_witness :
  Extract.extract tagged_points [dup_axis1] (Some "A")
  = Extract.extract (keep_qualifying "point" (Some "A") tagged_points) [dup_axis1] None.
Proof.
  apply projector_filter_restricts.
  intros item [<- | [<- | [<- | []]]]; intros; try discriminate; reflexivity.
Defined.

(** The same for the measurer and the lines carrying the tag. *)
Theorem measurer_filter_restricts data scales tag :
  (forall item, In item (annotations data) -> Annotation.type item = "line" ->
                tags_readable tag item = true) ->
  Measure.extract data scales tag
  = Measure.extract (keep_qualifying "line" tag data) scales None.
Proof.
  intros Hread. unfold Measure.extract, keep_qualifying. cbn [annotations].
  apply measure_items_filter, Hread.
Qed.

Lemma measurer_filter_restricts_witness :
  Measure.extract tagged_lines [example_scale] (Some "A")
  = Measure.extract (keep_qualifying "line" (Some "A") tagged_lines) [example_scale] None.
Proof.
  apply measurer_filter_restricts.
  intros item [<- | [<- | [<- | []]]]; intros; reflexivity.
Defined.

(** ** The exporters on arbitrary columns *)

Lemma map_result_ok {A B : Type} (f : A -> result B) (g : A -> B) (l : list A) :
  (forall x, In x l -> f x = Ok (g x)) -> map_result f l = Ok (map g l).
Proof.
  induction l as [| x l IH]; intros H; simpl; [reflexivity |].
  rewrite H by (left; reflexivity). simpl.
  rewrite IH by (intros y Hy; apply H; right; exact Hy). reflexivity.
Qed.

Lemma map_result_err {A B : Type} (f : A -> result B) (P : pyerr -> Prop) (l : list A) e :
  (forall x e', In x l -> f x = Err e' -> P e') -> map_result f l = Err e -> P e.
Proof.
  induction l as [| x l IH]; intros H; simpl; [discriminate |].
  destruct (f x) as [y | e'] eqn:Hx; simpl.
  - destruct (map_result f l) as [ys | e'']; simpl; [discriminate |].
    intros [= <-]. apply IH; [| reflexivity].
    intros z e0 Hz. apply H. right. exact Hz.
  - intros [= <-]. apply (H x); [left; reflexivity | exact Hx].
Qed.

Lemma map_result_fails {A B : Type} (f : A -> result B) (l : list A) x e :
  In x l -> f x = Err e -> exists e', map_result f l = Err e'.
Proof.
  induction l as [| y l IH]; intros Hin Hx; [destruct Hin |]. simpl.
  destruct Hin as [-> | Hin].
  - rewrite Hx. eauto.
  - destruct (f y); simpl; [| eauto].
    destruct (IH Hin Hx) as [e' ->]. simpl. eauto.
Qed.

Lemma write_rows_ok (row' : nat -> result string) (row : nat -> string) n :
  forall i out,
    (forall j, (i <= j < i + n)%nat -> row' j = Ok (row j)) ->
    write_rows row' n i out = ((out ++ rows_text row n i)%string, None).
Proof.
  induction n as [| n IH]; intros i out H; simpl.
  - rewrite append_nil_r. reflexivity.
  - rewrite H by lia. rewrite IH by (intros j Hj; apply H; lia).
    rewrite !append_assoc. reflexivity.
Qed.

Lemma write_rows_none (row' : nat -> result string) n : forall i out,
  snd (write_rows row' n i out) = None <->
  (forall j, (i <= j < i + n)%nat -> exists line, row' j = Ok line).
Proof.
  induction n as [| n IH]; intros i out; simpl.
  - split; [intros _ j Hj; lia | reflexivity].
  - destruct (row' i) as [line | e] eqn:Hi.
    + rewrite IH. split.
      * intros H j Hj. destruct (decide (j = i)) as [-> | Hne]; [eauto |].
        apply H. lia.
      * intros H j Hj. apply H. lia.
    + simpl. split; [discriminate |].
      intros H. destruct (H i) as [line Hline]; [lia | congruence].
Qed.

Lemma write_rows_err (row' : nat -> result string) (P : pyerr -> Prop) n :
  (forall j e, row' j = Err e -> P e) ->
  forall i out e, snd (write_rows row' n i out) = Some e -> P e.
Proof.
  intros H. induction n as [| n IH]; intros i out e; simpl; [discriminate |].
  destruct (row' i) as [line | e'] eqn:Hi; [apply IH |].
  simpl. intros [= <-]. eapply H, Hi.
Qed.

Lemma export_cell_ok (repr : R -> string) col k i vs :
  col !! k = Some vs -> (i < length vs)%nat ->
  (vs <- dict_get col k ;; v <- list_get vs i ;; Ok (repr v)) = Ok (repr (cell col k i)).
Proof.
  intros Hk Hi. unfold dict_get, list_get, cell. rewrite Hk. simpl.
  destruct (lookup_lt_is_Some_2 vs i Hi) as [v Hv]. rewrite Hv. simpl.
  rewrite (nth_lookup_Some _ _ 0 _ Hv). reflexivity.
Qed.

Lemma export_cell_short (repr : R -> string) col k i vs :
  col !! k = Some vs -> (length vs <= i)%nat ->
  (vs <- dict_get col k ;; v <- list_get vs i ;; Ok (repr v)) = Err IndexError.
Proof.
  intros Hk Hi. unfold dict_get, list_get. rewrite Hk. simpl.
  rewrite (lookup_ge_None_2 vs i Hi). reflexivity.
Qed.

Lemma export_cell_err (repr : R -> string) col k i e :
  is_Some (col !! k) ->
  (vs <- dict_get col k ;; v <- list_get vs i ;; Ok (repr v)) = Err e -> e = IndexError.
Proof.
  intros [vs Hk]. unfold dict_get, list_get. rewrite Hk. simpl.
  destruct (vs !! i); simpl; congruence.
Qed.

Lemma export_row_ok (repr : R -> string) col keys i :
  (forall k, In k keys -> exists vs, col !! k = Some vs /\ (i < length vs)%nat) ->
  Extract.export_row repr col keys i
  = Ok (join comma (map (fun k => repr (cell col k i)) keys)).
Proof.
  intros H. unfold Extract.export_row.
  rewrite (map_result_ok _ (fun k => repr (cell col k i))); [reflexivity |].
  intros k Hk. destruct (H k Hk) as (vs & Hvs & Hi).
  eapply export_cell_ok; eassumption.
Qed.

Lemma export_row_short (repr : R -> string) col keys i k vs :
  In k keys -> col !! k = Some vs -> (length vs <= i)%nat ->
  exists e, Extract.export_row repr col keys i = Err e.
Proof.
  intros Hk Hvs Hi. unfold Extract.export_row.
  destruct (map_result_fails
              (fun k => vs <- dict_get col k ;; v <- list_get vs i ;; Ok (repr v))
              keys k IndexError Hk
              (export_cell_short repr col k i vs Hvs Hi)) as [e ->].
  simpl. eauto.
Qed.

Lemma export_row_err (repr : R -> string) col keys i e :
  (forall k, In k keys -> is_Some (col !! k)) ->
  Extract.export_row repr col keys i = Err e -> e = IndexError.
Proof.
  intros Hkeys. unfold Extract.export_row.
  destruct (map_result _ keys) as [cells | e'] eqn:Hm; simpl; [discriminate |].
  intros [= <-]. revert Hm. apply (map_result_err _ (fun e => e = IndexError)).
  intros k e0 Hk. apply export_cell_err, Hkeys, Hk.
Qed.

Lemma sorted_keys_In {V : Type} (col : gmap string V) (k : string) :
  In k (sorted_keys col) <-> is_Some (col !! k).
Proof. rewrite <- list_elem_of_In. apply sorted_keys_elem. Qed.

Lemma first_length_cons col k0 ks :
  sorted_keys col = k0 :: ks ->
  exists vs0, col !! k0 = Some vs0 /\ first_length col = length vs0.
Proof.
  intros Hs. assert (Hin : In k0 (sorted_keys col)) by (rewrite Hs; left; reflexivity).
  apply sorted_keys_In in Hin as [vs0 Hvs0]. exists vs0. split; [exact Hvs0 |].
  unfold first_length. rewrite Hs, Hvs0. reflexivity.
Qed.

Lemma export_rectangular (repr : R -> string) (col : gmap string (list R)) (n : nat) :
  col <> ∅ ->
  (forall k vs, col !! k = Some vs -> length vs = n) ->
  Extract.export repr col
  = (join comma (map csv_sanitize (sorted_keys col)) ++ newline
     ++ rows_text (fun i => join comma (map (fun k => repr (cell col k i))
                                            (sorted_keys col))) n 0,
     None).
Proof.
  intros Hne Hrect. unfold Extract.export.
  destruct (sorted_keys col) as [| k0 ks] eqn:Hs.
  { apply sorted_keys_nil in Hs. contradiction. }
  destruct (first_length_cons col k0 ks Hs) as (vs0 & Hvs0 & _).
  unfold dict_get. rewrite Hvs0, (Hrect _ _ Hvs0).
  rewrite (write_rows_ok _ (fun i => join comma (map (fun k => repr (cell col k i))
                                                     (k0 :: ks)))).
  - rewrite append_assoc. reflexivity.
  - intros j Hj. apply export_row_ok. intros k Hk.
    rewrite <- Hs in Hk. apply sorted_keys_In in Hk as [vs Hvs].
    exists vs. split; [exact Hvs |]. rewrite (Hrect _ _ Hvs). lia.
Qed.

(** On columns of one length [n] the exporter of pipeline A writes the
    header and [n] rows, row [i] holding entry [i] of every column in key
    order, and raises nothing. *)
Theorem export_writes_table (repr : R -> string) (col : gmap string (list R)) (n : nat) :
  col <> ∅ ->
  (forall k vs, col !! k = Some vs -> length vs = n) ->
  Extract.export repr col
  = (join comma (map csv_sanitize (sorted_keys col)) ++ newline
     ++ rows_text (fun i => join comma (map (fun k => repr (cell col k i))
                                            (sorted_keys col))) n 0,
     None).
Proof.
  intros Hne Hrect. apply export_rectangular; assumption.
Qed.

Lemma export_writes_table_witness :
  Extract.export no_number {["X" := [50; 5]]}
  = (join comma (map csv_sanitize (sorted_keys ({["X" := [50; 5]]} : gmap string (list R))))
     ++ newline
     ++ rows_text (fun i => join comma
                              (map (fun k => no_number (cell {["X" := [50; 5]]} k i))
                                   (sorted_keys ({["X" := [50; 5]]} : gmap string (list R)))))
                  2 0,
     None).
Proof.
  apply export_writes_table.
  - intros H. apply (f_equal (fun m => m !! "X")) in H.
    rewrite lookup_singleton_eq, lookup_empty in H. discriminate.
  - intros k vs Hk. apply lookup_singleton_Some in Hk as [_ <-]. reflexivity.
Defined.

(** The exporter of pipeline A takes the number of rows from the first
    column in key order: it completes exactly when no column is shorter than
    that one (longer columns are cut off), and the only exception it can
    raise is [IndexError]. *)
Theorem export_completes_iff (repr : R -> string) (col : gmap string (list R)) :
  (snd (Extract.export repr col) = None <->
   forall k vs, col !! k = Some vs -> (first_length col <= length vs)%nat) /\
  (forall e, snd (Extract.export repr col) = Some e -> e = IndexError).
Proof.
  unfold Extract.export.
  destruct (sorted_keys col) as [| k0 ks] eqn:Hs.
  { apply sorted_keys_nil in Hs. subst col. simpl. split; [| discriminate].
    split; [| reflexivity]. intros _ k vs Hk. rewrite lookup_empty in Hk. discriminate. }
  destruct (first_length_cons col k0 ks Hs) as (vs0 & Hvs0 & Hfirst).
  rewrite Hfirst. unfold dict_get. rewrite Hvs0.
  assert (Hkeys : forall k, In k (k0 :: ks) -> is_Some (col !! k)).
  { intros k Hk. rewrite <- Hs in Hk. apply sorted_keys_In, Hk. }
  split.
  - rewrite write_rows_none. split.
    + intros Hrows k vs Hvs.
      destruct (le_lt_dec (length vs0) (length vs)) as [Hle | Hlt]; [exact Hle |].
      destruct (Hrows (length vs)) as [line Hline]; [lia |].
      assert (Hk : In k (k0 :: ks)).
      { rewrite <- Hs. apply sorted_keys_In. eauto. }
      destruct (export_row_short repr col (k0 :: ks) (length vs) k vs Hk Hvs) as [e He];
        [lia | congruence].
    + intros Hlen j Hj. eexists. apply export_row_ok.
      intros k Hk. destruct (Hkeys k Hk) as [vs Hvs].
      exists vs. split; [exact Hvs |]. specialize (Hlen k vs Hvs). lia.
  - intros e. apply (write_rows_err _ (fun e => e = IndexError)).
    intros j e0. apply export_row_err, Hkeys.
Qed.

Lemma measure_export_row_ok (str : R -> string) names col keys i n :
  names !! i = Some n ->
  (forall k, In k keys -> exists vs, col !! k = Some vs /\ (i < length vs)%nat) ->
  Measure.export_row str names col keys i
  = Ok (n ++ comma ++ join comma (map (fun k => str (cell col k i)) keys)).
Proof.
  intros Hn H. unfold Measure.export_row, list_get at 1. rewrite Hn. simpl.
  rewrite (map_result_ok _ (fun k => str (cell col k i))); [reflexivity |].
  intros k Hk. destruct (H k Hk) as (vs & Hvs & Hi).
  eapply export_cell_ok; eassumption.
Qed.

Lemma measure_export_row_short (str : R -> string) names col keys i k vs :
  In k keys -> col !! k = Some vs -> (length vs <= i)%nat ->
  exists e, Measure.export_row str names col keys i = Err e.
Proof.
  intros Hk Hvs Hi. unfold Measure.export_row.
  destruct (list_get names i) as [n | e]; simpl; [| eauto].
  destruct (map_result_fails
              (fun k => vs <- dict_get col k ;; v <- list_get vs i ;; Ok (str v))
              keys k IndexError Hk
              (export_cell_short str col k i vs Hvs Hi)) as [e ->].
  simpl. eauto.
Qed.

Lemma measure_export_row_err (str : R -> string) names col keys i e :
  (forall k, In k keys -> is_Some (col !! k)) ->
  Measure.export_row str names col keys i = Err e -> e = IndexError.
Proof.
  intros Hkeys. unfold Measure.export_row, list_get at 1.
  destruct (names !! i) as [n |]; simpl; [| congruence].
  destruct (map_result _ keys) as [cells | e'] eqn:Hm; simpl; [discriminate |].
  intros [= <-]. revert Hm. apply (map_result_err _ (fun e => e = IndexError)).
  intros k e0 Hk. apply export_cell_err, Hkeys, Hk.
Qed.

Lemma measure_export_rectangular (str : R -> string) (names : list string)
    (col : gmap string (list R)) (n : nat) :
  col <> ∅ ->
  (forall k vs, col !! k = Some vs -> length vs = n) ->
  (n <= length names)%nat ->
  Measure.export str names col
  = ("name" ++ comma ++ join comma (map csv_sanitize (sorted_keys col)) ++ newline
     ++ rows_text (fun i => nth i names "" ++ comma
                            ++ join comma (map (fun k => str (cell col k i))
                                               (sorted_keys col))) n 0,
     None).
Proof.
  intros Hne Hrect Hnames. unfold Measure.export.
  destruct (sorted_keys col) as [| k0 ks] eqn:Hs.
  { apply sorted_keys_nil in Hs. contradiction. }
  destruct (first_length_cons col k0 ks Hs) as (vs0 & Hvs0 & _).
  unfold dict_get. rewrite Hvs0, (Hrect _ _ Hvs0).
  rewrite (write_rows_ok _ (fun i => nth i names "" ++ comma
                                     ++ join comma (map (fun k => str (cell col k i))
                                                        (k0 :: ks)))).
  - rewrite !append_assoc. reflexivity.
  - intros j Hj.
    destruct (lookup_lt_is_Some_2 names j) as [nm Hnm]; [lia |].
    rewrite (nth_lookup_Some _ _ "" _ Hnm).
    apply measure_export_row_ok; [exact Hnm |]. intros k Hk.
    rewrite <- Hs in Hk. apply sorted_keys_In in Hk as [vs Hvs].
    exists vs. split; [exact Hvs |]. rewrite (Hrect _ _ Hvs). lia.
Qed.

(** On columns of one length [n] and at least [n] recorded names the
    exporter of pipeline B writes the header, which starts with [name], and
    [n] rows, row [i] holding name [i] as it is and entry [i] of every
    column in key order, and raises nothing. *)
Theorem measure_export_writes_table (str : R -> string) (names : list string)
    (col : gmap string (list R)) (n : nat) :
  col <> ∅ ->
  (forall k vs, col !! k = Some vs -> length vs = n) ->
  (n <= length names)%nat ->
  Measure.export str names col
  = ("name" ++ comma ++ join comma (map csv_sanitize (sorted_keys col)) ++ newline
     ++ rows_text (fun i => nth i names "" ++ comma
                            ++ join comma (map (fun k => str (cell col k i))
                                               (sorted_keys col))) n 0,
     None).
Proof.
  intros Hne Hrect Hnames. apply measure_export_rectangular; assumption.
Qed.

Lemma measure_export_writes_table_witness :
  Measure.export no_number ["S: 10"; "a,b"] {["S" := [10; 10]]}
  = ("name" ++ comma
     ++ join comma (map csv_sanitize
                        (sorted_keys ({["S" := [10; 10]]} : gmap string (list R))))
     ++ newline
     ++ rows_text (fun i => nth i ["S: 10"; "a,b"] "" ++ comma
                            ++ join comma
                                 (map (fun k => no_number (cell {["S" := [10; 10]]} k i))
                                      (sorted_keys ({["S" := [10; 10]]}
                                                    : gmap string (list R))))) 2 0,
     None).
Proof.
  apply measure_export_writes_table.
  - intros H. apply (f_equal (fun m => m !! "S")) in H.
    rewrite lookup_singleton_eq, lookup_empty in H. discriminate.
  - intros k vs Hk. apply lookup_singleton_Some in Hk as [_ <-]. reflexivity.
  - simpl. lia.
Defined.

(** The exporter of pipeline B completes exactly when neither the list of
    names nor any column is shorter than the first column in key order, and
    the only exception it can raise is [IndexError]. *)
Theorem measure_export_completes_iff (str : R -> string) (names : list string)
    (col : gmap string (list R)) :
  (snd (Measure.export str names col) = None <->
   (first_length col <= length names)%nat /\
   forall k vs, col !! k = Some vs -> (first_length col <= length vs)%nat) /\
  (forall e, snd (Measure.export str names col) = Some e -> e = IndexError).
Proof.
  unfold Measure.export.
  destruct (sorted_keys col) as [| k0 ks] eqn:Hs.
  { unfold first_length. rewrite Hs.
    apply sorted_keys_nil in Hs. subst col. simpl. split; [| discriminate].
    split; [| reflexivity]. intros _. split; [lia |].
    intros k vs Hk. rewrite lookup_empty in Hk. discriminate. }
  destruct (first_length_cons col k0 ks Hs) as (vs0 & Hvs0 & Hfirst).
  rewrite Hfirst. unfold dict_get. rewrite Hvs0.
  assert (Hkeys : forall k, In k (k0 :: ks) -> is_Some (col !! k)).
  { intros k Hk. rewrite <- Hs in Hk. apply sorted_keys_In, Hk. }
  split.
  - rewrite write_rows_none. split.
    + intros Hrows. split.
      * destruct (le_lt_dec (length vs0) (length names)) as [Hle | Hlt]; [exact Hle |].
        destruct (Hrows (length names)) as [line Hline]; [lia |].
        unfold Measure.export_row, list_get at 1 in Hline.
        rewrite (lookup_ge_None_2 names (length names)) in Hline by lia.
        discriminate.
      * intros k vs Hvs.
        destruct (le_lt_dec (length vs0) (length vs)) as [Hle | Hlt]; [exact Hle |].
        destruct (Hrows (length vs)) as [line Hline]; [lia |].
        assert (Hk : In k (k0 :: ks)).
        { rewrite <- Hs. apply sorted_keys_In. eauto. }
        destruct (measure_export_row_short str names col (k0 :: ks) (length vs) k vs
                    Hk Hvs) as [e He]; [lia | congruence].
    + intros [Hnames Hlen] j Hj.
      destruct (lookup_lt_is_Some_2 names j) as [nm Hnm]; [lia |].
      eexists. apply measure_export_row_ok; [exact Hnm |].
      intros k Hk. destruct (Hkeys k Hk) as [vs Hvs].
      exists vs. split; [exact Hvs |]. specialize (Hlen k vs Hvs). lia.
  - intros e. apply (write_rows_err _ (fun e => e = IndexError)).
    intros j e0. apply measure_export_row_err, Hkeys.
Qed.

(** ** The header and the whole run *)

(** The header names come in ascending order of their characters, each key
    of the dictionary once. *)
Theorem header_keys_sorted (col : gmap string (list R)) :
  StronglySorted str_le (sorted_keys col) /\
  NoDup (sorted_keys col) /\
  (forall k, In k (sorted_keys col) <-> is_Some (col !! k)).
Proof.
  split; [apply StronglySorted_merge_sort; apply _ |]. split.
  - rewrite sorted_keys_perm. apply NoDup_elements.
  - intros k. apply sorted_keys_In.
Qed.

Lemma filter_none {A : Type} (P : A -> Prop) `{forall x, Decision (P x)} (l : list A) :
  (forall x, x ∈ l -> ~ P x) -> filter P l = [].
Proof.
  induction l as [| x l IH]; intros Hn; [reflexivity |].
  rewrite filter_cons_False by (apply Hn; left).
  apply IH. intros y Hy. apply Hn. right. exact Hy.
Qed.

Section Table.
Context {C X : Type} (key : C -> string) (val : C -> X -> R).
Context (cals : list C) (xs : list X) (col : gmap string (list R)).
Hypothesis Hcol :
  forall k, col !! k
    = if decide (k ∈ map key cals) then
        Some (flat_map (fun x => picks key (fun c => val c x) k cals) xs)
      else None.
Hypothesis Hnd : NoDup (map key cals).

Lemma filter_key_nodup c :
  In c cals -> filter (fun c' => key c' = key c) cals = [c].
Proof using Hnd.
  clear Hcol. revert Hnd. induction cals as [| c0 l IH]; intros Hnodup Hin.
  - destruct Hin.
  - apply NoDup_cons in Hnodup as [Hnotin Hnodup].
    destruct Hin as [-> | Hin].
    + rewrite filter_cons_True by reflexivity. f_equal.
      apply filter_none. intros c' Hc' Hkey.
      apply Hnotin. rewrite <- Hkey. apply list_elem_of_fmap.
      exists c'. split; [reflexivity | exact Hc'].
    + rewrite filter_cons_False; [apply IH; assumption |].
      intros Hkey. apply Hnotin. rewrite Hkey. apply list_elem_of_fmap.
      exists c. split; [reflexivity | apply list_elem_of_In, Hin].
Qed.

Lemma table_column c :
  In c cals -> col !! key c = Some (map (val c) xs).
Proof using Hcol Hnd.
  intros Hin. rewrite Hcol. rewrite decide_True.
  2:{ apply list_elem_of_fmap. exists c. split; [reflexivity | apply list_elem_of_In, Hin]. }
  f_equal. rewrite <- flat_map_single. apply flat_map_ext. intros x.
  unfold picks. rewrite (filter_key_nodup c Hin). reflexivity.
Qed.

Lemma table_rectangular k vs : col !! k = Some vs -> length vs = length xs.
Proof using Hcol Hnd.
  intros Hk. assert (Hin : k ∈ map key cals).
  { rewrite Hcol in Hk. destruct (decide (k ∈ map key cals)); [assumption | discriminate]. }
  apply list_elem_of_fmap in Hin as (c & -> & Hc). apply list_elem_of_In in Hc.
  rewrite (table_column c Hc) in Hk. injection Hk as <-. apply length_map.
Qed.

Lemma table_keys : sorted_keys col = map key (sorted_by_key key cals).
Proof using Hcol Hnd.
  apply (Sorted_unique str_le).
  - apply Sorted_merge_sort. apply _.
  - apply (Sorted_fmap key (key_le key) str_le); [intros c1 c2 H; exact H |].
    apply Sorted_merge_sort. intros c1 c2. apply (total str_le).
  - rewrite sorted_keys_perm.
    rewrite (columns_dom key val cals xs col Hcol).
    rewrite elements_list_to_set by exact Hnd.
    unfold sorted_by_key. rewrite merge_sort_Permutation. reflexivity.
Qed.

Lemma table_cell c i x d :
  In c cals -> xs !! i = Some x -> cell col (key c) i = val c x /\ nth i xs d = x.
Proof using Hcol Hnd.
  intros Hin Hx. unfold cell. rewrite (table_column c Hin). simpl. split.
  - apply nth_lookup_Some. rewrite list_lookup_fmap, Hx. reflexivity.
  - apply nth_lookup_Some, Hx.
Qed.
End Table.

Lemma rows_text_lines {X : Type} (f : X -> string) (d : X) (xs : list X) :
  forall (row : nat -> string) i,
    (forall j, (j < length xs)%nat -> row (i + j)%nat = f (nth j xs d)) ->
    rows_text row (length xs) i = concat_lines (map f xs).
Proof.
  induction xs as [| x xs IH]; intros row i H; [reflexivity |].
  assert (H0 : row i = f x).
  { rewrite <- (Nat.add_0_r i). apply (H 0%nat). simpl. lia. }
  simpl. rewrite H0. f_equal. apply IH. intros j Hj.
  replace (S i + j)%nat with (i + S j)%nat by lia.
  apply (H (S j)). simpl. lia.
Qed.

Lemma sorted_by_key_In {C : Type} (key : C -> string) (cals : list C) c :
  In c (sorted_by_key key cals) <-> In c cals.
Proof.
  rewrite <- !list_elem_of_In. unfold sorted_by_key.
  rewrite merge_sort_Permutation. reflexivity.
Qed.

(** A whole run of pipeline A on real numbers, where the arithmetic cannot
    overflow: when the parser returns axes with distinct names and the
    projector's input is in order (tags readable, point coordinates, no
    degenerate axis), [main] prints the header of the axis names in
    ascending order and one row per qualifying point, in input order,
    holding the point's projection on each axis in header order. *)
Lemma main_point_table_run (repr : R -> string) data tag axes :
  Extract.getaxes data = Ok axes ->
  axes <> [] ->
  NoDup (map Extract.name axes) ->
  projectable axes tag (annotations data) ->
  Extract.main repr data tag
  = (point_table repr axes (qualifying_points tag (annotations data)), None).
Proof.
  intros Hax Hne Hnd Hp. unfold Extract.main. rewrite Hax. cbn [bind].
  destruct (extract_spec data axes tag Hp) as (col & Hrun & Hcol). rewrite Hrun.
  set (pts := qualifying_points tag (annotations data)) in *.
  set (val := fun (ax : Extract.Axis) (p : vec) => proj_val ax p).
  assert (Hcol' : forall k, col !! k
            = if decide (k ∈ map Extract.name axes) then
                Some (flat_map (fun x => picks Extract.name (fun c => val c x) k axes) pts)
              else None) by exact Hcol.
  rewrite (export_rectangular repr col (length pts)).
  - rewrite (table_keys Extract.name val axes pts col Hcol' Hnd).
    unfold point_table. do 3 f_equal.
    apply (rows_text_lines
             (fun p => join comma (map (fun ax => repr (proj_val ax p))
                                       (sorted_by_key Extract.name axes))) (0, 0)).
    intros j Hj. simpl. rewrite map_map. f_equal. apply map_ext_in.
    intros ax Hin. apply sorted_by_key_In in Hin.
    destruct (lookup_lt_is_Some_2 pts j Hj) as [p Hpj].
    destruct (table_cell Extract.name val axes pts col Hcol' Hnd ax j p (0, 0) Hin Hpj)
      as [-> ->].
    reflexivity.
  - destruct axes as [| ax0 axes']; [congruence |].
    intros Hempty.
    pose proof (table_column Extract.name val (ax0 :: axes') pts col Hcol' Hnd ax0
                  (or_introl eq_refl)) as H0.
    rewrite Hempty, lookup_empty in H0. discriminate.
  - intros k vs Hk.
    exact (table_rectangular Extract.name val axes pts col Hcol' Hnd k vs Hk).
Qed.

Lemma tagged_points_getaxes : Extract.getaxes tagged_points = Ok [dup_axis1].
Proof.
  unfold Extract.getaxes, tagged_points. cbn [annotations for_each].
  rewrite (getaxes_item_linear _ _ "X" "0" "100" 0 100 (0, 0) (10, 0)) by reflexivity.
  cbn [bind app]. rewrite getaxes_item_not_line by discriminate.
  cbn [bind]. rewrite getaxes_item_not_line by discriminate. reflexivity.
Qed.

Lemma tagged_points_projectable :
  projectable [dup_axis1] (Some "A") (annotations tagged_points).
Proof.
  split; [| split].
  - intros item [<- | [<- | [<- | []]]]; intros; try discriminate; reflexivity.
  - intros item [<- | [<- | [<- | []]]]; intros; try discriminate; reflexivity.
  - intros ax [<- | []]. simpl. unfold dist2, sq. simpl. lra.
Qed.

Lemma tagged_points_run :
  Extract.main no_number tagged_points (Some "A")
  = (point_table no_number [dup_axis1]
       (qualifying_points (Some "A") (annotations tagged_points)), None).
Proof.
  apply main_point_table_run.
  - exact tagged_points_getaxes.
  - discriminate.
  - repeat constructor. intros H. inversion H.
  - exact tagged_points_projectable.
Qed.

(** The text of a completed run of pipeline A.  When the parser returns
    axes with distinct names and the projector's input is in order (tags
    readable, point coordinates, no degenerate axis), a run of [main] that
    ends without an exception has printed the header of the axis names in
    ascending order and one row per qualifying point, in input order,
    holding the point's projection on each axis in header order. *)
Theorem main_prints_point_table (repr : R -> string) data tag axes :
  Extract.getaxes data = Ok axes ->
  axes <> [] ->
  NoDup (map Extract.name axes) ->
  projectable axes tag (annotations data) ->
  snd (Extract.main repr data tag) = None ->
  fst (Extract.main repr data tag)
  = point_table repr axes (qualifying_points tag (annotations data)).
Proof.
  intros Hax Hne Hnd Hp _.
  rewrite (main_point_table_run repr data tag axes Hax Hne Hnd Hp). reflexivity.
Qed.

Lemma main_prints_point_table_witness :
  fst (Extract.main no_number tagged_points (Some "A"))
  = point_table no_number [dup_axis1]
      (qualifying_points (Some "A") (annotations tagged_points)).
Proof.
  apply main_prints_point_table.
  - exact tagged_points_getaxes.
  - discriminate.
  - repeat constructor. intros H. inversion H.
  - exact tagged_points_projectable.
  - rewrite tagged_points_run. reflexivity.
Defined.

(** A whole run of pipeline B on real numbers, where the arithmetic cannot
    overflow: when the parser returns scales with distinct names and the
    measurer's input is in order (tags readable, two endpoints per line),
    [main] prints the header [name] and the scale names in ascending order,
    and one row per qualifying line, in input order, holding the line's
    name and its length on each scale in header order. *)
Lemma main_line_table_run (str : R -> string) data tag scales :
  Measure.getscales data = Ok scales ->
  scales <> [] ->
  NoDup (map Measure.name scales) ->
  measurable tag (annotations data) ->
  Measure.main str data tag
  = (line_table str scales (qualifying_lines tag (annotations data)), None).
Proof.
  intros Hsc Hne Hnd Hm. unfold Measure.main. rewrite Hsc. cbn [bind].
  destruct (measure_spec data scales tag Hm) as (col & Hrun & Hcol). rewrite Hrun.
  set (items := qualifying_lines tag (annotations data)) in *.
  set (val := fun (sc : Measure.Axis) (item : Annotation.t) => meas_val sc (endpoints item)).
  assert (Hcol' : forall k, col !! k
            = if decide (k ∈ map Measure.name scales) then
                Some (flat_map (fun x => picks Measure.name (fun c => val c x) k scales) items)
              else None) by exact Hcol.
  rewrite (measure_export_rectangular str _ col (length items)).
  - rewrite (table_keys Measure.name val scales items col Hcol' Hnd).
    unfold line_table. do 5 f_equal.
    apply (rows_text_lines
             (fun item => Annotation.name item ++ comma
                          ++ join comma (map (fun sc => str (meas_val sc (endpoints item)))
                                             (sorted_by_key Measure.name scales)))
             (line "" (0, 0) (0, 0))).
    intros j Hj. simpl.
    destruct (lookup_lt_is_Some_2 items j Hj) as [item Hitem].
    rewrite (nth_lookup_Some items j _ item Hitem).
    rewrite (nth_lookup_Some (map Annotation.name items) j "" (Annotation.name item))
      by (rewrite list_lookup_fmap, Hitem; reflexivity).
    do 2 f_equal. rewrite map_map. f_equal. apply map_ext_in.
    intros sc Hin. apply sorted_by_key_In in Hin.
    destruct (table_cell Measure.name val scales items col Hcol' Hnd sc j item
                (line "" (0, 0) (0, 0)) Hin Hitem) as [-> _].
    reflexivity.
  - destruct scales as [| sc0 scales']; [congruence |].
    intros Hempty.
    pose proof (table_column Measure.name val (sc0 :: scales') items col Hcol' Hnd sc0
                  (or_introl eq_refl)) as H0.
    rewrite Hempty, lookup_empty in H0. discriminate.
  - intros k vs Hk.
    exact (table_rectangular Measure.name val scales items col Hcol' Hnd k vs Hk).
  - rewrite length_map. lia.
Qed.

Lemma comma_data_run :
  Measure.main no_number comma_data None
  = (line_table no_number [example_scale]
       (qualifying_lines None (annotations comma_data)), None).
Proof.
  apply main_line_table_run.
  - exact comma_getscales.
  - discriminate.
  - repeat constructor. intros H. inversion H.
  - apply measurable_no_filter. intros item [<- | [<- | []]] _; reflexivity.
Qed.

(** The text of a completed run of pipeline B.  When the parser returns
    scales with distinct names and the measurer's input is in order (tags
    readable, two endpoints per line), a run of [main] that ends without an
    exception has printed the header [name] and the scale names in
    ascending order, and one row per qualifying line, in input order,
    holding the line's name and its length on each scale in header order. *)
Theorem main_prints_line_table (str : R -> string) data tag scales :
  Measure.getscales data = Ok scales ->
  scales <> [] ->
  NoDup (map Measure.name scales) ->
  measurable tag (annotations data) ->
  snd (Measure.main str data tag) = None ->
  fst (Measure.main str data tag)
  = line_table str scales (qualifying_lines tag (annotations data)).
Proof.
  intros Hsc Hne Hnd Hm _.
  rewrite (main_line_table_run str data tag scales Hsc Hne Hnd Hm). reflexivity.
Qed.

Lemma main_prints_line_table_witness :
  fst (Measure.main no_number comma_data None)
  = line_table no_number [example_scale]
      (qualifying_lines None (annotations comma_data)).
Proof.
  apply main_prints_line_table.
  - exact comma_getscales.
  - discriminate.
  - repeat constructor. intros H. inversion H.
  - apply measurable_no_filter. intros item [<- | [<- | []]] _; reflexivity.
  - rewrite comma_data_run. reflexivity.
Defined.

(** ** Columns under distinct names *)



(** With distinct scale names, the measurer records the names of the
    qualifying lines in input order and gives every scale its own column,
    which holds the length of every qualifying line on that scale, aligned
    with the names. *)
Theorem measurer_columns data scales tag :
  NoDup (map Measure.name scales) ->
  measurable tag (annotations data) ->
  exists col,
    Measure.extract data scales tag
    = Ok (map Annotation.name (qualifying_lines tag (annotations data)), col) /\
    (forall sc, In sc scales ->
       col !! Measure.name sc
       = Some (map (fun item => meas_val sc (endpoints item))
                   (qualifying_lines tag (annotations data)))) /\
    (forall k vs, col !! k = Some vs ->
       length vs = length (qualifying_lines tag (annotations data))).
Proof.
  intros Hnd Hm. destruct (measure_spec data scales tag Hm) as (col & Hrun & Hcol).
  exists col. split; [exact Hrun |]. split.
  - intros sc Hsc.
    exact (table_column Measure.name (fun sc item => meas_val sc (endpoints item))
             scales _ col Hcol Hnd sc Hsc).
  - intros k vs Hk.
    exact (table_rectangular Measure.name (fun sc item => meas_val sc (endpoints item))
             scales _ col Hcol Hnd k vs Hk).
Qed.

Lemma measurer_columns_witness :
  exists col,
    Measure.extract comma_data [example_scale] None
    = Ok (map Annotation.name (qualifying_lines None (annotations comma_data)), col) /\
    (forall sc, In sc [example_scale] ->
       col !! Measure.name sc
       = Some (map (fun item => meas_val sc (endpoints item))
                   (qualifying_lines None (annotations comma_data)))) /\
    (forall k vs, col !! k = Some vs ->
       length vs = length (qualifying_lines None (annotations comma_data))).
Proof.
  apply measurer_columns.
  - repeat constructor. intros H. inversion H.
  - apply measurable_no_filter. intros item [<- | [<- | []]] _; reflexivity.
Defined.

(** ** What the parsers return *)

Lemma getaxes_item_inv item acc acc' :
  Extract.getaxes_item item acc = Ok acc' ->
  (accepted_axis_line item = false /\ acc' = acc) \/
  (accepted_axis_line item = true /\
   exists ax, axis_of_line item ax /\ acc' = (acc ++ [ax])%list).
Proof.
  unfold Extract.getaxes_item, accepted_axis_line, axis_of_line.
  destruct (String.eqb (Annotation.type item) "line"); simpl.
  2:{ intros [= <-]. auto. }
  destruct (Extract.axis_re (Annotation.name item))
    as [[[[g_name g_a] g_b] g_islog] |]; simpl.
  2:{ intros [= <-]. auto. }
  intros H. right. split; [reflexivity |].
  apply bind_ok_inv in H as (a & Ha & H).
  apply bind_ok_inv in H as (b & Hb & H).
  apply bind_ok_inv in H as ([r0 r1] & Hc & H).
  apply bind_ok_inv in H as (ax & Hax & H).
  injection H as <-. exists ax. split; [| reflexivity].
  exists g_name, g_a, g_b, g_islog, a, b, r0, r1.
  repeat split; try assumption.
  destruct (Annotation.coords item); simpl in Hc; congruence.
Qed.

Lemma getscales_item_inv item acc acc' :
  Measure.getscales_item item acc = Ok acc' ->
  (accepted_scale_line item = false /\ acc' = acc) \/
  (accepted_scale_line item = true /\
   exists sc, scale_of_line item sc /\ acc' = (acc ++ [sc])%list).
Proof.
  unfold Measure.getscales_item, accepted_scale_line, scale_of_line.
  destruct (String.eqb (Annotation.type item) "line"); simpl.
  2:{ intros [= <-]. auto. }
  destruct (Measure.scale_re (Annotation.name item)) as [[g_name g_length] |]; simpl.
  2:{ intros [= <-]. auto. }
  intros H. right. split; [reflexivity |].
  apply bind_ok_inv in H as (physlen & Hp & H).
  apply bind_ok_inv in H as ([r0 r1] & Hc & H).
  apply bind_ok_inv in H as (sc & Hsc & H).
  injection H as <-. exists sc. split; [| reflexivity].
  exists g_name, g_length, physlen, r0, r1.
  repeat split; try assumption.
  destruct (Annotation.coords item); simpl in Hc; congruence.
Qed.

(** A loop that appends at most one element per input element returns its
    accumulator followed by the elements appended for the accepted inputs,
    in input order. *)
Lemma for_each_appends {A B : Type} (body : A -> list B -> result (list B))
    (accepted : A -> bool) (rel : A -> B -> Prop) :
  (forall x acc acc', body x acc = Ok acc' ->
     (accepted x = false /\ acc' = acc) \/
     (accepted x = true /\ exists y, rel x y /\ acc' = (acc ++ [y])%list)) ->
  forall items acc out,
    for_each body items acc = Ok out ->
    exists new, out = (acc ++ new)%list /\
                Forall2 rel (filter (fun x => accepted x = true) items) new.
Proof.
  intros Hbody. induction items as [| x items IH]; intros acc out; simpl.
  - intros [= <-]. exists []. rewrite app_nil_r. split; [reflexivity | constructor].
  - intros H. apply bind_ok_inv in H as (acc' & Hx & H).
    destruct (IH _ _ H) as (new & -> & Hnew).
    destruct (Hbody _ _ _ Hx) as [[Hacc ->] | (Hacc & y & Hy & ->)].
    + exists new. split; [reflexivity |].
      rewrite filter_cons_False by (rewrite Hacc; discriminate). exact Hnew.
    + exists (y :: new). split; [rewrite <- app_assoc; reflexivity |].
      rewrite filter_cons_True by exact Hacc. constructor; assumption.
Qed.

(** [getaxes] returns exactly one axis per accepted line, in input order:
    the axis built from the captured name, the two converted bounds, the
    log flag and the two coordinates of that line, in the order given.
    Nothing is merged, dropped or reordered. *)
Theorem getaxes_one_per_accepted_line data axes :
  Extract.getaxes data = Ok axes ->
  Forall2 axis_of_line
          (filter (fun item => accepted_axis_line item = true) (annotations data)) axes /\
  map Extract.name axes = axis_names (annotations data).
Proof.
  intros Hrun. split; [| apply getaxes_names, Hrun].
  unfold Extract.getaxes in Hrun.
  destruct (for_each_appends Extract.getaxes_item accepted_axis_line axis_of_line
              getaxes_item_inv _ _ _ Hrun) as (new & -> & Hnew).
  exact Hnew.
Qed.

Lemma getaxes_one_per_accepted_line_witness :
  Forall2 axis_of_line
          (filter (fun item => accepted_axis_line item = true) (annotations dup_data_y))
          [dup_axis1; dup_axis2; dup_axis_y] /\
  map Extract.name [dup_axis1; dup_axis2; dup_axis_y] = axis_names (annotations dup_data_y).
Proof. exact (getaxes_one_per_accepted_line dup_data_y _ dup_y_getaxes). Defined.

(** [getscales] returns exactly one scale per accepted line, in input order:
    the scale built from the captured name, the converted length and the two
    coordinates of that line. *)
Theorem getscales_one_per_accepted_line data scales :
  Measure.getscales data = Ok scales ->
  Forall2 scale_of_line
          (filter (fun item => accepted_scale_line item = true) (annotations data)) scales /\
  map Measure.name scales = scale_names (annotations data).
Proof.
  intros Hrun. split; [| apply getscales_names, Hrun].
  unfold Measure.getscales in Hrun.
  destruct (for_each_appends Measure.getscales_item accepted_scale_line scale_of_line
              getscales_item_inv _ _ _ Hrun) as (new & -> & Hnew).
  exact Hnew.
Qed.

Lemma getscales_one_per_accepted_line_witness :
  Forall2 scale_of_line
          (filter (fun item => accepted_scale_line item = true) (annotations comma_data))
          [example_scale] /\
  map Measure.name [example_scale] = scale_names (annotations comma_data).
Proof. exact (getscales_one_per_accepted_line comma_data _ comma_getscales). Defined.

(** ** Where the exceptions come from *)

Lemma extract_axes_cases axes c : forall axs col,
  (forall ax, In ax axs -> In ax axes) ->
  has_keys Extract.name axes col ->
  (exists col', for_each (Extract.extract_axis c) axs col = Ok col' /\
                has_keys Extract.name axes col') \/
  (for_each (Extract.extract_axis c) axs col = Err TypeError /\
   axs <> [] /\ is_point_coords c = false) \/
  (for_each (Extract.extract_axis c) axs col = Err ZeroDivisionError /\
   exists ax, In ax axs /\ Extract.l2 ax = 0).
Proof.
  induction axs as [| ax axs IH]; intros col Hsub Hk.
  - left. exists col. split; [reflexivity | exact Hk].
  - destruct c as [p | c0 c1].
    2:{ right. left. split; [reflexivity |]. split; [discriminate | reflexivity]. }
    assert (Hstep : for_each (Extract.extract_axis (PointCoords p)) (ax :: axs) col
                    = (v <- Extract.project ax p ;;
                       col1 <- Extract.col_append (Extract.name ax) v col ;;
                       for_each (Extract.extract_axis (PointCoords p)) axs col1)).
    { cbn [for_each]. unfold Extract.extract_axis at 1. cbn [point_coords bind].
      destruct (Extract.project ax p); reflexivity. }
    rewrite Hstep. clear Hstep.
    destruct (Req_dec_T (Extract.l2 ax) 0) as [H0 | Hl].
    { right. right. rewrite project_degenerate by exact H0.
      split; [reflexivity |]. exists ax. split; [left; reflexivity | exact H0]. }
    rewrite project_ok by exact Hl. cbn [bind].
    destruct (Hk ax) as [vs Hvs]; [apply list_elem_of_In, Hsub; left; reflexivity |].
    unfold Extract.col_append, dict_get. rewrite Hvs. cbn [bind].
    destruct (IH (<[Extract.name ax := (vs ++ [proj_val ax p])%list]> col))
      as [Hok | [(Herr & Hne & Hc) | (Herr & ax' & Hax' & Hl')]].
    + intros ax' Hax'. apply Hsub. right. exact Hax'.
    + intros ax' Hax'. apply lookup_insert_is_Some'. right. apply Hk, Hax'.
    + left. exact Hok.
    + discriminate.
    + right. right. split; [exact Herr |]. exists ax'. split; [right; exact Hax' | exact Hl'].
Qed.

(** The exceptions of the projector on real numbers, case by case. *)
Lemma projector_err_cases data axes tag e :
  Extract.extract data axes tag = Err e ->
  (e = KeyError /\
   exists item, In item (annotations data) /\ Annotation.type item = "point" /\
                tags_readable tag item = false) \/
  (e = TypeError /\ axes <> [] /\
   exists item, In item (annotations data) /\ qualifies "point" tag item = true /\
                is_point_coords (Annotation.coords item) = false) \/
  (e = ZeroDivisionError /\
   (exists ax, In ax axes /\ Extract.l2 ax = 0) /\
   exists item, In item (annotations data) /\ qualifies "point" tag item = true).
Proof.
  unfold Extract.extract.
  generalize (empty_columns_has_keys axes).
  generalize (Extract.empty_columns (map Extract.name axes)).
  induction (annotations data) as [| item items IH]; intros col Hk; simpl; [discriminate |].
  assert (Hnext : forall col', has_keys Extract.name axes col' ->
            for_each (Extract.extract_item axes tag) items col' = Err e ->
            (e = KeyError /\
             exists x, (item = x \/ In x items) /\ Annotation.type x = "point" /\
                       tags_readable tag x = false) \/
            (e = TypeError /\ axes <> [] /\
             exists x, (item = x \/ In x items) /\ qualifies "point" tag x = true /\
                       is_point_coords (Annotation.coords x) = false) \/
            (e = ZeroDivisionError /\
             (exists ax, In ax axes /\ Extract.l2 ax = 0) /\
             exists x, (item = x \/ In x items) /\ qualifies "point" tag x = true)).
  { intros col' Hk' Hrun.
    destruct (IH col' Hk' Hrun)
      as [(-> & x & Hx & H) | [(-> & Hne & x & Hx & H) | (-> & Hax & x & Hx & H)]];
      [left | right; left | right; right]; eauto 10. }
  destruct (String.eqb_spec (Annotation.type item) "point") as [Ht | Ht].
  2:{ rewrite extract_item_other by exact Ht. cbn [bind]. apply Hnext, Hk. }
  destruct (tags_readable tag item) eqn:Hr.
  2:{ rewrite extract_item_missing_tags by assumption. cbn [bind].
      intros [= <-]. left. split; [reflexivity |]. exists item. auto. }
  destruct (qualifies "point" tag item) eqn:Hq.
  2:{ rewrite extract_item_unqualified by assumption. cbn [bind]. apply Hnext, Hk. }
  rewrite extract_item_qualified by assumption.
  destruct (extract_axes_cases axes (Annotation.coords item) axes col (fun ax H => H) Hk)
    as [(col' & -> & Hk') | [(-> & Hne & Hc) | (-> & Hax)]]; cbn [bind].
  - apply Hnext, Hk'.
  - intros [= <-]. right. left. split; [reflexivity |]. split; [exact Hne |].
    exists item. auto.
  - intros [= <-]. right. right. split; [reflexivity |]. split; [exact Hax |].
    exists item. auto.
Qed.

(** The three exceptions the projector raises on account of its input have
    their cause there: a [KeyError] comes from a point without the [tags]
    key under an active filter, a [TypeError] from a qualifying point whose
    coordinates are not a point's, and a [ZeroDivisionError] from an axis
    whose [l2] is zero, met by a qualifying point. *)
Theorem projector_exception_cause data axes tag :
  (Extract.extract data axes tag = Err KeyError ->
   exists item, In item (annotations data) /\ Annotation.type item = "point" /\
                tags_readable tag item = false) /\
  (Extract.extract data axes tag = Err TypeError ->
   axes <> [] /\
   exists item, In item (annotations data) /\ qualifies "point" tag item = true /\
                is_point_coords (Annotation.coords item) = false) /\
  (Extract.extract data axes tag = Err ZeroDivisionError ->
   (exists ax, In ax axes /\ Extract.l2 ax = 0) /\
   exists item, In item (annotations data) /\ qualifies "point" tag item = true).
Proof.
  repeat apply conj; intros H;
    destruct (projector_err_cases _ _ _ _ H)
      as [(He & Hc) | [(He & Hne & Hc) | (He & Hax & Hc)]];
    try discriminate He; auto.
Qed.

Lemma projector_exception_cause_witness :
  exists item, In item (annotations untagged_point) /\ Annotation.type item = "point" /\
               tags_readable (Some "A") item = false.
Proof.
  apply (proj1 (projector_exception_cause untagged_point [dup_axis1] (Some "A"))).
  reflexivity.
Defined.

Lemma extract_scales_cases scales c : forall scs col,
  (forall sc, In sc scs -> In sc scales) ->
  has_keys Measure.name scales col ->
  (exists col', for_each (Measure.extract_scale c) scs col = Ok col' /\
                has_keys Measure.name scales col') \/
  (for_each (Measure.extract_scale c) scs col = Err TypeError /\
   scs <> [] /\ is_line_coords c = false).
Proof.
  induction scs as [| sc scs IH]; intros col Hsub Hk.
  - left. exists col. split; [reflexivity | exact Hk].
  - destruct c as [p | c0 c1].
    { right. split; [reflexivity |]. split; [discriminate | reflexivity]. }
    assert (Hstep : for_each (Measure.extract_scale (LineCoords c0 c1)) (sc :: scs) col
                    = (col1 <- Measure.col_append (Measure.name sc)
                                 (meas_val sc (c0, c1)) col ;;
                       for_each (Measure.extract_scale (LineCoords c0 c1)) scs col1)).
    { cbn [for_each]. unfold Measure.extract_scale at 1. cbn [line_coords bind].
      rewrite measure_ok. reflexivity. }
    rewrite Hstep. clear Hstep.
    destruct (Hk sc) as [vs Hvs]; [apply list_elem_of_In, Hsub; left; reflexivity |].
    unfold Measure.col_append, dict_get. rewrite Hvs. cbn [bind].
    destruct (IH (<[Measure.name sc := (vs ++ [meas_val sc (c0, c1)])%list]> col))
      as [Hok | (Herr & Hne & Hc)].
    + intros sc' Hsc'. apply Hsub. right. exact Hsc'.
    + intros sc' Hsc'. apply lookup_insert_is_Some'. right. apply Hk, Hsc'.
    + left. exact Hok.
    + discriminate.
Qed.

(** The exceptions of the measurer on real numbers, case by case. *)
Lemma measurer_err_cases data scales tag e :
  Measure.extract data scales tag = Err e ->
  (e = KeyError /\
   exists item, In item (annotations data) /\ Annotation.type item = "line" /\
                tags_readable tag item = false) \/
  (e = TypeError /\ scales <> [] /\
   exists item, In item (annotations data) /\ qualifies "line" tag item = true /\
                is_line_coords (Annotation.coords item) = false).
Proof.
  unfold Measure.extract.
  generalize (scale_columns_has_keys scales).
  generalize (Measure.empty_columns (map Measure.name scales)).
  generalize ([] : list string).
  induction (annotations data) as [| item items IH]; intros names col Hk; simpl;
    [discriminate |].
  assert (Hnext : forall names' col', has_keys Measure.name scales col' ->
            for_each (Measure.extract_item scales tag) items (names', col') = Err e ->
            (e = KeyError /\
             exists x, (item = x \/ In x items) /\ Annotation.type x = "line" /\
                       tags_readable tag x = false) \/
            (e = TypeError /\ scales <> [] /\
             exists x, (item = x \/ In x items) /\ qualifies "line" tag x = true /\
                       is_line_coords (Annotation.coords x) = false)).
  { intros names' col' Hk' Hrun.
    destruct (IH names' col' Hk' Hrun)
      as [(-> & x & Hx & H) | (-> & Hne & x & Hx & H)]; [left | right]; eauto 10. }
  destruct (String.eqb_spec (Annotation.type item) "line") as [Ht | Ht].
  2:{ rewrite measure_item_other by exact Ht. cbn [bind]. apply Hnext, Hk. }
  destruct (tags_readable tag item) eqn:Hr.
  2:{ rewrite measure_item_missing_tags by assumption. cbn [bind].
      intros [= <-]. left. split; [reflexivity |]. exists item. auto. }
  destruct (qualifies "line" tag item) eqn:Hq.
  2:{ rewrite measure_item_unqualified by assumption. cbn [bind]. apply Hnext, Hk. }
  rewrite measure_item_qualified by assumption. cbn [fst snd].
  destruct (extract_scales_cases scales (Annotation.coords item) scales col
              (fun sc H => H) Hk) as [(col' & -> & Hk') | (-> & Hne & Hc)]; cbn [bind].
  - apply Hnext, Hk'.
  - intros [= <-]. right. split; [reflexivity |]. split; [exact Hne |].
    exists item. auto.
Qed.

(** The exceptions the measurer raises on account of its input have their
    cause there: a [KeyError] comes from a line without the [tags] key
    under an active filter, a [TypeError] from a qualifying line whose
    coordinates are not a line's.  The measurer never divides, so it never
    raises [ZeroDivisionError]. *)
Theorem measurer_exception_cause data scales tag :
  (Measure.extract data scales tag = Err KeyError ->
   exists item, In item (annotations data) /\ Annotation.type item = "line" /\
                tags_readable tag item = false) /\
  (Measure.extract data scales tag = Err TypeError ->
   scales <> [] /\
   exists item, In item (annotations data) /\ qualifies "line" tag item = true /\
                is_line_coords (Annotation.coords item) = false) /\
  Measure.extract data scales tag <> Err ZeroDivisionError.
Proof.
  repeat apply conj; intros H;
    destruct (measurer_err_cases _ _ _ _ H) as [(He & Hc) | (He & Hne & Hc)];
    try discriminate He; auto.
Qed.

Lemma measurer_exception_cause_witness :
  exists item, In item (annotations untagged_line) /\ Annotation.type item = "line" /\
               tags_readable (Some "A") item = false.
Proof.
  apply (proj1 (measurer_exception_cause untagged_line [example_scale] (Some "A"))).
  reflexivity.
Defined.

Lemma for_each_err_at {A S : Type} (body : A -> S -> result S) (l : list A) :
  forall st e, for_each body l st = Err e ->
               exists x st', In x l /\ body x st' = Err e.
Proof.
  induction l as [| y l IH]; intros st e; simpl; [discriminate |].
  destruct (body y st) as [st1 | e1] eqn:Hy; simpl.
  - intros H. destruct (IH _ _ H) as (x & st' & Hx & Hb). exists x, st'. auto.
  - intros [= <-]. exists y, st. auto.
Qed.

Lemma py_float_err_literal s e : py_float s = Err e -> e = ValueError /\ float_literal s = None.
Proof.
  unfold py_float. destruct (float_literal s) as [[[neg m] ex] |]; [discriminate |].
  intros [= <-]. auto.
Qed.

Lemma math_log_err_inv x e : math_log x = Err e -> e = ValueError /\ x <= 0.
Proof.
  unfold math_log. destruct (Rlt_dec 0 x); [discriminate |].
  intros [= <-]. split; [reflexivity | lra].
Qed.

Lemma Axis_init_err nm r0 r1 a b islog e :
  Extract.Axis_init nm r0 r1 a b islog = Err e ->
  e = ValueError /\ islog = true /\ (a <= 0 \/ b <= 0).
Proof.
  unfold Extract.Axis_init. rewrite math_sqrt_sum_sq. cbn [bind].
  destruct islog; cbn [negb]; [| discriminate].
  destruct (math_log a) as [la | ea] eqn:Ha; cbn [bind].
  - destruct (math_log b) as [lb | eb] eqn:Hb; cbn [bind]; [discriminate |].
    intros [= <-]. apply math_log_err_inv in Hb as [-> Hb]. auto.
  - intros [= <-]. apply math_log_err_inv in Ha as [-> Ha]. auto.
Qed.

(** ** The language of the two grammars

    The names are the strings of the model: characters with code points up
    to 255, with the classes [\w] and [\s] as [re] defines them on that
    range (so a no-break space is a blank and an accented letter is a word
    character). *)

Lemma space_not_numeric c : is_space c = true -> is_numeric c = false.
Proof. destruct c as [[] [] [] [] [] [] [] []]; vm_compute; congruence. Qed.

Lemma numeric_not_space c : is_numeric c = true -> is_space c = false.
Proof. destruct c as [[] [] [] [] [] [] [] []]; vm_compute; congruence. Qed.

Lemma starts_outside_app cls cls' (m r : string) :
  (forall c, cls' c = true -> cls c = false) ->
  all_chars cls' m = true -> starts_outside cls r -> starts_outside cls (m ++ r).
Proof.
  intros Hdisj Hm Hr. destruct m as [| c m]; [exact Hr |].
  rewrite append_cons. simpl in *. apply andb_true_iff in Hm as [Hc _].
  apply Hdisj, Hc.
Qed.

Section RegexGreedy.
Context {T : Type}.

(** A greedy repetition facing a run [m] of its class that ends there takes
    the whole run when the continuation accepts it. *)
Lemma re_star_run cls (k : string -> string -> option T) (m r : string) x :
  all_chars cls m = true -> starts_outside cls r ->
  forall acc, k (acc ++ m)%string r = Some x -> re_star cls acc (m ++ r) k = Some x.
Proof.
  intros Hm Hr. induction m as [| c m IH]; intros acc Hk.
  - rewrite append_nil_r in Hk. change ("" ++ r)%string with r.
    destruct r as [| c r]; [exact Hk |]. simpl in *. rewrite Hr. exact Hk.
  - simpl in Hm. apply andb_true_iff in Hm as [Hc Hm].
    rewrite append_cons. simpl. rewrite Hc.
    rewrite (IH Hm (acc ++ String c "")%string); [reflexivity |].
    rewrite append_assoc. exact Hk.
Qed.

Lemma re_plus_run cls (k : string -> string -> option T) (m r : string) x :
  m <> "" -> all_chars cls m = true -> starts_outside cls r ->
  k m r = Some x -> re_plus cls (m ++ r) k = Some x.
Proof.
  intros Hne Hm Hr Hk. destruct m as [| c m]; [congruence |].
  simpl in Hm. apply andb_true_iff in Hm as [Hc Hm].
  rewrite append_cons. unfold re_plus. rewrite Hc.
  apply re_star_run; assumption.
Qed.
End RegexGreedy.

Lemma starts_outside_numeric_after (ws r : string) :
  all_chars is_space ws = true -> starts_outside is_numeric r ->
  starts_outside is_numeric (ws ++ r).
Proof. apply starts_outside_app, space_not_numeric. Qed.

Lemma starts_outside_space_before (a r : string) :
  a <> "" -> all_chars is_numeric a = true -> starts_outside is_space (a ++ r).
Proof.
  intros Hne Ha. destruct a as [| c a]; [congruence |].
  rewrite append_cons. simpl in *. apply andb_true_iff in Ha as [Hc _].
  apply numeric_not_space, Hc.
Qed.

Lemma starts_outside_numeric_before (ws r : string) :
  ws <> "" -> all_chars is_space ws = true -> starts_outside is_numeric (ws ++ r).
Proof.
  intros Hne Hws. destruct ws as [| c ws]; [congruence |].
  rewrite append_cons. simpl in *. apply andb_true_iff in Hws as [Hc _].
  apply space_not_numeric, Hc.
Qed.

(** Every name of the documented form is accepted by the axis grammar, with
    the groups it was written with: a word, a colon, optional blanks, a
    token, blanks, a token, optional blanks and [L]; whatever follows the
    [L] is ignored.  Without the [L] the name is accepted with an empty flag
    when the text after the second token does not go on with a blank, a
    token character or [L]. *)
Theorem axis_re_accepts (n ws1 a ws2 b ws3 rest : string) :
  n <> "" -> all_chars is_word n = true ->
  all_chars is_space ws1 = true ->
  a <> "" -> all_chars is_numeric a = true ->
  ws2 <> "" -> all_chars is_space ws2 = true ->
  b <> "" -> all_chars is_numeric b = true ->
  all_chars is_space ws3 = true ->
  Extract.axis_re (n ++ ":" ++ ws1 ++ a ++ ws2 ++ b ++ ws3 ++ "L" ++ rest)
  = Some (n, a, b, "L") /\
  (starts_outside (fun c => is_space c || is_numeric c || Ascii.eqb c "L") rest ->
   Extract.axis_re (n ++ ":" ++ ws1 ++ a ++ ws2 ++ b ++ rest) = Some (n, a, b, "")).
Proof.
  intros Hn Hwn Hws1 Ha Hna Hws2 Hsp2 Hb Hnb Hws3.
  split.
  - unfold Extract.axis_re.
    apply re_plus_run; [exact Hn | exact Hwn | reflexivity |].
    change (re_lit ":" (":" ++ ws1 ++ a ++ ws2 ++ b ++ ws3 ++ "L" ++ rest)) with
      (fun k : string -> option (string * string * string * string) =>
         k (ws1 ++ a ++ ws2 ++ b ++ ws3 ++ "L" ++ rest)%string).
    cbv beta.
    apply re_star_run; [exact Hws1 | apply starts_outside_space_before; assumption |].
    apply re_plus_run; [exact Ha | exact Hna |
                        apply starts_outside_numeric_before; assumption |].
    apply re_plus_run; [exact Hws2 | exact Hsp2 |
                        apply starts_outside_space_before; assumption |].
    apply re_plus_run; [exact Hb | exact Hnb | |].
    { apply starts_outside_numeric_after; [exact Hws3 | reflexivity]. }
    apply re_star_run; [exact Hws3 | reflexivity |].
    reflexivity.
  - intros Hrest. unfold Extract.axis_re.
    apply re_plus_run; [exact Hn | exact Hwn | reflexivity |].
    change (re_lit ":" (":" ++ ws1 ++ a ++ ws2 ++ b ++ rest)) with
      (fun k : string -> option (string * string * string * string) =>
         k (ws1 ++ a ++ ws2 ++ b ++ rest)%string).
    cbv beta.
    apply re_star_run; [exact Hws1 | apply starts_outside_space_before; assumption |].
    apply re_plus_run; [exact Ha | exact Hna |
                        apply starts_outside_numeric_before; assumption |].
    apply re_plus_run; [exact Hws2 | exact Hsp2 |
                        apply starts_outside_space_before; assumption |].
    assert (Hcls : forall c, is_space c || is_numeric c || Ascii.eqb c "L" = false ->
                             is_space c = false /\ is_numeric c = false /\
                             Ascii.eqb c "L" = false).
    { intros c Hc. apply orb_false_iff in Hc as [Hc HL].
      apply orb_false_iff in Hc as [Hs Hnum]. auto. }
    apply re_plus_run; [exact Hb | exact Hnb | |].
    { destruct rest as [| c rest]; [exact I |]. simpl in *. apply Hcls in Hrest. tauto. }
    change rest with ("" ++ rest)%string at 1.
    apply re_star_run; [reflexivity | |].
    { destruct rest as [| c rest]; [exact I |]. simpl in *. apply Hcls in Hrest. tauto. }
    destruct rest as [| c rest]; [reflexivity |].
    simpl in Hrest. apply Hcls in Hrest as (_ & _ & HL).
    unfold re_opt. rewrite Ascii.eqb_sym in HL. rewrite HL. reflexivity.
Qed.

Lemma axis_re_accepts_witness :
  Extract.axis_re ("X" ++ ":" ++ " " ++ "1e2" ++ "  " ++ "+.5" ++ " " ++ "L" ++ "og")
  = Some ("X", "1e2", "+.5", "L") /\
  (starts_outside (fun c => is_space c || is_numeric c || Ascii.eqb c "L") "og" ->
   Extract.axis_re ("X" ++ ":" ++ " " ++ "1e2" ++ "  " ++ "+.5" ++ "og")
   = Some ("X", "1e2", "+.5", "")).
Proof.
  apply (axis_re_accepts "X" " " "1e2" "  " "+.5" " " "og");
    solve [discriminate | reflexivity].
Defined.

(** Every name the axis grammar accepts has the documented form: the
    captured word, a colon, blanks, the first token, at least one blank,
    the second token, blanks, the flag, and an ignored rest. *)
Theorem axis_re_shape s g_name g_a g_b g_islog :
  Extract.axis_re s = Some (g_name, g_a, g_b, g_islog) ->
  exists ws1 ws2 ws3 rest,
    s = (g_name ++ ":" ++ ws1 ++ g_a ++ ws2 ++ g_b ++ ws3 ++ g_islog ++ rest)%string /\
    (g_name <> "" /\ all_chars is_word g_name = true) /\
    all_chars is_space ws1 = true /\
    (g_a <> "" /\ all_chars is_numeric g_a = true) /\
    (ws2 <> "" /\ all_chars is_space ws2 = true) /\
    (g_b <> "" /\ all_chars is_numeric g_b = true) /\
    all_chars is_space ws3 = true /\
    (g_islog = "L" \/ g_islog = "").
Proof.
  unfold Extract.axis_re. intros H.
  apply re_plus_inv in H as (m1 & r1 & -> & Hn1 & Hw1 & H).
  apply re_lit_inv in H as (r2 & -> & H).
  apply re_star_inv in H as (m3 & r3 & -> & Hw3 & H).
  apply re_plus_inv in H as (m4 & r4 & -> & Hn4 & Hw4 & H).
  apply re_plus_inv in H as (m5 & r5 & -> & Hn5 & Hw5 & H).
  apply re_plus_inv in H as (m6 & r6 & -> & Hn6 & Hw6 & H).
  apply re_star_inv in H as (m7 & r7 & -> & Hw7 & H).
  apply re_opt_inv in H as [(r8 & -> & H) | H]; injection H as <- <- <- <-.
  - exists m3, m5, m7, r8. split; [reflexivity |]. auto 12.
  - exists m3, m5, m7, r7. split; [reflexivity |]. auto 12.
Qed.

Lemma axis_re_shape_witness :
  exists ws1 ws2 ws3 rest,
    "X:0 100L" = ("X" ++ ":" ++ ws1 ++ "0" ++ ws2 ++ "100" ++ ws3 ++ "L" ++ rest)%string /\
    ("X" <> "" /\ all_chars is_word "X" = true) /\
    all_chars is_space ws1 = true /\
    ("0" <> "" /\ all_chars is_numeric "0" = true) /\
    (ws2 <> "" /\ all_chars is_space ws2 = true) /\
    ("100" <> "" /\ all_chars is_numeric "100" = true) /\
    all_chars is_space ws3 = true /\
    ("L" = "L" \/ "L" = "").
Proof. apply (axis_re_shape "X:0 100L" "X" "0" "100" "L"). reflexivity. Defined.

(** The scale grammar accepts every name that starts with a word, a colon,
    optional blanks and a token, with these groups, and ignores what
    follows the token; every name it accepts starts that way. *)
Theorem scale_re_language :
  (forall n ws a rest,
      n <> "" -> all_chars is_word n = true ->
      all_chars is_space ws = true ->
      a <> "" -> all_chars is_numeric a = true ->
      starts_outside is_numeric rest ->
      Measure.scale_re (n ++ ":" ++ ws ++ a ++ rest) = Some (n, a)) /\
  (forall s g_name g_length,
      Measure.scale_re s = Some (g_name, g_length) ->
      exists ws rest,
        s = (g_name ++ ":" ++ ws ++ g_length ++ rest)%string /\
        (g_name <> "" /\ all_chars is_word g_name = true) /\
        all_chars is_space ws = true /\
        (g_length <> "" /\ all_chars is_numeric g_length = true)).
Proof.
  split.
  - intros n ws a rest Hn Hwn Hws Ha Hna Hrest. unfold Measure.scale_re.
    apply re_plus_run; [exact Hn | exact Hwn | reflexivity |].
    change (re_lit ":" (":" ++ ws ++ a ++ rest)) with
      (fun k : string -> option (string * string) => k (ws ++ a ++ rest)%string).
    cbv beta.
    apply re_star_run; [exact Hws | apply starts_outside_space_before; assumption |].
    apply re_plus_run; [exact Ha | exact Hna | exact Hrest |].
    reflexivity.
  - unfold Measure.scale_re. intros s g_name g_length H.
    apply re_plus_inv in H as (m1 & r1 & -> & Hn1 & Hw1 & H).
    apply re_lit_inv in H as (r2 & -> & H).
    apply re_star_inv in H as (m3 & r3 & -> & Hw3 & H).
    apply re_plus_inv in H as (m4 & r4 & -> & Hn4 & Hw4 & H).
    injection H as <- <-.
    exists m3, r4. split; [reflexivity |]. auto 8.
Qed.

Lemma scale_re_language_witness :
  Measure.scale_re ("X" ++ ":" ++ " " ++ "0" ++ " 100 L") = Some ("X", "0").
Proof.
  apply (proj1 scale_re_language "X" " " "0" " 100 L");
    solve [discriminate | reflexivity].
Defined.

(** ** Tokens that are no float literals *)

Lemma span_digits_spec s : forall d r,
  span_digits s = (d, r) -> s = (d ++ r)%string /\ all_chars is_digit d = true.
Proof.
  induction s as [| c s IH]; intros d r; simpl.
  - intros [= <- <-]. auto.
  - destruct (is_digit c) eqn:Hc.
    + destruct (span_digits s) as [d' r'] eqn:Hs. intros [= <- <-].
      destruct (IH d' r' eq_refl) as [-> Hd]. rewrite append_cons. simpl.
      rewrite Hc, Hd. auto.
    + intros [= <- <-]. auto.
Qed.

Lemma take_sign_spec s neg s1 :
  take_sign s = (neg, s1) -> s = s1 \/ s = String "-" s1 \/ s = String "+" s1.
Proof.
  destruct s as [| c s]; simpl; [intros [= <- <-]; auto |].
  destruct c as [[] [] [] [] [] [] [] []]; intros [= <- <-]; auto.
Qed.

Lemma fraction_spec s2 fp s3 :
  match s2 with
  | String "." t => span_digits t
  | _ => ("", s2)
  end = (fp, s3) ->
  (fp = "" /\ s3 = s2) \/ (exists t, s2 = String "." t /\ span_digits t = (fp, s3)).
Proof.
  destruct s2 as [| c t]; [intros [= <- <-]; auto |].
  destruct c as [[] [] [] [] [] [] [] []]; try (intros [= <- <-]; auto).
  intros H. right. exists t. auto.
Qed.

Lemma digit_float_char c : is_digit c = true -> is_float_char c = true.
Proof. unfold is_float_char. intros ->. reflexivity. Qed.

Lemma digits_float_chars d : all_chars is_digit d = true -> all_chars is_float_char d = true.
Proof.
  induction d as [| c d IH]; [reflexivity |]. simpl. intros H.
  apply andb_true_iff in H as [Hc Hd]. rewrite (digit_float_char c Hc), IH by exact Hd.
  reflexivity.
Qed.

Lemma all_chars_append cls (s1 s2 : string) :
  all_chars cls s1 = true -> all_chars cls s2 = true -> all_chars cls (s1 ++ s2) = true.
Proof.
  induction s1 as [| c s1 IH]; intros H1 H2; [exact H2 |].
  rewrite append_cons. simpl in *. apply andb_true_iff in H1 as [Hc H1].
  rewrite Hc, IH by assumption. reflexivity.
Qed.

Lemma signed_digits_float_chars s neg s1 d r :
  take_sign s = (neg, s1) -> span_digits s1 = (d, r) ->
  all_chars is_float_char r = true -> all_chars is_float_char s = true.
Proof.
  intros Hsign Hspan Hr.
  destruct (span_digits_spec _ _ _ Hspan) as [-> Hd].
  assert (H1 : all_chars is_float_char (d ++ r) = true).
  { apply all_chars_append; [apply digits_float_chars, Hd | exact Hr]. }
  destruct (take_sign_spec _ _ _ Hsign) as [-> | [-> | ->]]; simpl; rewrite ?H1; reflexivity.
Qed.

Lemma float_exponent_chars s e :
  float_exponent s = Some e -> all_chars is_float_char s = true.
Proof.
  destruct s as [| c s]; [reflexivity |]. simpl.
  destruct (Ascii.eqb c "e" || Ascii.eqb c "E") eqn:Hc; [| discriminate].
  destruct (take_sign s) as [neg s1] eqn:Hsign.
  destruct (span_digits s1) as [d rest] eqn:Hspan.
  destruct d as [| c0 d]; [discriminate |].
  destruct rest; [| discriminate]. intros _.
  rewrite (signed_digits_float_chars s neg s1 _ "" Hsign Hspan eq_refl).
  unfold is_float_char.
  apply orb_true_iff in Hc as [-> | ->]; rewrite ?orb_true_r; reflexivity.
Qed.

(** A float literal is made of digits, signs, a point and [e] or [E]. *)
Lemma float_literal_chars s x :
  float_literal s = Some x -> all_chars is_float_char s = true.
Proof.
  unfold float_literal.
  destruct (take_sign s) as [neg s1] eqn:Hsign.
  destruct (span_digits s1) as [ip s2] eqn:Hip.
  destruct (match s2 with String "." t => span_digits t | _ => ("", s2) end)
    as [fp s3] eqn:Hfp.
  destruct (ip ++ fp)%string; [discriminate |].
  destruct (float_exponent s3) as [e |] eqn:He; [| discriminate]. intros _.
  apply float_exponent_chars in He.
  apply (signed_digits_float_chars s neg s1 ip s2 Hsign Hip).
  destruct (fraction_spec _ _ _ Hfp) as [[_ ->] | (t & -> & Hspan)]; [exact He |].
  destruct (span_digits_spec _ _ _ Hspan) as [-> Hd]. simpl.
  apply all_chars_append; [apply digits_float_chars, Hd | exact He].
Qed.

Lemma has_char_outside cls c s :
  cls c = false -> has_char c s = true -> all_chars cls s = false.
Proof.
  intros Hc. induction s as [| c' s IH]; simpl; [discriminate |].
  destruct (Ascii.eqb_spec c c') as [<- | Hne]; simpl.
  - intros _. rewrite Hc. reflexivity.
  - intros H. rewrite (IH H). apply andb_false_r.
Qed.

Lemma float_literal_f_g s :
  has_char "f" s || has_char "g" s = true -> float_literal s = None.
Proof.
  intros H. destruct (float_literal s) as [x |] eqn:Hlit; [| reflexivity].
  apply float_literal_chars in Hlit.
  apply orb_true_iff in H as [H | H].
  - rewrite (has_char_outside is_float_char "f" s eq_refl H) in Hlit. discriminate.
  - rewrite (has_char_outside is_float_char "g" s eq_refl H) in Hlit. discriminate.
Qed.

(** The token class of both grammars admits the letters [f] and [g], but no
    token holding one of them is a float literal: a line whose name is
    accepted with such a token always makes the parser raise
    [ValueError]. *)
Theorem token_with_f_or_g_raises :
  (forall item axes g_name g_a g_b g_islog,
      Annotation.type item = "line" ->
      Extract.axis_re (Annotation.name item) = Some (g_name, g_a, g_b, g_islog) ->
      has_char "f" g_a || has_char "g" g_a = true \/
      has_char "f" g_b || has_char "g" g_b = true ->
      Extract.getaxes_item item axes = Err ValueError) /\
  (forall item scales g_name g_length,
      Annotation.type item = "line" ->
      Measure.scale_re (Annotation.name item) = Some (g_name, g_length) ->
      has_char "f" g_length || has_char "g" g_length = true ->
      Measure.getscales_item item scales = Err ValueError).
Proof.
  split.
  - intros item axes g_name g_a g_b g_islog Ht Hm Hfg.
    rewrite (getaxes_item_match _ _ _ _ _ _ Ht Hm).
    destruct (py_float g_a) as [a | e] eqn:Ha; cbn [bind].
    + destruct Hfg as [Hfg | Hfg].
      * rewrite (py_float_not_literal _ (float_literal_f_g _ Hfg)) in Ha. discriminate.
      * rewrite (py_float_not_literal _ (float_literal_f_g _ Hfg)). reflexivity.
    + apply py_float_err in Ha as ->. reflexivity.
  - intros item scales g_name g_length Ht Hm Hfg.
    rewrite (getscales_item_match _ _ _ _ Ht Hm).
    rewrite (py_float_not_literal _ (float_literal_f_g _ Hfg)). reflexivity.
Qed.

Lemma token_with_f_or_g_raises_witness :
  Extract.getaxes_item (line "X: 1f 2" (0, 0) (10, 0)) [] = Err ValueError /\
  Measure.getscales_item (line "S: 2.5g" (0, 0) (10, 0)) [] = Err ValueError.
Proof.
  split.
  - apply (proj1 token_with_f_or_g_raises _ _ "X" "1f" "2" "");
      [reflexivity | reflexivity | left; reflexivity].
  - apply (proj2 token_with_f_or_g_raises _ _ "S" "2.5g"); reflexivity.
Defined.
